(** * The Azure Blob Storage replica client over a SAS URL (package abssas)

    A shallow embedding of [abssas/replica_sasclient.go]: the client record,
    its public operations, and the two background iterators, followed by the
    properties the design document states about them.

    Conventions of the embedding.
    - A Go [error] value is [option error]: [None] is [nil].
    - A Go pair [(v, err)] is a [result]: [Ok v] or [Err e]; the zero value
      that Go returns next to an error is not kept.
    - Go [int] and [int64] values are only copied here, never computed on, so
      they are [Z]; the one counter that is added to is wrapped explicitly.
    - The remote store, the clock and the packages the client imports are
      interfaces (type classes); every property is proved for all of their
      implementations, and instantiated on a small in-memory store.
    - The mutex of [Init] orders concurrent callers; the embedding is the
      sequential behaviour of one caller.
    - The goroutine of an iterator is a state machine. It starts with the
      iterator and runs on its own until it stands in its select (the channel
      is unbuffered) or has ended. What [Next] returns does not depend on how
      far the goroutine has come by itself; what [Close] returns does, so
      [Close] is given the schedule: the number of turns of its loop that the
      goroutine made before the context was cancelled. A request of the
      goroutine is answered by the store as the consumer's call finds it.
      The context given to the constructor is taken not to be cancelled from
      outside; [Close] is what cancels the derived context.
    - The metrics counters are incremented and never read; they are left
      out. *)

From Stdlib Require Import String Ascii List ZArith Lia Bool Sorted.
From Stdlib Require Import Relations.
Import ListNotations.
Open Scope string_scope.

(* ================================================================= *)
(** ** Errors *)

(** The error values the client creates or passes on. [Errorf] and [ErrorfW]
    keep the format string of the [fmt.Errorf] call and its arguments;
    [ErrorfW] wraps the cause given to the [%w] verb. *)
Inductive error : Type :=
| ErrNotExist                                   (* os.ErrNotExist *)
| StorageError (serviceCode : string)           (* azblob.StorageError *)
| ForeignError (msg : string)                   (* any other collaborator error *)
| Errorf (format : string) (args : list string)
| ErrorfW (format : string) (args : list string) (cause : error).

Inductive result (A : Type) : Type :=
| Ok (a : A)
| Err (e : error).
Arguments Ok {A} a.
Arguments Err {A} e.

(* ================================================================= *)
(** ** The Go standard library, as far as the client calls it *)

Module strings.

(** [s] without the leading [pre], when it starts with it. *)
Fixpoint stripPrefix (pre s : string) : option string :=
  match pre, s with
  | EmptyString, _ => Some s
  | String a pre', String b s' =>
      if Ascii.eqb a b then stripPrefix pre' s' else None
  | String _ _, EmptyString => None
  end.

(* strings.TrimPrefix *)
Definition TrimPrefix (s pre : string) : string :=
  match stripPrefix pre s with
  | Some r => r
  | None => s
  end.

(* strings.Split with a one-byte separator, the only way the client calls it *)
Fixpoint Split (s : string) (sep : ascii) : list string :=
  match s with
  | EmptyString => [EmptyString]
  | String c r =>
      if Ascii.eqb c sep then EmptyString :: Split r sep
      else match Split r sep with
           | h :: t => String c h :: t
           | [] => [String c EmptyString]
           end
  end.

(* strings.Join *)
Definition Join (elems : list string) (sep : string) : string :=
  String.concat sep elems.

(** [s] without a trailing [c], when it ends with it. *)
Fixpoint dropLast (s : string) (c : ascii) : string :=
  match s with
  | EmptyString => EmptyString
  | String a EmptyString => if Ascii.eqb a c then EmptyString else s
  | String a r => String a (dropLast r c)
  end.

(* strings.TrimSuffix with a one-byte suffix *)
Definition TrimSuffix (s : string) (suffix : ascii) : string :=
  dropLast s suffix.

End strings.

Module path.

Definition nonEmpty (s : string) : bool := negb (s =? "").

(* path.Base: "." for the empty path, "/" for a path of slashes only,
   otherwise the last element, trailing slashes removed *)
Definition Base (p : string) : string :=
  if p =? "" then "."
  else last (filter nonEmpty (strings.Split p "/"%char)) "/".

End path.

Module time.

Inductive Location : Type :=
| UTCLocation
| OtherLocation (name : string).

(** An instant in nanoseconds and the location it is displayed in. *)
Record Time : Type := { instant : Z; loc : Location }.

(* Time.UTC: the same instant, location set to UTC *)
Definition UTC (t : Time) : Time :=
  {| instant := instant t; loc := UTCLocation |}.

(* a Duration is a count of nanoseconds *)
Definition Hour : Z := 3600 * 1000000000.

End time.

Module url.

Record URL : Type := {
  Scheme : string;
  Opaque : string;
  User : string;
  Host : string;
  Path : string;
  RawPath : string;
  ForceQuery : bool;
  RawQuery : string;
  Fragment : string;
  RawFragment : string
}.

(** Assignment to the [Path] field of a copy. *)
Definition withPath (u : URL) (p : string) : URL :=
  {| Scheme := Scheme u; Opaque := Opaque u; User := User u;
     Host := Host u; Path := p; RawPath := RawPath u;
     ForceQuery := ForceQuery u; RawQuery := RawQuery u;
     Fragment := Fragment u; RawFragment := RawFragment u |}.

(** [url.Parse] is a pure function of its argument. *)
Class Parser : Type := { Parse : string -> result URL }.

End url.

(* ================================================================= *)
(** ** The azblob SDK *)

Module azblob.

Definition ServiceCodeBlobNotFound : string := "BlobNotFound".

(* type Marker struct { Val *string } *)
Record Marker : Type := { Val : option string }.

(** The zero value, [var marker azblob.Marker]. *)
Definition zeroMarker : Marker := {| Val := None |}.

(* func (m Marker) NotDone() bool { return m.Val == nil || *m.Val != "" } *)
Definition NotDone (m : Marker) : bool :=
  match Val m with
  | None => true
  | Some v => negb (v =? "")
  end.

Record BlobProperties : Type := {
  ContentLength : option Z;            (* *int64 *)
  CreationTime : option time.Time      (* *time.Time *)
}.

Record BlobItem : Type := { Name : string; Properties : BlobProperties }.

Record BlobPrefix : Type := { PrefixName : string }.

Record ListBlobsFlatSegmentResponse : Type := {
  NextMarker : Marker;
  BlobItems : list BlobItem            (* Segment.BlobItems *)
}.

Record ListBlobsHierarchySegmentResponse : Type := {
  HierarchyNextMarker : Marker;
  BlobPrefixes : list BlobPrefix       (* Segment.BlobPrefixes *)
}.

Inductive Credential : Type := AnonymousCredential.

Record RetryOptions : Type := { TryTimeout : Z }.
Record PipelineOptions : Type := { Retry : RetryOptions }.
Record Pipeline : Type := {
  pipelineCredential : Credential;
  pipelineOptions : PipelineOptions
}.

Definition NewAnonymousCredential : Credential := AnonymousCredential.
Definition NewPipeline (c : Credential) (o : PipelineOptions) : Pipeline :=
  {| pipelineCredential := c; pipelineOptions := o |}.

(** A container handle is the URL it was made from and its pipeline. *)
Record ContainerURL : Type := {
  containerAddress : url.URL;
  containerPipeline : Pipeline
}.

Definition NewContainerURL (u : url.URL) (p : Pipeline) : ContainerURL :=
  {| containerAddress := u; containerPipeline := p |}.

(** The response of a download: its length header and its body. *)
Record DownloadResponse : Type := {
  DownloadContentLength : Z;
  Body : list Byte.byte
}.

(** What an upload answers: the time the store reports for the new blob. *)
Record UploadResponse : Type := { LastModified : time.Time }.

End azblob.

(** [io.Reader]: [Read r n] asks for at most [n] bytes and gives the bytes
    read, the error (such as [io.EOF]) and the reader afterwards. *)
Class Reader (R : Type) : Type := {
  Read : R -> nat -> list Byte.byte * option error * R
}.

(** [azblob.UploadStreamToBlockBlob] reads its source as it sees fit: it is a
    tree of read requests ending in the store's answer and the world after. *)
Inductive upload (W : Type) : Type :=
| UploadRead (n : nat) (k : list Byte.byte -> option error -> upload W)
| UploadDone (r : result azblob.UploadResponse) (w : W).
Arguments UploadRead {W} n k.
Arguments UploadDone {W} r w.

(** The remote store and the clock. [W] is the state of the world; listing
    reads it, deleting and uploading change it. A listing call is given
    whether its context is already cancelled. *)
Class Service (W : Type) : Type := {
  time_Now : W -> time.Time;
  ListBlobsFlatSegment :
    W -> azblob.ContainerURL -> bool -> azblob.Marker -> string ->
    result azblob.ListBlobsFlatSegmentResponse;
  ListBlobsHierarchySegment :
    W -> azblob.ContainerURL -> azblob.Marker -> string -> string ->
    result azblob.ListBlobsHierarchySegmentResponse;
  BlobDelete : W -> azblob.ContainerURL -> string -> option error * W;
  BlobDownload :
    W -> azblob.ContainerURL -> string -> result azblob.DownloadResponse * W;
  UploadStreamToBlockBlob : W -> azblob.ContainerURL -> string -> upload W
}.

(* ================================================================= *)
(** ** Packages litestream and litestream/internal *)

Module Pos.
Record t : Type := { Generation : string; Index : Z; Offset : Z }.
End Pos.

Module SnapshotInfo.
Record t : Type := {
  Generation : string;
  Index : Z;
  Size : Z;
  CreatedAt : time.Time
}.
End SnapshotInfo.

Module WALSegmentInfo.
Record t : Type := {
  Generation : string;
  Index : Z;
  Offset : Z;
  Size : Z;
  CreatedAt : time.Time
}.
End WALSegmentInfo.

Module litestream.

(** The path functions of package litestream, whose file is absent. The
    client is written against these signatures only, so they are an
    interface here; [Codec] below gives the layout the design document
    describes. *)
Class Paths : Type := {
  GenerationsPath : string -> string;
  GenerationPath : string -> string -> result string;
  SnapshotsPath : string -> string -> result string;
  SnapshotPath : string -> string -> Z -> result string;
  ParseSnapshotPath : string -> result Z;
  WALPath : string -> string -> result string;
  WALSegmentPath : string -> string -> Z -> Z -> result string;
  ParseWALSegmentPath : string -> result (Z * Z);
  IsGenerationName : string -> bool
}.

End litestream.

Module internal.

(** Wrap-around of a 64-bit signed integer. *)
Definition int64 (z : Z) : Z := (z + 2 ^ 63) mod 2 ^ 64 - 2 ^ 63.

(** Modelled from the spec: [internal.ReadCounter], the counting wrapper
    around the byte source of an upload, whose file is absent. It passes
    every read through to the source and adds the number of bytes the read
    returned to its count, an int64. *)
Record ReadCounter (R : Type) : Type := { source : R; count : Z }.
Arguments source {R} r.
Arguments count {R} r.

(** Modelled from the spec: [internal.NewReadCounter], the wrapper around a
    source, nothing counted yet. *)
Definition NewReadCounter {R : Type} (rd : R) : ReadCounter R :=
  {| source := rd; count := 0 |}.

(** Modelled from the spec: [ReadCounter.N], the bytes counted so far. *)
Definition N {R : Type} (rc : ReadCounter R) : Z := count rc.

(** Modelled from the spec: [ReadCounter.Read], the read of the source passed
    through, its length added to the count. *)
#[global] Instance ReadCounter_Reader {R : Type} `{Reader R}
  : Reader (ReadCounter R) :=
  {| Read rc n :=
       let '(data, err, rd) := Read (source rc) n in
       (data, err,
        {| source := rd;
           count := int64 (count rc + Z.of_nat (List.length data)) |}) |}.

End internal.

(* ================================================================= *)
(** ** Outcomes *)

(** A call returns, or panics (a nil pointer is dereferenced), or is still in
    its paging loop after the number of page requests it was allowed. *)
Inductive outcome (A : Type) : Type :=
| Returns (a : A)
| Panics (msg : string)
| Unfinished.
Arguments Returns {A} a.
Arguments Panics {A} msg.
Arguments Unfinished {A}.

Definition nilDereference : string :=
  "invalid memory address or nil pointer dereference".

(* ================================================================= *)
(** ** The client *)

(* ReplicaClientType is the client type for this package. *)
Definition ReplicaClientType : string := "abssas".

(* ReplicaClient is a client for writing snapshots & WAL segments to disk. *)
Record ReplicaClient : Type := {
  containerURL : option azblob.ContainerURL;
  container : string;
  path : string;
  sasURL : string
}.

(* isNotExists: a type switch on azblob.StorageError, then its service code *)
Definition isNotExists (err : option error) : bool :=
  match err with
  | Some (StorageError code) => code =? azblob.ServiceCodeBlobNotFound
  | _ => false
  end.

(** Runs an upload against a byte source. *)
Fixpoint runUpload {W R : Type} `{Reader R} (u : upload W) (rd : R)
  : result azblob.UploadResponse * W * R :=
  match u with
  | UploadRead n k =>
      let '(data, err, rd') := Read rd n in runUpload (k data err) rd'
  | UploadDone res w => (res, w, rd)
  end.

Section Client.

Context {parser : url.Parser} {paths : litestream.Paths}.
Context {W : Type} {service : Service W}.

(* NewReplicaClient returns a new instance of ReplicaClient. *)
Definition NewReplicaClient (sasUrl : string) : result ReplicaClient :=
  match url.Parse sasUrl with
  | Err err => Err err
  | Ok u =>
      (* Extract container name and path from URL *)
      let pathParts :=
        strings.Split (strings.TrimPrefix (url.Path u) "/") "/"%char in
      if (List.length pathParts <? 1)%nat then
        Err (Errorf "invalid SAS URL format: missing container name" [])
      else
        (* First part is the container name *)
        let container := nth 0 pathParts "" in
        (* The rest is the path (if any) *)
        let path :=
          if (1 <? List.length pathParts)%nat
          then strings.Join (skipn 1 pathParts) "/"
          else "" in
        Ok {| containerURL := None;
              container := container;
              path := path;
              sasURL := sasUrl |}
  end.

(* Type returns "abs" as the client type. *)
Definition Type_ (c : ReplicaClient) : string := ReplicaClientType.

(** Assignment to [c.containerURL]. *)
Definition withContainerURL (c : ReplicaClient) (h : azblob.ContainerURL)
  : ReplicaClient :=
  {| containerURL := Some h;
     container := container c;
     path := path c;
     sasURL := sasURL c |}.

(* Init initializes the connection to Azure. No-op if already initialized. *)
Definition Init (c : ReplicaClient) : option error * ReplicaClient :=
  match containerURL c with
  | Some _ => (None, c)
  | None =>
      (* Parse the SAS URL *)
      match url.Parse (sasURL c) with
      | Err err => (Some (ErrorfW "cannot parse SAS URL: %w" [] err), c)
      | Ok sasURL =>
          let pipeline :=
            azblob.NewPipeline azblob.NewAnonymousCredential
              {| azblob.Retry :=
                   {| azblob.TryTimeout := 24 * time.Hour |} |} in
          (* Set the path to just the container part *)
          let containerURLStr := url.withPath sasURL ("/" ++ container c) in
          let containerURL := azblob.NewContainerURL containerURLStr pipeline in
          (None, withContainerURL c containerURL)
      end
  end.

(** A method call through [c.containerURL], a pointer that is nil until
    [Init] has set it. *)
Definition withHandle {A : Type} (c : ReplicaClient)
  (k : azblob.ContainerURL -> outcome A) : outcome A :=
  match containerURL c with
  | Some h => k h
  | None => Panics nilDereference
  end.

(** The body of the loop over [resp.Segment.BlobPrefixes] in [Generations]. *)
Fixpoint appendGenerations (prefixes : list azblob.BlobPrefix)
  (generations : list string) : list string :=
  match prefixes with
  | [] => generations
  | prefix :: rest =>
      let name :=
        path.Base (strings.TrimSuffix (azblob.PrefixName prefix) "/"%char) in
      if negb (litestream.IsGenerationName name)
      then appendGenerations rest generations
      else appendGenerations rest (generations ++ [name])
  end.

(** The loop [for marker.NotDone()] of [Generations], at most [fuel] pages. *)
Fixpoint generationsLoop (fuel : nat) (c : ReplicaClient) (w : W)
  (marker : azblob.Marker) (generations : list string)
  : outcome (result (list string)) :=
  if azblob.NotDone marker then
    match fuel with
    | O => Unfinished
    | S fuel' =>
        (* Use the full path including the path component after the container *)
        let prefix := litestream.GenerationsPath (path c) ++ "/" in
        withHandle c (fun h =>
          match ListBlobsHierarchySegment w h marker "/" prefix with
          | Err err => Returns (Err err)
          | Ok resp =>
              generationsLoop fuel' c w (azblob.HierarchyNextMarker resp)
                (appendGenerations (azblob.BlobPrefixes resp) generations)
          end)
    end
  else Returns (Ok generations).

(* Generations returns a list of available generation names. *)
Definition Generations (fuel : nat) (c : ReplicaClient) (w : W)
  : outcome (result (list string) * ReplicaClient) :=
  match Init c with
  | (Some err, c) => Returns (Err err, c)
  | (None, c) =>
      match generationsLoop fuel c w azblob.zeroMarker [] with
      | Returns r => Returns (r, c)
      | Panics msg => Panics msg
      | Unfinished => Unfinished
      end
  end.

(** The loop over [resp.Segment.BlobItems] in [DeleteGeneration]. *)
Fixpoint deleteItems (w : W) (h : azblob.ContainerURL)
  (items : list azblob.BlobItem) : option error * W :=
  match items with
  | [] => (None, w)
  | item :: rest =>
      let '(err, w) := BlobDelete w h (azblob.Name item) in
      if isNotExists err then deleteItems w h rest
      else match err with
           | Some err => (Some err, w)
           | None => deleteItems w h rest
           end
  end.

(** The loop [for marker.NotDone()] of [DeleteGeneration]. *)
Fixpoint deleteGenerationLoop (fuel : nat) (c : ReplicaClient) (w : W)
  (dir : string) (marker : azblob.Marker) : outcome (option error * W) :=
  if azblob.NotDone marker then
    match fuel with
    | O => Unfinished
    | S fuel' =>
        (* Use the full path including the path component after the container *)
        let prefix := dir ++ "/" in
        withHandle c (fun h =>
          match ListBlobsFlatSegment w h false marker prefix with
          | Err err => Returns (Some err, w)
          | Ok resp =>
              match deleteItems w h (azblob.BlobItems resp) with
              | (Some err, w) => Returns (Some err, w)
              | (None, w) =>
                  deleteGenerationLoop fuel' c w dir (azblob.NextMarker resp)
              end
          end)
    end
  else Returns (None, w).

(* DeleteGeneration deletes all snapshots & WAL segments within a generation. *)
Definition DeleteGeneration (fuel : nat) (c : ReplicaClient) (w : W)
  (generation : string) : outcome (option error * ReplicaClient * W) :=
  match Init c with
  | (Some err, c) => Returns (Some err, c, w)
  | (None, c) =>
      match litestream.GenerationPath (path c) generation with
      | Err err =>
          Returns
            (Some (ErrorfW "cannot determine generation path: %w" [] err),
             c, w)
      | Ok dir =>
          match deleteGenerationLoop fuel c w dir azblob.zeroMarker with
          | Returns (err, w) => Returns (err, c, w)
          | Panics msg => Panics msg
          | Unfinished => Unfinished
          end
      end
  end.

(* WriteSnapshot writes LZ4 compressed data from rd to the object storage. *)
Definition WriteSnapshot {R : Type} `{Reader R} (c : ReplicaClient) (w : W)
  (generation : string) (index : Z) (rd : R)
  : outcome (result SnapshotInfo.t * ReplicaClient * W * R) :=
  match Init c with
  | (Some err, c) => Returns (Err err, c, w, rd)
  | (None, c) =>
      match litestream.SnapshotPath (path c) generation index with
      | Err err =>
          Returns
            (Err (ErrorfW "cannot determine snapshot path: %w" [] err),
             c, w, rd)
      | Ok key =>
          let startTime := time_Now w in
          let rc := internal.NewReadCounter rd in
          withHandle c (fun h =>
            match runUpload (UploadStreamToBlockBlob w h key) rc with
            | (Err err, w, rc) => Returns (Err err, c, w, internal.source rc)
            | (Ok _, w, rc) =>
                Returns
                  (Ok {| SnapshotInfo.Generation := generation;
                         SnapshotInfo.Index := index;
                         SnapshotInfo.Size := internal.N rc;
                         SnapshotInfo.CreatedAt := time.UTC startTime |},
                   c, w, internal.source rc)
            end)
      end
  end.

(* SnapshotReader returns a reader for snapshot data at the given
   generation/index. *)
Definition SnapshotReader (c : ReplicaClient) (w : W) (generation : string)
  (index : Z) : outcome (result (list Byte.byte) * ReplicaClient * W) :=
  match Init c with
  | (Some err, c) => Returns (Err err, c, w)
  | (None, c) =>
      match litestream.SnapshotPath (path c) generation index with
      | Err err =>
          Returns
            (Err (ErrorfW "cannot determine snapshot path: %w" [] err), c, w)
      | Ok key =>
          withHandle c (fun h =>
            match BlobDownload w h key with
            | (Err err, w) =>
                if isNotExists (Some err) then Returns (Err ErrNotExist, c, w)
                else
                  Returns
                    (Err (ErrorfW "cannot start new reader for %q: %w"
                            [key] err), c, w)
            | (Ok resp, w) => Returns (Ok (azblob.Body resp), c, w)
            end)
      end
  end.

(* DeleteSnapshot deletes a snapshot with the given generation & index. *)
Definition DeleteSnapshot (c : ReplicaClient) (w : W) (generation : string)
  (index : Z) : outcome (option error * ReplicaClient * W) :=
  match Init c with
  | (Some err, c) => Returns (Some err, c, w)
  | (None, c) =>
      match litestream.SnapshotPath (path c) generation index with
      | Err err =>
          Returns
            (Some (ErrorfW "cannot determine snapshot path: %w" [] err), c, w)
      | Ok key =>
          withHandle c (fun h =>
            let '(err, w) := BlobDelete w h key in
            if isNotExists err then Returns (None, c, w)
            else match err with
                 | Some err =>
                     Returns
                       (Some (ErrorfW "cannot delete snapshot %q: %w"
                                [key] err), c, w)
                 | None => Returns (None, c, w)
                 end)
      end
  end.

(* WriteWALSegment writes LZ4 compressed data from rd into a file on disk. *)
Definition WriteWALSegment {R : Type} `{Reader R} (c : ReplicaClient) (w : W)
  (pos : Pos.t) (rd : R)
  : outcome (result WALSegmentInfo.t * ReplicaClient * W * R) :=
  match Init c with
  | (Some err, c) => Returns (Err err, c, w, rd)
  | (None, c) =>
      match litestream.WALSegmentPath (path c) (Pos.Generation pos)
              (Pos.Index pos) (Pos.Offset pos) with
      | Err err =>
          Returns
            (Err (ErrorfW "cannot determine wal segment path: %w" [] err),
             c, w, rd)
      | Ok key =>
          let startTime := time_Now w in
          let rc := internal.NewReadCounter rd in
          withHandle c (fun h =>
            match runUpload (UploadStreamToBlockBlob w h key) rc with
            | (Err err, w, rc) => Returns (Err err, c, w, internal.source rc)
            | (Ok _, w, rc) =>
                Returns
                  (Ok {| WALSegmentInfo.Generation := Pos.Generation pos;
                         WALSegmentInfo.Index := Pos.Index pos;
                         WALSegmentInfo.Offset := Pos.Offset pos;
                         WALSegmentInfo.Size := internal.N rc;
                         WALSegmentInfo.CreatedAt := time.UTC startTime |},
                   c, w, internal.source rc)
            end)
      end
  end.

(* WALSegmentReader returns a reader for a section of WAL data at the given
   index. Returns os.ErrNotExist if no matching index/offset is found. *)
Definition WALSegmentReader (c : ReplicaClient) (w : W) (pos : Pos.t)
  : outcome (result (list Byte.byte) * ReplicaClient * W) :=
  match Init c with
  | (Some err, c) => Returns (Err err, c, w)
  | (None, c) =>
      match litestream.WALSegmentPath (path c) (Pos.Generation pos)
              (Pos.Index pos) (Pos.Offset pos) with
      | Err err =>
          Returns
            (Err (ErrorfW "cannot determine wal segment path: %w" [] err),
             c, w)
      | Ok key =>
          withHandle c (fun h =>
            match BlobDownload w h key with
            | (Err err, w) =>
                if isNotExists (Some err) then Returns (Err ErrNotExist, c, w)
                else
                  Returns
                    (Err (ErrorfW "cannot start new reader for %q: %w"
                            [key] err), c, w)
            | (Ok resp, w) => Returns (Ok (azblob.Body resp), c, w)
            end)
      end
  end.

(** The loop over the positions in [DeleteWALSegments]. *)
Fixpoint deleteWALSegmentsLoop (c : ReplicaClient) (w : W) (a : list Pos.t)
  : outcome (option error * W) :=
  match a with
  | [] => Returns (None, w)
  | pos :: rest =>
      match litestream.WALSegmentPath (path c) (Pos.Generation pos)
              (Pos.Index pos) (Pos.Offset pos) with
      | Err err =>
          Returns
            (Some (ErrorfW "cannot determine wal segment path: %w" [] err), w)
      | Ok key =>
          withHandle c (fun h =>
            let '(err, w) := BlobDelete w h key in
            if isNotExists err then deleteWALSegmentsLoop c w rest
            else match err with
                 | Some err =>
                     Returns
                       (Some (ErrorfW "cannot delete wal segment %q: %w"
                                [key] err), w)
                 | None => deleteWALSegmentsLoop c w rest
                 end)
      end
  end.

(* DeleteWALSegments deletes WAL segments with at the given positions. *)
Definition DeleteWALSegments (c : ReplicaClient) (w : W) (a : list Pos.t)
  : outcome (option error * ReplicaClient * W) :=
  match Init c with
  | (Some err, c) => Returns (Some err, c, w)
  | (None, c) =>
      match deleteWALSegmentsLoop c w a with
      | Returns (err, w) => Returns (err, c, w)
      | Panics msg => Panics msg
      | Unfinished => Unfinished
      end
  end.

End Client.

(* ================================================================= *)
(** ** The iterators *)

(** [snapshotIterator] and [walSegmentIterator] are the same text up to the
    entry type, the directory that is listed and the way a listed blob is
    decoded; [Iterator] below is that text once, over these.

    The goroutine running [fetch] hands every entry to the consumer over an
    unbuffered channel. [fetchTask] is a place where it can stand, together
    with the local variables of [fetch]; the channel is closed exactly when
    the task has returned. The [task] of an iterator is the place up to which
    the goroutine is known to have come: where the constructor or the last
    [Next] left it. From the head of its loop it goes on by itself, to its
    select or to its end, while the consumer does something else. *)
Inductive fetchTask (T : Type) : Type :=
| AtLoop (dir : string) (marker : azblob.Marker)
    (* about to test [marker.NotDone()] *)
| AtSend (dir : string) (info : T) (rest : list azblob.BlobItem)
    (marker : azblob.Marker)
    (* in the select, offering [info]; [rest] is still to be ranged over *)
| Returned (err : option error)
    (* fetch has returned [err] to the error group; the channel is closed *)
| Crashed (msg : string).
    (* fetch has panicked *)
Arguments AtLoop {T} dir marker.
Arguments AtSend {T} dir info rest marker.
Arguments Returned {T} err.
Arguments Crashed {T} msg.

(** What decoding one listed blob gives: nothing (the key does not parse, the
    loop continues), an entry, or a panic (a nil property is dereferenced). *)
Inductive entry (T : Type) : Type :=
| NoEntry
| Entry (info : T)
| BadEntry (msg : string).
Arguments NoEntry {T}.
Arguments Entry {T} info.
Arguments BadEntry {T} msg.

(** How a loop over an iterator ends: its bound is reached while [Next] still
    gives entries, [Next] returns false, or [Next] does not return. *)
Inductive loopEnd : Type := Cut | Ended | Stuck.

(* type snapshotIterator / walSegmentIterator struct *)
Record iterator (T : Type) : Type := {
  client : ReplicaClient;
  generation : string;
  task : fetchTask T;     (* ch and g: the goroutine and its channel *)
  ctxDone : bool;         (* ctx and cancel: whether cancel has been called *)
  info : T;
  err : option error
}.
Arguments client {T} i.
Arguments generation {T} i.
Arguments task {T} i.
Arguments ctxDone {T} i.
Arguments info {T} i.
Arguments err {T} i.

Definition zeroTime : time.Time :=
  {| time.instant := 0; time.loc := time.UTCLocation |}.

Definition zeroSnapshotInfo : SnapshotInfo.t :=
  {| SnapshotInfo.Generation := "";
     SnapshotInfo.Index := 0;
     SnapshotInfo.Size := 0;
     SnapshotInfo.CreatedAt := zeroTime |}.

Definition zeroWALSegmentInfo : WALSegmentInfo.t :=
  {| WALSegmentInfo.Generation := "";
     WALSegmentInfo.Index := 0;
     WALSegmentInfo.Offset := 0;
     WALSegmentInfo.Size := 0;
     WALSegmentInfo.CreatedAt := zeroTime |}.

Section Iterators.

Context {parser : url.Parser} {paths : litestream.Paths}.
Context {W : Type} {service : Service W}.

Section Iterator.

Variable T : Type.
(** The zero value of the entry type. *)
Variable zero : T.
(** The directory to list: [litestream.SnapshotsPath] or [litestream.WALPath]. *)
Variable dirOf : string -> string -> result string.
(** The format of the error when the directory cannot be determined. *)
Variable dirError : string.
(** The body of the loop over the blobs of a page, up to the select. *)
Variable decode : string -> azblob.BlobItem -> entry T.

(** The loop over [resp.Segment.BlobItems], up to its next select. *)
Fixpoint fetchItems (generation dir : string) (items : list azblob.BlobItem)
  (marker : azblob.Marker) : fetchTask T :=
  match items with
  | [] => AtLoop dir marker
  | item :: rest =>
      match decode generation item with
      | NoEntry => fetchItems generation dir rest marker
      | Entry info => AtSend dir info rest marker
      | BadEntry msg => Crashed msg
      end
  end.

(** One turn of the loop [for marker.NotDone()], up to its first select. *)
Definition fetchPage (w : W) (client : ReplicaClient) (generation : string)
  (done : bool) (dir : string) (marker : azblob.Marker) : fetchTask T :=
  if azblob.NotDone marker then
    (* Use the full path including the path component after the container *)
    let prefix := dir ++ "/" in
    match containerURL client with
    | None => Crashed nilDereference
    | Some h =>
        match ListBlobsFlatSegment w h done marker prefix with
        | Err err => Returned (Some err)
        | Ok resp =>
            fetchItems generation dir (azblob.BlobItems resp)
              (azblob.NextMarker resp)
        end
    end
  else Returned None.

(** The start of [fetch], up to the loop. *)
Definition fetchStart (client : ReplicaClient) (generation : string)
  : fetchTask T :=
  match dirOf (path client) generation with
  | Err err => Returned (Some (ErrorfW dirError [] err))
  | Ok dir => AtLoop dir azblob.zeroMarker
  end.

(** The goroutine runs until it blocks in the select or has ended, for at most
    [fuel] steps. With the context cancelled and no consumer receiving, the
    select takes [ctx.Done()] and the entry is dropped. *)
Fixpoint fetchRun (fuel : nat) (w : W) (client : ReplicaClient)
  (generation : string) (done : bool) (t : fetchTask T) : fetchTask T :=
  match t with
  | AtLoop dir marker =>
      match fuel with
      | O => t
      | S fuel' =>
          fetchRun fuel' w client generation done
            (fetchPage w client generation done dir marker)
      end
  | AtSend dir _ rest marker =>
      if done then
        match fuel with
        | O => t
        | S fuel' =>
            fetchRun fuel' w client generation done
              (fetchItems generation dir rest marker)
        end
      else t
  | Returned _ => t
  | Crashed _ => t
  end.

(* newSnapshotIterator / newWALSegmentIterator *)
Definition newIterator (generation : string) (client : ReplicaClient)
  : iterator T :=
  {| client := client;
     generation := generation;
     task := fetchStart client generation;
     ctxDone := false;
     info := zero;
     err := None |}.

Definition withTask (itr : iterator T) (t : fetchTask T) : iterator T :=
  {| client := client itr; generation := generation itr; task := t;
     ctxDone := ctxDone itr; info := info itr; err := err itr |}.

(* Next. [None]: the call has not returned after [fuel] steps of the
   goroutine, or the goroutine has panicked. Once the context is cancelled
   the select has a ready case that returns false; after [Close] has returned
   the channel is closed as well, and both cases return false. With the
   context live the call waits for the goroutine, which reaches its select or
   its end the same way whether it set out before the call or with it. *)
Definition Next (fuel : nat) (w : W) (itr : iterator T)
  : option bool * iterator T :=
  (* Exit if an error has already occurred. *)
  match err itr with
  | Some _ => (Some false, itr)
  | None =>
      if ctxDone itr then
        (* case <-itr.ctx.Done() *)
        (Some false, itr)
      else
        match fetchRun fuel w (client itr) (generation itr) false (task itr)
        with
        | AtSend dir info rest marker =>
            (* case info, ok := <-itr.ch, ok *)
            (Some true,
             {| client := client itr; generation := generation itr;
                task := fetchItems (generation itr) dir rest marker;
                ctxDone := ctxDone itr; info := info; err := err itr |})
        | Returned e =>
            (* case info, ok := <-itr.ch, !ok *)
            (Some false, withTask itr (Returned e))
        | t => (None, withTask itr t)
        end
  end.

(* Err *)
Definition Err_ (itr : iterator T) : option error := err itr.

(* Snapshot / WALSegment *)
Definition Current (itr : iterator T) : T := info itr.

(* Close. The goroutine started with the iterator and does not wait for the
   consumer at the head of its loop: by the time [Close] cancels the context
   it has made [ahead] more turns of that loop by itself, their requests
   under the context as it was, or fewer when it came to its select or to
   its end before. [ahead = 0] is the goroutine that was not scheduled, or
   whose request was still in flight, when the context was cancelled.
   [None]: g.Wait() has not returned after [fuel] further steps of the
   goroutine, or the goroutine has panicked. *)
Definition Close (fuel ahead : nat) (w : W) (itr : iterator T)
  : option (option error) * iterator T :=
  let err0 := err itr in
  let t0 :=
    fetchRun ahead w (client itr) (generation itr) (ctxDone itr) (task itr) in
  (* Cancel context and wait for error group to finish. *)
  let t := fetchRun fuel w (client itr) (generation itr) true t0 in
  let itr' :=
    {| client := client itr; generation := generation itr; task := t;
       ctxDone := true; info := info itr; err := err itr |} in
  match t with
  | Returned e =>
      (Some match e, err0 with
            | Some _, None => e
            | _, _ => err0
            end, itr')
  | _ => (None, itr')
  end.

(** The consumer's loop [for itr.Next() { ... itr.Current() ... }], for at
    most [k] turns: the entries it sees, how the loop ended, and the iterator
    afterwards. *)
Fixpoint iterate (k fuel : nat) (w : W) (itr : iterator T)
  : list T * loopEnd * iterator T :=
  match k with
  | O => ([], Cut, itr)
  | S k' =>
      match Next fuel w itr with
      | (Some true, itr') =>
          let '(l, r, itr'') := iterate k' fuel w itr' in
          (Current itr' :: l, r, itr'')
      | (Some false, itr') => ([], Ended, itr')
      | (None, itr') => ([], Stuck, itr')
      end
  end.

End Iterator.

(** The body of the loop in [snapshotIterator.fetch], up to the select. *)
Definition snapshotEntry (generation : string) (item : azblob.BlobItem)
  : entry SnapshotInfo.t :=
  let key := path.Base (azblob.Name item) in
  match litestream.ParseSnapshotPath key with
  | Err _ => NoEntry
  | Ok index =>
      match azblob.ContentLength (azblob.Properties item),
            azblob.CreationTime (azblob.Properties item) with
      | Some size, Some created =>
          Entry {| SnapshotInfo.Generation := generation;
                   SnapshotInfo.Index := index;
                   SnapshotInfo.Size := size;
                   SnapshotInfo.CreatedAt := time.UTC created |}
      | _, _ => BadEntry nilDereference
      end
  end.

(** The body of the loop in [walSegmentIterator.fetch], up to the select. *)
Definition walSegmentEntry (generation : string) (item : azblob.BlobItem)
  : entry WALSegmentInfo.t :=
  let key := path.Base (azblob.Name item) in
  match litestream.ParseWALSegmentPath key with
  | Err _ => NoEntry
  | Ok (index, offset) =>
      match azblob.ContentLength (azblob.Properties item),
            azblob.CreationTime (azblob.Properties item) with
      | Some size, Some created =>
          Entry {| WALSegmentInfo.Generation := generation;
                   WALSegmentInfo.Index := index;
                   WALSegmentInfo.Offset := offset;
                   WALSegmentInfo.Size := size;
                   WALSegmentInfo.CreatedAt := time.UTC created |}
      | _, _ => BadEntry nilDereference
      end
  end.

Definition snapshotIterator : Type := iterator SnapshotInfo.t.
Definition walSegmentIterator : Type := iterator WALSegmentInfo.t.

Definition newSnapshotIterator (generation : string) (client : ReplicaClient)
  : snapshotIterator :=
  newIterator SnapshotInfo.t zeroSnapshotInfo litestream.SnapshotsPath
    "cannot determine snapshots path: %w" generation client.

Definition newWALSegmentIterator (generation : string)
  (client : ReplicaClient) : walSegmentIterator :=
  newIterator WALSegmentInfo.t zeroWALSegmentInfo litestream.WALPath
    "cannot determine wal path: %w" generation client.

Definition snapshotIterator_Next : nat -> W -> snapshotIterator ->
  option bool * snapshotIterator := Next SnapshotInfo.t snapshotEntry.
Definition snapshotIterator_Close : nat -> nat -> W -> snapshotIterator ->
  option (option error) * snapshotIterator :=
  Close SnapshotInfo.t snapshotEntry.
Definition snapshotIterator_Err : snapshotIterator -> option error :=
  Err_ SnapshotInfo.t.
Definition snapshotIterator_Snapshot : snapshotIterator -> SnapshotInfo.t :=
  Current SnapshotInfo.t.

Definition walSegmentIterator_Next : nat -> W -> walSegmentIterator ->
  option bool * walSegmentIterator := Next WALSegmentInfo.t walSegmentEntry.
Definition walSegmentIterator_Close : nat -> nat -> W -> walSegmentIterator ->
  option (option error) * walSegmentIterator :=
  Close WALSegmentInfo.t walSegmentEntry.
Definition walSegmentIterator_Err : walSegmentIterator -> option error :=
  Err_ WALSegmentInfo.t.
Definition walSegmentIterator_WALSegment
  : walSegmentIterator -> WALSegmentInfo.t := Current WALSegmentInfo.t.

(* Snapshots returns an iterator over all available snapshots for a
   generation. *)
Definition Snapshots (c : ReplicaClient) (generation : string)
  : result snapshotIterator * ReplicaClient :=
  match Init c with
  | (Some err, c) => (Err err, c)
  | (None, c) => (Ok (newSnapshotIterator generation c), c)
  end.

(* WALSegments returns an iterator over all available WAL files for a
   generation. *)
Definition WALSegments (c : ReplicaClient) (generation : string)
  : result walSegmentIterator * ReplicaClient :=
  match Init c with
  | (Some err, c) => (Err err, c)
  | (None, c) => (Ok (newWALSegmentIterator generation c), c)
  end.

(** The blobs the store lists under [prefix] from [marker] on, page after
    page, for at most [n] pages. *)
Fixpoint listed (n : nat) (w : W) (h : azblob.ContainerURL) (prefix : string)
  (marker : azblob.Marker) : list azblob.BlobItem :=
  if azblob.NotDone marker then
    match n with
    | O => []
    | S n' =>
        match ListBlobsFlatSegment w h false marker prefix with
        | Err _ => []
        | Ok resp =>
            azblob.BlobItems resp
            ++ listed n' w h prefix (azblob.NextMarker resp)
        end
    end
  else [].

End Iterators.

(* ================================================================= *)
(** ** The key layout *)

(** The design document fixes the shape of a key but not its constants: how
    many hexadecimal digits, what separates index and offset, the file
    extensions and the directory names. A [Layout] is a choice of these. *)
Record Layout : Type := {
  digits : nat;
  separator : string;
  snapshotExt : string;
  walExt : string;
  generationsDir : string;
  snapshotsDir : string;
  walDir : string;
  generationName : string -> bool
}.

Module Codec.

(** Modelled from the spec: the lower-case hexadecimal digit of a value
    below sixteen, for the rendering of the absent package litestream. *)
Definition hexDigit (v : Z) : ascii :=
  if (v <? 10)%Z then ascii_of_N (Z.to_N (48 + v))
  else ascii_of_N (Z.to_N (87 + v)).

(** Modelled from the spec: the value of a lower-case hexadecimal digit, for
    the parsing of the absent package litestream. *)
Definition hexValue (c : ascii) : option Z :=
  let n := Z.of_N (N_of_ascii c) in
  if ((48 <=? n) && (n <=? 57))%Z then Some (n - 48)%Z
  else if ((97 <=? n) && (n <=? 102))%Z then Some (n - 87)%Z
  else None.

(** Modelled from the spec: the rendering of an index or offset, which
    belongs to the absent package litestream, as fixed-width zero-padded
    hexadecimal: [d] digits, most significant first. *)
Fixpoint hex (d : nat) (z : Z) : string :=
  match d with
  | O => EmptyString
  | S d' => String (hexDigit ((z / 16 ^ Z.of_nat d') mod 16)%Z) (hex d' z)
  end.

(** Modelled from the spec: the inverse of [hex], for the parse functions of
    the absent package litestream. It reads exactly [d] hexadecimal digits
    off the front of [s], continuing the value [acc], and gives the value and
    the rest of [s]. *)
Fixpoint unhex (d : nat) (acc : Z) (s : string) : option (Z * string) :=
  match d with
  | O => Some (acc, s)
  | S d' =>
      match s with
      | EmptyString => None
      | String c r =>
          match hexValue c with
          | None => None
          | Some v => unhex d' (16 * acc + v)%Z r
          end
      end
  end.

(** Modelled from the spec: a key prefix of the absent package litestream
    followed by one more element; an empty base path adds no slash. *)
Definition join (dir name : string) : string :=
  if dir =? "" then name else dir ++ "/" ++ name.

Section WithLayout.

Variable l : Layout.

(** Modelled from the spec: [generationsPrefix] of the absent package
    litestream, the prefix under which all generations live. *)
Definition GenerationsPath (root : string) : string :=
  join root (generationsDir l).

(** Modelled from the spec: [generationPrefix] of the absent package
    litestream, failing on a generation that is not well formed. *)
Definition GenerationPath (root generation : string) : result string :=
  if generationName l generation
  then Ok (join (GenerationsPath root) generation)
  else Err (Errorf "invalid generation: %s" [generation]).

(** Modelled from the spec: [snapshotsPrefix] of the absent package
    litestream. *)
Definition SnapshotsPath (root generation : string) : result string :=
  match GenerationPath root generation with
  | Err err => Err err
  | Ok dir => Ok (join dir (snapshotsDir l))
  end.

(** Modelled from the spec: [walPrefix] of the absent package litestream. *)
Definition WALPath (root generation : string) : result string :=
  match GenerationPath root generation with
  | Err err => Err err
  | Ok dir => Ok (join dir (walDir l))
  end.

(** Modelled from the spec: the file name of a snapshot in the absent package
    litestream, the index in fixed-width hexadecimal followed by the
    extension. *)
Definition FormatSnapshotPath (index : Z) : string :=
  hex (digits l) index ++ snapshotExt l.

(** Modelled from the spec: [snapshotKey] of the absent package litestream. *)
Definition SnapshotPath (root generation : string) (index : Z)
  : result string :=
  match SnapshotsPath root generation with
  | Err err => Err err
  | Ok dir => Ok (dir ++ "/" ++ FormatSnapshotPath index)
  end.

(** Modelled from the spec: [parseSnapshotKey] of the absent package
    litestream, the inverse of the file name; it accepts exactly that shape. *)
Definition ParseSnapshotPath (s : string) : result Z :=
  match unhex (digits l) 0 s with
  | Some (index, rest) =>
      if rest =? snapshotExt l then Ok index
      else Err (Errorf "invalid snapshot path: %s" [s])
  | None => Err (Errorf "invalid snapshot path: %s" [s])
  end.

(** Modelled from the spec: the file name of a WAL segment in the absent
    package litestream: the index, the separator and the offset, both numbers
    in fixed-width hexadecimal, followed by the extension. *)
Definition FormatWALSegmentPath (index offset : Z) : string :=
  hex (digits l) index ++ separator l ++ hex (digits l) offset ++ walExt l.

(** Modelled from the spec: [walSegmentKey] of the absent package
    litestream. *)
Definition WALSegmentPath (root generation : string) (index offset : Z)
  : result string :=
  match WALPath root generation with
  | Err err => Err err
  | Ok dir => Ok (dir ++ "/" ++ FormatWALSegmentPath index offset)
  end.

(** Modelled from the spec: [parseWalSegmentKey] of the absent package
    litestream, the inverse of the file name; it accepts exactly that shape. *)
Definition ParseWALSegmentPath (s : string) : result (Z * Z) :=
  match unhex (digits l) 0 s with
  | Some (index, rest) =>
      match strings.stripPrefix (separator l) rest with
      | Some rest' =>
          match unhex (digits l) 0 rest' with
          | Some (offset, rest'') =>
              if rest'' =? walExt l then Ok (index, offset)
              else Err (Errorf "invalid wal segment path: %s" [s])
          | None => Err (Errorf "invalid wal segment path: %s" [s])
          end
      | None => Err (Errorf "invalid wal segment path: %s" [s])
      end
  | None => Err (Errorf "invalid wal segment path: %s" [s])
  end.

(** Modelled from the spec: the path functions of the absent package
    litestream, in the layout [l]. *)
Definition Paths : litestream.Paths :=
  {| litestream.GenerationsPath := GenerationsPath;
     litestream.GenerationPath := GenerationPath;
     litestream.SnapshotsPath := SnapshotsPath;
     litestream.SnapshotPath := SnapshotPath;
     litestream.ParseSnapshotPath := ParseSnapshotPath;
     litestream.WALPath := WALPath;
     litestream.WALSegmentPath := WALSegmentPath;
     litestream.ParseWALSegmentPath := ParseWALSegmentPath;
     litestream.IsGenerationName := generationName l |}.

End WithLayout.

End Codec.

(** Whether a string is sixteen lower-case hexadecimal digits. *)
Definition isHex16 (s : string) : bool :=
  match Codec.unhex 16 0 s with
  | Some (_, EmptyString) => true
  | _ => false
  end.

(** A layout with eight digits, as in the comment of [WriteSnapshot] that
    prints an index with [%08x]. *)
Definition layout8 : Layout :=
  {| digits := 8;
     separator := "_";
     snapshotExt := ".snapshot.lz4";
     walExt := ".wal.lz4";
     generationsDir := "generations";
     snapshotsDir := "snapshots";
     walDir := "wal";
     generationName := isHex16 |}.

(** Ascending order of (index, offset). *)
Definition posLt (a b : Z * Z) : Prop :=
  (fst a < fst b)%Z \/ (fst a = fst b /\ (snd a < snd b)%Z).

Definition walPos (i : WALSegmentInfo.t) : Z * Z :=
  (WALSegmentInfo.Index i, WALSegmentInfo.Offset i).

(** Lexicographic order of keys, byte by byte. *)
Definition keyLt (a b : string) : Prop := String.compare a b = Lt.

(** No byte of the string is a slash. *)
Fixpoint slashFree (s : string) : bool :=
  match s with
  | EmptyString => true
  | String c r => negb (Ascii.eqb c "/"%char) && slashFree r
  end.

(** A listed blob lies directly in the directory [dir]. *)
Definition directlyIn (dir : string) (item : azblob.BlobItem) : bool :=
  azblob.Name item =? dir ++ "/" ++ path.Base (azblob.Name item).

(* ================================================================= *)
(** ** The calls of a client *)

(** One call of a public method, with its arguments. The methods of an
    iterator read the client they were made for but never assign to it. *)
Inductive call : Type :=
| CallInit
| CallType
| CallGenerations (fuel : nat)
| CallDeleteGeneration (fuel : nat) (generation : string)
| CallSnapshots (generation : string)
| CallWriteSnapshot (generation : string) (index : Z) (R : Type)
    (reader : Reader R) (rd : R)
| CallSnapshotReader (generation : string) (index : Z)
| CallDeleteSnapshot (generation : string) (index : Z)
| CallWALSegments (generation : string)
| CallWriteWALSegment (pos : Pos.t) (R : Type) (reader : Reader R) (rd : R)
| CallWALSegmentReader (pos : Pos.t)
| CallDeleteWALSegments (a : list Pos.t).

Section Calls.

Context {parser : url.Parser} {paths : litestream.Paths}.
Context {W : Type} {service : Service W}.

Definition after {A : Type} (o : outcome (A * ReplicaClient * W))
  : option (ReplicaClient * W) :=
  match o with
  | Returns (_, c, w) => Some (c, w)
  | _ => None
  end.

(** The client and the world after a call that returns. *)
Definition perform (c : ReplicaClient) (w : W) (k : call)
  : option (ReplicaClient * W) :=
  match k with
  | CallInit => Some (snd (Init c), w)
  | CallType => Some (c, w)
  | CallGenerations fuel =>
      match Generations fuel c w with
      | Returns (_, c) => Some (c, w)
      | _ => None
      end
  | CallDeleteGeneration fuel generation =>
      after (DeleteGeneration fuel c w generation)
  | CallSnapshots generation => Some (snd (Snapshots c generation), w)
  | CallWriteSnapshot generation index R reader rd =>
      match WriteSnapshot c w generation index rd with
      | Returns (_, c, w, _) => Some (c, w)
      | _ => None
      end
  | CallSnapshotReader generation index =>
      after (SnapshotReader c w generation index)
  | CallDeleteSnapshot generation index =>
      after (DeleteSnapshot c w generation index)
  | CallWALSegments generation => Some (snd (WALSegments c generation), w)
  | CallWriteWALSegment pos R reader rd =>
      match WriteWALSegment c w pos rd with
      | Returns (_, c, w, _) => Some (c, w)
      | _ => None
      end
  | CallWALSegmentReader pos => after (WALSegmentReader c w pos)
  | CallDeleteWALSegments a => after (DeleteWALSegments c w a)
  end.

(** The client and the world after a sequence of calls that all return. *)
Fixpoint performAll (c : ReplicaClient) (w : W) (ks : list call)
  : option (ReplicaClient * W) :=
  match ks with
  | [] => Some (c, w)
  | k :: ks' =>
      match perform c w k with
      | Some (c', w') => performAll c' w' ks'
      | None => None
      end
  end.

(** The number of bytes an upload reads from the byte source [rd]. *)
Fixpoint bytesRead {R : Type} `{Reader R} (u : upload W) (rd : R) : Z :=
  match u with
  | UploadRead n k =>
      let '(data, err, rd') := Read rd n in
      (Z.of_nat (List.length data) + bytesRead (k data err) rd')%Z
  | UploadDone _ _ => 0%Z
  end.

(** A listing answer without the blobs of a given name. *)
Definition withoutBlob (name : string)
  (r : result azblob.ListBlobsFlatSegmentResponse)
  : result azblob.ListBlobsFlatSegmentResponse :=
  match r with
  | Err err => Err err
  | Ok resp =>
      Ok {| azblob.NextMarker := azblob.NextMarker resp;
            azblob.BlobItems :=
              filter (fun i => negb (azblob.Name i =? name))
                (azblob.BlobItems resp) |}
  end.

End Calls.

(* ================================================================= *)
(** ** A URL parser and a store in memory

    Implementations of the interfaces above, small enough to compute with:
    the properties below are instantiated on them. *)

Module SimpleURL.

(** The text before the first [c], and the text after it when [c] occurs. *)
Fixpoint cut (c : ascii) (s : string) : string * option string :=
  match s with
  | EmptyString => (EmptyString, None)
  | String a r =>
      if Ascii.eqb a c then (EmptyString, Some r)
      else let '(x, y) := cut c r in (String a x, y)
  end.

Fixpoint hasControl (s : string) : bool :=
  match s with
  | EmptyString => false
  | String a r =>
      let n := N_of_ascii a in
      (n <? 32)%N || (n =? 127)%N || hasControl r
  end.

Definition orEmpty (o : option string) : string :=
  match o with Some s => s | None => "" end.

(** URLs of the shape scheme://host/path?query#fragment; like net/url, a
    control character makes the parse fail. *)
Definition parse (s : string) : result url.URL :=
  if hasControl s then
    Err (ForeignError "net/url: invalid control character in URL")
  else
    let '(s1, fragment) := cut "#" s in
    let '(s2, query) := cut "?" s1 in
    let '(scheme, hostPath) :=
      match cut ":" s2 with
      | (x, Some y) =>
          match strings.stripPrefix "//" y with
          | Some z => (x, Some z)
          | None => ("", None)
          end
      | (_, None) => ("", None)
      end in
    let '(host, p) :=
      match hostPath with
      | Some hp =>
          let '(h, q) := cut "/" hp in
          (h, match q with Some q' => "/" ++ q' | None => "" end)
      | None => ("", s2)
      end in
    Ok {| url.Scheme := scheme; url.Opaque := ""; url.User := "";
          url.Host := host; url.Path := p; url.RawPath := "";
          url.ForceQuery := false; url.RawQuery := orEmpty query;
          url.Fragment := orEmpty fragment; url.RawFragment := "" |}.

Definition Parser : url.Parser := {| url.Parse := parse |}.

End SimpleURL.

Module Memory.

Record Blob : Type := {
  blobName : string;
  blobData : list Byte.byte;
  blobCreated : time.Time
}.

(** The clock, the blobs in key order, the length of a listing page, the
    name of a blob that listings do not show, and the faults to inject: the
    marker at which listing fails and the key whose deletion fails. *)
Record World : Type := {
  now : time.Time;
  blobs : list Blob;
  pageSize : nat;
  hidden : option string;
  listFault : option (option string * error);
  deleteFault : option (string * error)
}.

Definition withBlobs (w : World) (bs : list Blob) (t : time.Time) : World :=
  {| now := t; blobs := bs; pageSize := pageSize w; hidden := hidden w;
     listFault := listFault w; deleteFault := deleteFault w |}.

Definition EOF : error := ForeignError "EOF".
Definition canceled : error := ForeignError "context canceled".

Definition hasPrefix (pre s : string) : bool :=
  match strings.stripPrefix pre s with
  | Some _ => true
  | None => false
  end.

Definition sameMarker (a b : option string) : bool :=
  match a, b with
  | None, None => true
  | Some x, Some y => x =? y
  | _, _ => false
  end.

Fixpoint from (m : string) (bs : list Blob) : list Blob :=
  match bs with
  | [] => []
  | b :: r => if blobName b =? m then bs else from m r
  end.

Definition item (b : Blob) : azblob.BlobItem :=
  {| azblob.Name := blobName b;
     azblob.Properties :=
       {| azblob.ContentLength := Some (Z.of_nat (List.length (blobData b)));
          azblob.CreationTime := Some (blobCreated b) |} |}.

Definition faultAt (w : World) (marker : azblob.Marker) : option error :=
  match listFault w with
  | Some (m, e) => if sameMarker m (azblob.Val marker) then Some e else None
  | None => None
  end.

Definition listAll (w : World) (h : azblob.ContainerURL) (done : bool)
  (marker : azblob.Marker) (prefix : string)
  : result azblob.ListBlobsFlatSegmentResponse :=
  if done then Err canceled
  else
    match faultAt w marker with
    | Some e => Err e
    | None =>
        let all := filter (fun b => hasPrefix prefix (blobName b)) (blobs w) in
        let rest :=
          match azblob.Val marker with
          | None => all
          | Some m => from m all
          end in
        Ok {| azblob.NextMarker :=
                {| azblob.Val :=
                     Some match skipn (pageSize w) rest with
                          | [] => ""
                          | b :: _ => blobName b
                          end |};
              azblob.BlobItems := map item (firstn (pageSize w) rest) |}
    end.

Definition listFlat (w : World) (h : azblob.ContainerURL) (done : bool)
  (marker : azblob.Marker) (prefix : string)
  : result azblob.ListBlobsFlatSegmentResponse :=
  match hidden w with
  | Some name => withoutBlob name (listAll w h done marker prefix)
  | None => listAll w h done marker prefix
  end.

(** The prefix of [name] that ends at the first delimiter after [prefix]. *)
Definition child (prefix : string) (delimiter : ascii) (name : string)
  : option string :=
  match strings.stripPrefix prefix name with
  | Some r =>
      match SimpleURL.cut delimiter r with
      | (x, Some _) => Some (prefix ++ x ++ String delimiter "")
      | (_, None) => None
      end
  | None => None
  end.

Fixpoint children (prefix : string) (delimiter : ascii) (bs : list Blob)
  : list string :=
  match bs with
  | [] => []
  | b :: r =>
      match child prefix delimiter (blobName b) with
      | Some p => p :: children prefix delimiter r
      | None => children prefix delimiter r
      end
  end.

Definition listHierarchy (w : World) (h : azblob.ContainerURL)
  (marker : azblob.Marker) (delimiter prefix : string)
  : result azblob.ListBlobsHierarchySegmentResponse :=
  match faultAt w marker with
  | Some e => Err e
  | None =>
      let d := match delimiter with String a _ => a | EmptyString => "/"%char end in
      Ok {| azblob.HierarchyNextMarker := {| azblob.Val := Some "" |};
            azblob.BlobPrefixes :=
              map (fun p => {| azblob.PrefixName := p |})
                (nodup string_dec (children prefix d (blobs w))) |}
  end.

Definition named (key : string) (b : Blob) : bool := blobName b =? key.

Definition delete (w : World) (h : azblob.ContainerURL) (key : string)
  : option error * World :=
  match deleteFault w with
  | Some (k, e) =>
      if k =? key then (Some e, w)
      else if existsb (named key) (blobs w)
      then (None,
            withBlobs w (filter (fun b => negb (named key b)) (blobs w))
              (now w))
      else (Some (StorageError azblob.ServiceCodeBlobNotFound), w)
  | None =>
      if existsb (named key) (blobs w)
      then (None,
            withBlobs w (filter (fun b => negb (named key b)) (blobs w))
              (now w))
      else (Some (StorageError azblob.ServiceCodeBlobNotFound), w)
  end.

Definition download (w : World) (h : azblob.ContainerURL) (key : string)
  : result azblob.DownloadResponse * World :=
  match find (named key) (blobs w) with
  | Some b =>
      (Ok {| azblob.DownloadContentLength :=
               Z.of_nat (List.length (blobData b));
             azblob.Body := blobData b |}, w)
  | None => (Err (StorageError azblob.ServiceCodeBlobNotFound), w)
  end.

Fixpoint insert (b : Blob) (bs : list Blob) : list Blob :=
  match bs with
  | [] => [b]
  | x :: r =>
      if (blobName b <=? blobName x)%string then
        if blobName b =? blobName x then b :: r else b :: bs
      else x :: insert b r
  end.

Definition later (t : time.Time) : time.Time :=
  {| time.instant := time.instant t + 1000000000;
     time.loc := time.OtherLocation "Local" |}.

(** Reads four bytes at a time until the source reports an error, at most
    [reads] times; an end of file completes the blob, one second later by
    the store's clock. *)
Fixpoint store (reads : nat) (w : World) (key : string)
  (acc : list Byte.byte) : upload World :=
  match reads with
  | O => UploadDone (Err (ForeignError "RequestBodyTooLarge")) w
  | S reads' =>
      UploadRead 4 (fun data err =>
        match err with
        | None => store reads' w key (acc ++ data)
        | Some e =>
            match e with
            | ForeignError "EOF" =>
                let t := later (now w) in
                UploadDone (Ok {| azblob.LastModified := t |})
                  (withBlobs w
                     (insert {| blobName := key; blobData := acc ++ data;
                                blobCreated := t |} (blobs w)) t)
            | _ => UploadDone (Err e) w
            end
        end)
  end.

Definition Service : Service World :=
  {| time_Now := now;
     ListBlobsFlatSegment := listFlat;
     ListBlobsHierarchySegment := listHierarchy;
     BlobDelete := delete;
     BlobDownload := download;
     UploadStreamToBlockBlob w h key := store 1024 w key [] |}.

(** A byte slice as a reader: an end of file once it is empty. *)
Definition Bytes : Reader (list Byte.byte) :=
  {| Read l n :=
       match l with
       | [] => ([], Some EOF, [])
       | _ => (firstn n l, None, skipn n l)
       end |}.

End Memory.

(* ================================================================= *)
(** ** Vocabulary of the properties *)

(** Two states of a client agree on what [NewReplicaClient] derived from the
    URL. *)
Definition sameScope (c c' : ReplicaClient) : Prop :=
  container c' = container c /\ path c' = path c /\ sasURL c' = sasURL c.

(** The path segments of a parsed URL, as [NewReplicaClient] splits them. *)
Definition pathParts (u : url.URL) : list string :=
  strings.Split (strings.TrimPrefix (url.Path u) "/") "/"%char.

(** The handle of a client, if set, addresses the container of the parsed
    URL [u]: the URL with its path replaced, everything else as parsed. *)
Definition addresses (u : url.URL) (c : ReplicaClient) : Prop :=
  forall h, containerURL c = Some h ->
            azblob.containerAddress h = url.withPath u ("/" ++ container c).

(** Case analysis on the first [match] of the goal or of a hypothesis. *)
Ltac split_match :=
  match goal with
  | |- context [match ?x with _ => _ end] => destruct x eqn:?
  | H : context [match ?x with _ => _ end] |- _ => destruct x eqn:?
  end.

Ltac inv H := inversion H; subst; clear H.

(** The lexicographic comparison of two (index, offset) pairs. *)
Definition posCompare (a b : Z * Z) : comparison :=
  match (fst a ?= fst b)%Z with
  | Eq => (snd a ?= snd b)%Z
  | c => c
  end.

(** Ascending order of WAL segments. *)
Definition walLt (a b : WALSegmentInfo.t) : Prop :=
  posLt (walPos a) (walPos b).

(** The list [l] starts with the list [p]. *)
Definition startsWith {T : Type} (l p : list T) : Prop :=
  exists q, l = (p ++ q)%list.

Definition isOk {A : Type} (r : result A) : bool :=
  match r with
  | Ok _ => true
  | Err _ => false
  end.

(** A list without the blobs of a given name. *)
Definition strip (bad : string) (items : list azblob.BlobItem)
  : list azblob.BlobItem :=
  filter (fun i => negb (azblob.Name i =? bad)) items.

(** Two states of the goroutine that differ only in blobs named [bad] among
    those still to be ranged over. *)
Inductive simTask {T : Type} (bad : string)
  : fetchTask T -> fetchTask T -> Prop :=
| simLoop (dir : string) (marker : azblob.Marker) :
    simTask bad (AtLoop dir marker) (AtLoop dir marker)
| simSend (dir : string) (info : T) (rest : list azblob.BlobItem)
    (marker : azblob.Marker) :
    simTask bad (AtSend dir info rest marker)
      (AtSend dir info (strip bad rest) marker)
| simReturned (err : option error) :
    simTask bad (Returned err) (Returned err)
| simCrashed (msg : string) :
    simTask bad (Crashed msg) (Crashed msg).

Definition simIterator {T : Type} (bad : string) (i i' : iterator T) : Prop :=
  client i = client i' /\ generation i = generation i'
  /\ simTask bad (task i) (task i')
  /\ ctxDone i = ctxDone i' /\ info i = info i' /\ err i = err i'.

Section Streams.

Context {W : Type} {service : Service W}.
Variable T : Type.
Variable decode : string -> azblob.BlobItem -> entry T.

(** The entries that ranging over [items] offers to the consumer, in order,
    up to the first blob on which the loop panics. *)
Fixpoint entries (generation : string) (items : list azblob.BlobItem)
  : list T :=
  match items with
  | [] => []
  | item :: rest =>
      match decode generation item with
      | NoEntry => entries generation rest
      | Entry info => info :: entries generation rest
      | BadEntry _ => []
      end
  end.

(** The entries a goroutine in state [t] still offers within [n] more pages
    of the listing. *)
Definition stream (w : W) (h : azblob.ContainerURL) (generation : string)
  (n : nat) (t : fetchTask T) : list T :=
  match t with
  | AtLoop dir marker =>
      entries generation (listed n w h (dir ++ "/") marker)
  | AtSend dir info rest marker =>
      info :: entries generation (rest ++ listed n w h (dir ++ "/") marker)
  | Returned _ => []
  | Crashed _ => []
  end.

End Streams.

(* ================================================================= *)
(** ** Example data *)

Module Example.

Definition sasUrl : string :=
  "https://account.blob.core.windows.net/backups/db/prod?sv=2020&sig=abc".

Definition bareUrl : string := "https://account.blob.core.windows.net".

Definition generation : string := "0123456789abcdef".

Definition paths : litestream.Paths := Codec.Paths layout8.

Definition emptyURL : url.URL :=
  {| url.Scheme := ""; url.Opaque := ""; url.User := ""; url.Host := "";
     url.Path := ""; url.RawPath := ""; url.ForceQuery := false;
     url.RawQuery := ""; url.Fragment := ""; url.RawFragment := "" |}.

Definition parsed (s : string) : url.URL :=
  match SimpleURL.parse s with
  | Ok u => u
  | Err _ => emptyURL
  end.

(** The client [NewReplicaClient sasUrl] returns. *)
Definition fresh : ReplicaClient :=
  {| containerURL := None; container := "backups"; path := "db/prod";
     sasURL := sasUrl |}.

(** That client after [Init]. *)
Definition ready : ReplicaClient :=
  snd (@Init SimpleURL.Parser fresh).

Definition handle : azblob.ContainerURL :=
  match containerURL ready with
  | Some h => h
  | None =>
      azblob.NewContainerURL emptyURL
        (azblob.NewPipeline azblob.NewAnonymousCredential
           {| azblob.Retry := {| azblob.TryTimeout := 0 |} |})
  end.

Definition noon : time.Time :=
  {| time.instant := 1700000000000000000;
     time.loc := time.OtherLocation "Local" |}.

Definition blob (name : string) : Memory.Blob :=
  {| Memory.blobName := name;
     Memory.blobData := [Byte.x4c; Byte.x5a; Byte.x34];
     Memory.blobCreated := noon |}.

Definition snapshotsDir : string :=
  "db/prod/generations/0123456789abcdef/snapshots".

Definition walDir : string := "db/prod/generations/0123456789abcdef/wal".

Definition stray : string := walDir ++ "/not-a-valid-key".

Definition segment0 : Memory.Blob :=
  blob (walDir ++ "/00000000_00000000.wal.lz4").
Definition segment1 : Memory.Blob :=
  blob (walDir ++ "/00000000_00001000.wal.lz4").
Definition segment2 : Memory.Blob :=
  blob (walDir ++ "/00000001_00000000.wal.lz4").
Definition snapshot0 : Memory.Blob :=
  blob (snapshotsDir ++ "/00000000.snapshot.lz4").

Definition store (bs : list Memory.Blob) : Memory.World :=
  {| Memory.now := noon; Memory.blobs := bs; Memory.pageSize := 2;
     Memory.hidden := None; Memory.listFault := None;
     Memory.deleteFault := None |}.

(** One snapshot and three WAL segments. *)
Definition world : Memory.World :=
  store [snapshot0; segment0; segment1; segment2].

(** The same with a blob among the segments whose name is no key. *)
Definition strayWorld : Memory.World :=
  store [snapshot0; segment0; segment1; segment2; blob stray].

(** The same again, the listings not showing that blob. *)
Definition hiddenWorld : Memory.World :=
  {| Memory.now := noon;
     Memory.blobs := [snapshot0; segment0; segment1; segment2; blob stray];
     Memory.pageSize := 2; Memory.hidden := Some stray;
     Memory.listFault := None; Memory.deleteFault := None |}.

Definition serverBusy : error := StorageError "ServerBusy".

(** A store whose first listing request fails. *)
Definition failingWorld : Memory.World :=
  {| Memory.now := noon;
     Memory.blobs := [snapshot0; segment0; segment1; segment2];
     Memory.pageSize := 2; Memory.hidden := None;
     Memory.listFault := Some (None, serverBusy);
     Memory.deleteFault := None |}.

Definition leaseHeld : error := StorageError "LeaseIdMissing".

(** A store that refuses to delete the second WAL segment. *)
Definition locked (bs : list Memory.Blob) : Memory.World :=
  {| Memory.now := noon; Memory.blobs := bs; Memory.pageSize := 2;
     Memory.hidden := None; Memory.listFault := None;
     Memory.deleteFault := Some (Memory.blobName segment1, leaseHeld) |}.

Definition pos (index offset : Z) : Pos.t :=
  {| Pos.Generation := generation; Pos.Index := index; Pos.Offset := offset |}.

Definition payload : list Byte.byte :=
  [Byte.x00; Byte.x01; Byte.x02; Byte.x03; Byte.x04;
   Byte.x05; Byte.x06; Byte.x07; Byte.x08; Byte.x09].

Definition segmentInfo (index offset : Z) : WALSegmentInfo.t :=
  {| WALSegmentInfo.Generation := generation;
     WALSegmentInfo.Index := index;
     WALSegmentInfo.Offset := offset;
     WALSegmentInfo.Size := 3;
     WALSegmentInfo.CreatedAt := time.UTC noon |}.

(** A segment file one directory below the WAL directory. *)
Definition nested : Memory.Blob :=
  blob (walDir ++ "/old/00000000_00000000.wal.lz4").

(** A store, in key order, with a segment in the WAL directory and that
    one below it. *)
Definition nestedWorld : Memory.World := store [segment2; nested].

(** A store whose WAL listing is a single page. *)
Definition smallWorld : Memory.World := store [snapshot0; segment0].

End Example.

(* ================================================================= *)
(** ** Vocabulary of further properties *)

(** The name that [Generations] takes from a listed prefix. *)
Definition generationOf (p : azblob.BlobPrefix) : string :=
  path.Base (strings.TrimSuffix (azblob.PrefixName p) "/"%char).

(** A listed blob has the two properties that [fetch] dereferences. *)
Definition hasProperties (item : azblob.BlobItem) : bool :=
  match azblob.ContentLength (azblob.Properties item),
        azblob.CreationTime (azblob.Properties item) with
  | Some _, Some _ => true
  | _, _ => false
  end.

Section Listings.

Context {W : Type} {service : Service W}.

(** The prefixes the store lists under [prefix] from [marker] on, one
    hierarchy page after another, for at most [n] pages. *)
Fixpoint listedPrefixes (n : nat) (w : W) (h : azblob.ContainerURL)
  (delimiter prefix : string) (marker : azblob.Marker)
  : list azblob.BlobPrefix :=
  if azblob.NotDone marker then
    match n with
    | O => []
    | S n' =>
        match ListBlobsHierarchySegment w h marker delimiter prefix with
        | Err _ => []
        | Ok resp =>
            azblob.BlobPrefixes resp
            ++ listedPrefixes n' w h delimiter prefix
                 (azblob.HierarchyNextMarker resp)
        end
    end
  else [].

(** The flat listing from [marker] on ends within [n] pages: a page carries
    the marker that is done, or a request fails. *)
Fixpoint listingEnds (n : nat) (w : W) (h : azblob.ContainerURL)
  (prefix : string) (marker : azblob.Marker) : bool :=
  if azblob.NotDone marker then
    match n with
    | O => false
    | S n' =>
        match ListBlobsFlatSegment w h false marker prefix with
        | Err _ => true
        | Ok resp => listingEnds n' w h prefix (azblob.NextMarker resp)
        end
    end
  else true.

End Listings.

Section Ends.

Context {W : Type} {service : Service W}.
Variable T : Type.
Variable decode : string -> azblob.BlobItem -> entry T.

(** Decoding the blob does not panic. *)
Definition decodes (generation : string) (item : azblob.BlobItem) : Prop :=
  forall msg, decode generation item <> BadEntry msg.

(** The state of a goroutine whose listing ends within [n] pages. *)
Definition endsWithin (w : W) (h : azblob.ContainerURL) (n : nat)
  (t : fetchTask T) : Prop :=
  match t with
  | AtLoop dir marker => listingEnds n w h (dir ++ "/") marker = true
  | AtSend dir _ _ marker => listingEnds n w h (dir ++ "/") marker = true
  | _ => True
  end.

(** The state of a goroutine that has not panicked and will not within [n]
    pages. *)
Definition clean (w : W) (h : azblob.ContainerURL) (generation : string)
  (n : nat) (t : fetchTask T) : Prop :=
  match t with
  | AtLoop dir marker =>
      Forall (decodes generation) (listed n w h (dir ++ "/") marker)
  | AtSend dir _ rest marker =>
      Forall (decodes generation)
        (rest ++ listed n w h (dir ++ "/") marker)
  | Returned _ => True
  | Crashed _ => False
  end.

End Ends.


(* ================================================================= *)
(** ** The library functions and the codec on small inputs *)

Example Split_segments :
  strings.Split "backups/db//prod" "/"%char = ["backups"; "db"; ""; "prod"].
Proof. reflexivity. Qed.

Example Split_empty : strings.Split "" "/"%char = [""].
Proof. reflexivity. Qed.

Example TrimPrefix_once : strings.TrimPrefix "//backups" "/" = "/backups".
Proof. reflexivity. Qed.

Example TrimSuffix_once :
  strings.TrimSuffix "generations/0123456789abcdef/" "/"%char
  = "generations/0123456789abcdef".
Proof. reflexivity. Qed.

Example Base_cases :
  path.Base "" = "." /\ path.Base "///" = "/" /\ path.Base "a/b//" = "b"
  /\ path.Base "wal/00000000_00000000.wal.lz4" = "00000000_00000000.wal.lz4".
Proof. repeat split. Qed.

Example NotDone_cases :
  azblob.NotDone azblob.zeroMarker = true
  /\ azblob.NotDone {| azblob.Val := Some "" |} = false
  /\ azblob.NotDone {| azblob.Val := Some "page2" |} = true.
Proof. repeat split. Qed.

Example isNotExists_cases :
  isNotExists None = false
  /\ isNotExists (Some (StorageError "BlobNotFound")) = true
  /\ isNotExists (Some (StorageError "ContainerNotFound")) = false
  /\ isNotExists (Some ErrNotExist) = false
  /\ isNotExists
       (Some (ErrorfW "wrapped: %w" [] (StorageError "BlobNotFound")))
     = false.
Proof. repeat split. Qed.

Example Format_segment :
  Codec.FormatWALSegmentPath layout8 0 4096 = "00000000_00001000.wal.lz4".
Proof. reflexivity. Qed.

Example Parse_segment :
  Codec.ParseWALSegmentPath layout8 "0000000a_00001000.wal.lz4"
  = Ok (10, 4096)%Z.
Proof. reflexivity. Qed.

Example Parse_rejects :
  isOk (Codec.ParseWALSegmentPath layout8 "not-a-valid-key") = false
  /\ isOk (Codec.ParseWALSegmentPath layout8 "0000000A_00001000.wal.lz4")
     = false
  /\ isOk (Codec.ParseWALSegmentPath layout8 "0000000a_00001000.wal.lz4.tmp")
     = false
  /\ isOk (Codec.ParseSnapshotPath layout8 "00000000_00000000.wal.lz4")
     = false.
Proof. repeat split. Qed.

Example int64_wraps :
  internal.int64 (2 ^ 63 - 1) = (2 ^ 63 - 1)%Z
  /\ internal.int64 (2 ^ 63) = (- 2 ^ 63)%Z.
Proof. split; reflexivity. Qed.

(* ================================================================= *)
(** ** Properties of the construction and of [Init] *)

Lemma Split_not_nil (s : string) (sep : ascii) : strings.Split s sep <> [].
Proof.
  induction s as [|c r IH]; simpl; [discriminate|].
  destruct (Ascii.eqb c sep); [discriminate|].
  destruct (strings.Split r sep); discriminate.
Qed.

Lemma Split_length (s : string) (sep : ascii) :
  (1 <= List.length (strings.Split s sep))%nat.
Proof.
  pose proof (Split_not_nil s sep) as H.
  destruct (strings.Split s sep); [congruence | simpl; lia].
Qed.

Section ClientProperties.

Context {parser : url.Parser} {paths : litestream.Paths}.
Context {W : Type} {service : Service W}.

Lemma sameScope_refl (c : ReplicaClient) : sameScope c c.
Proof. repeat split. Qed.

Lemma sameScope_trans (a b c : ReplicaClient) :
  sameScope a b -> sameScope b c -> sameScope a c.
Proof. unfold sameScope; intuition congruence. Qed.

Lemma NewReplicaClient_Ok (sasUrl : string) (u : url.URL) :
  url.Parse sasUrl = Ok u ->
  NewReplicaClient sasUrl =
    Ok {| containerURL := None;
          container := hd "" (pathParts u);
          path := strings.Join (tl (pathParts u)) "/";
          sasURL := sasUrl |}.
Proof.
  intros Hu. unfold NewReplicaClient, pathParts. rewrite Hu.
  pose proof (Split_length (strings.TrimPrefix (url.Path u) "/") "/"%char) as Hl.
  destruct (strings.Split (strings.TrimPrefix (url.Path u) "/") "/"%char)
    as [|p0 ps] eqn:Hs; [simpl in Hl; lia|].
  simpl List.length. simpl (S _ <? 1)%nat.
  simpl nth. simpl hd. simpl tl. simpl skipn.
  destruct ps as [|p1 ps]; reflexivity.
Qed.

Lemma NewReplicaClient_parsed (sasUrl : string) (c : ReplicaClient) :
  NewReplicaClient sasUrl = Ok c ->
  exists u, url.Parse sasUrl = Ok u /\ sasURL c = sasUrl.
Proof.
  intros H. destruct (url.Parse sasUrl) as [u|e] eqn:Hu.
  - rewrite (NewReplicaClient_Ok _ _ Hu) in H. inv H. eauto.
  - unfold NewReplicaClient in H. rewrite Hu in H. discriminate.
Qed.

Lemma Init_sameScope (c : ReplicaClient) : sameScope c (snd (Init c)).
Proof.
  unfold Init. destruct (containerURL c); [apply sameScope_refl|].
  destruct (url.Parse (sasURL c)); simpl; repeat split.
Qed.

Lemma Init_handle (c c' : ReplicaClient) :
  Init c = (None, c') -> exists h, containerURL c' = Some h.
Proof.
  unfold Init. destruct (containerURL c) eqn:Hc.
  - intros H; inv H. eauto.
  - destruct (url.Parse (sasURL c)); intros H; inv H. simpl. eauto.
Qed.

Lemma Init_cached (c : ReplicaClient) (h : azblob.ContainerURL) :
  containerURL c = Some h -> Init c = (None, c).
Proof. intros H. unfold Init. rewrite H. reflexivity. Qed.

Lemma Init_parses (c : ReplicaClient) (u : url.URL) :
  url.Parse (sasURL c) = Ok u -> fst (Init c) = None.
Proof.
  intros Hu. unfold Init. destruct (containerURL c); [reflexivity|].
  rewrite Hu. reflexivity.
Qed.

(** Every call that returns leaves the client as [Init] leaves it, or as it
    was. *)
Lemma perform_client (c c' : ReplicaClient) (w w' : W) (k : call) :
  perform c w k = Some (c', w') -> c' = snd (Init c) \/ c' = c.
Proof.
  destruct k; simpl; unfold after, Generations, DeleteGeneration, Snapshots,
    WriteSnapshot, SnapshotReader, DeleteSnapshot, WALSegments,
    WriteWALSegment, WALSegmentReader, DeleteWALSegments, withHandle;
    intros H;
    repeat (split_match; try discriminate);
    repeat match goal with
           | E : Returns _ = Returns _ |- _ => inv E
           | E : Some _ = Some _ |- _ => inv E
           | E : (_, _) = (_, _) |- _ => inv E
           end; simpl; auto.
Qed.

Lemma perform_sameScope (c c' : ReplicaClient) (w w' : W) (k : call) :
  perform c w k = Some (c', w') -> sameScope c c'.
Proof.
  intros H. destruct (perform_client _ _ _ _ _ H); subst.
  - apply Init_sameScope.
  - apply sameScope_refl.
Qed.

Lemma performAll_sameScope (ks : list call) (c c' : ReplicaClient) (w w' : W) :
  performAll c w ks = Some (c', w') -> sameScope c c'.
Proof.
  revert c w. induction ks as [|k ks IH]; simpl; intros c w H.
  - inv H. apply sameScope_refl.
  - destruct (perform c w k) as [[c1 w1]|] eqn:Hk; [|discriminate].
    eapply sameScope_trans; [eapply perform_sameScope; eauto | eauto].
Qed.


Lemma Init_addresses (u : url.URL) (c : ReplicaClient) :
  url.Parse (sasURL c) = Ok u -> addresses u c -> addresses u (snd (Init c)).
Proof.
  intros Hu Ha. unfold Init. destruct (containerURL c) eqn:Hc; [exact Ha|].
  rewrite Hu. simpl. intros h Hh. simpl in Hh. inv Hh. reflexivity.
Qed.

Lemma perform_addresses (u : url.URL) (c c' : ReplicaClient) (w w' : W)
  (k : call) :
  url.Parse (sasURL c) = Ok u -> addresses u c ->
  perform c w k = Some (c', w') -> addresses u c'.
Proof.
  intros Hu Ha H. destruct (perform_client _ _ _ _ _ H); subst; auto.
  apply Init_addresses; auto.
Qed.

Lemma performAll_addresses (u : url.URL) (ks : list call)
  (c c' : ReplicaClient) (w w' : W) :
  url.Parse (sasURL c) = Ok u -> addresses u c ->
  performAll c w ks = Some (c', w') -> addresses u c'.
Proof.
  revert c w. induction ks as [|k ks IH]; simpl; intros c w Hu Ha H.
  - inv H. exact Ha.
  - destruct (perform c w k) as [[c1 w1]|] eqn:Hk; [|discriminate].
    apply (IH c1 w1); auto.
    + destruct (perform_sameScope _ _ _ _ _ Hk) as (_ & _ & Hs).
      rewrite Hs. exact Hu.
    + eapply perform_addresses; eauto.
Qed.

(** C7. [NewReplicaClient] derives the access scope from the parsed URL: the
    first segment of the path, its leading slash trimmed, is the container,
    the other segments joined by a slash are the key prefix, and the URL is
    stored as given. The handle that [Init] builds addresses the parsed URL
    with only its path replaced, so the query is the query of the URL. After
    any sequence of calls the container, the prefix and the stored URL are
    what they were, and a handle, if set, still carries that query. *)
Theorem NewReplicaClient_access_scope (sasUrl : string) (u : url.URL) :
  url.Parse sasUrl = Ok u ->
  exists c,
    NewReplicaClient sasUrl = Ok c
    /\ container c = hd "" (pathParts u)
    /\ path c = strings.Join (tl (pathParts u)) "/"
    /\ sasURL c = sasUrl
    /\ (exists h,
          Init c = (None, withContainerURL c h)
          /\ azblob.containerAddress h = url.withPath u ("/" ++ container c)
          /\ url.RawQuery (azblob.containerAddress h) = url.RawQuery u)
    /\ (forall (ks : list call) (w w' : W) (c' : ReplicaClient),
          performAll c w ks = Some (c', w') ->
          container c' = container c
          /\ path c' = path c
          /\ sasURL c' = sasURL c
          /\ (forall h, containerURL c' = Some h ->
                        url.RawQuery (azblob.containerAddress h)
                        = url.RawQuery u)).
Proof.
  intros Hu. eexists. split; [apply (NewReplicaClient_Ok _ _ Hu)|].
  simpl. repeat apply conj; try reflexivity.
  - eexists. unfold Init. simpl. rewrite Hu. repeat split.
  - intros ks w w' c' Hks.
    destruct (performAll_sameScope _ _ _ _ _ Hks) as (Hc & Hp & Hs).
    simpl in Hc, Hp, Hs. repeat apply conj; auto.
    intros h Hh.
    assert (Ha : addresses u c').
    { refine (performAll_addresses u ks _ c' w w' _ _ Hks).
      - exact Hu.
      - intros h0 Hh0; simpl in Hh0; discriminate. }
    rewrite (Ha h Hh). reflexivity.
Qed.

(** C9. For a client that [NewReplicaClient] returned, in whatever state a
    sequence of calls has left it, [Init] returns nil: the URL it parses is
    the one that parsed at construction. The client then holds a handle, and
    calling [Init] again returns nil and changes nothing. *)
Theorem Init_never_fails (sasUrl : string) (c : ReplicaClient) :
  NewReplicaClient sasUrl = Ok c ->
  forall (ks : list call) (w w' : W) (c' : ReplicaClient),
    performAll c w ks = Some (c', w') ->
    fst (Init c') = None
    /\ (exists h, containerURL (snd (Init c')) = Some h)
    /\ Init (snd (Init c')) = (None, snd (Init c')).
Proof.
  intros Hnew ks w w' c' Hks.
  destruct (NewReplicaClient_parsed _ _ Hnew) as (u & Hu & Hs).
  destruct (performAll_sameScope _ _ _ _ _ Hks) as (_ & _ & Hs').
  assert (Hu' : url.Parse (sasURL c') = Ok u) by (rewrite Hs', Hs; exact Hu).
  pose proof (Init_parses _ _ Hu') as Hnil.
  destruct (Init c') as [e c1] eqn:Hi. simpl in *. subst e.
  destruct (Init_handle _ _ Hi) as (h & Hh).
  repeat split; eauto using Init_cached.
Qed.

(** C10. When the URL parses, [NewReplicaClient] returns a client: splitting
    a string always gives at least one segment, so the test for a missing
    container name never holds and its error is never returned. A URL with
    an empty path gives a client whose container and prefix are both the
    empty string. *)
Theorem NewReplicaClient_never_missing_container (sasUrl : string)
  (u : url.URL) :
  url.Parse sasUrl = Ok u ->
  (forall s, (List.length (strings.Split s "/"%char) <? 1)%nat = false)
  /\ (exists c, NewReplicaClient sasUrl = Ok c)
  /\ NewReplicaClient sasUrl
     <> Err (Errorf "invalid SAS URL format: missing container name" [])
  /\ (url.Path u = "" ->
      exists c, NewReplicaClient sasUrl = Ok c
                /\ container c = "" /\ path c = "").
Proof.
  intros Hu. pose proof (NewReplicaClient_Ok _ _ Hu) as Hc.
  repeat split.
  - intros s. apply Nat.ltb_ge. apply Split_length.
  - eauto.
  - rewrite Hc. discriminate.
  - intros Hp. eexists. split; [exact Hc|].
    unfold pathParts. rewrite Hp. simpl. split; reflexivity.
Qed.

End ClientProperties.

(* ================================================================= *)
(** ** Properties of the single-object operations *)


Lemma int64_add (a b : Z) :
  internal.int64 (internal.int64 a + b) = internal.int64 (a + b).
Proof.
  unfold internal.int64. f_equal.
  replace ((a + 2 ^ 63) mod 2 ^ 64 - 2 ^ 63 + b + 2 ^ 63)%Z
    with ((a + 2 ^ 63) mod 2 ^ 64 + b)%Z by lia.
  rewrite Zplus_mod_idemp_l. f_equal. lia.
Qed.

Lemma isNotExists_iff (e : error) :
  isNotExists (Some e) = true <-> e = StorageError azblob.ServiceCodeBlobNotFound.
Proof.
  destruct e; simpl; split; intros H; try discriminate.
  - apply String.eqb_eq in H. congruence.
  - inv H. reflexivity.
Qed.

Section OperationProperties.

Context {parser : url.Parser} {paths : litestream.Paths}.
Context {W : Type} {service : Service W}.


(** The counting wrapper is transparent to the upload, and its count grows by
    the number of bytes the upload reads from the source. *)
Lemma runUpload_counted {R : Type} `{Reader R} (u : upload W) (rd : R)
  (n : Z) :
  runUpload u {| internal.source := rd; internal.count := internal.int64 n |}
  = (fst (fst (runUpload u rd)), snd (fst (runUpload u rd)),
     {| internal.source := snd (runUpload u rd);
        internal.count := internal.int64 (n + bytesRead u rd) |}).
Proof.
  revert rd n. induction u as [m k IH|r w]; intros rd n.
  - simpl. destruct (Read rd m) as [[data err] rd'] eqn:Hr.
    rewrite int64_add. rewrite IH. rewrite Z.add_assoc. reflexivity.
  - simpl. rewrite Z.add_0_r. reflexivity.
Qed.

Lemma runUpload_NewReadCounter {R : Type} `{Reader R} (u : upload W) (rd : R) :
  runUpload u (internal.NewReadCounter rd)
  = (fst (fst (runUpload u rd)), snd (fst (runUpload u rd)),
     {| internal.source := snd (runUpload u rd);
        internal.count := internal.int64 (bytesRead u rd) |}).
Proof.
  unfold internal.NewReadCounter.
  change 0%Z with (internal.int64 0) at 1.
  rewrite runUpload_counted. reflexivity.
Qed.

(** C3. A deletion that the store answers with not-found counts as done:
    [DeleteSnapshot] returns nil, and the loops of [DeleteWALSegments] and of
    [DeleteGeneration] go on with the next position or blob. *)
Theorem delete_not_found_is_success (c c1 : ReplicaClient)
  (h : azblob.ContainerURL) (w w' : W) (err : option error) :
  Init c = (None, c1) ->
  containerURL c1 = Some h ->
  isNotExists err = true ->
  isNotExists (Some (StorageError azblob.ServiceCodeBlobNotFound)) = true
  /\ (forall generation index key,
        litestream.SnapshotPath (path c1) generation index = Ok key ->
        BlobDelete w h key = (err, w') ->
        DeleteSnapshot c w generation index = Returns (None, c1, w'))
  /\ (forall pos rest key,
        litestream.WALSegmentPath (path c1) (Pos.Generation pos)
          (Pos.Index pos) (Pos.Offset pos) = Ok key ->
        BlobDelete w h key = (err, w') ->
        DeleteWALSegments c w (pos :: rest) = DeleteWALSegments c1 w' rest)
  /\ (forall item rest,
        BlobDelete w h (azblob.Name item) = (err, w') ->
        deleteItems w h (item :: rest) = deleteItems w' h rest).
Proof.
  intros Hi Hh He. repeat apply conj.
  - reflexivity.
  - intros generation index key Hk Hd.
    unfold DeleteSnapshot, withHandle. rewrite Hi, Hk, Hh, Hd, He. reflexivity.
  - intros pos rest key Hk Hd.
    unfold DeleteWALSegments. rewrite Hi, (Init_cached _ _ Hh).
    simpl. unfold withHandle. rewrite Hk, Hh, Hd, He. reflexivity.
  - intros item rest Hd. simpl. rewrite Hd, He. reflexivity.
Qed.

Lemma deleteWALSegmentsLoop_returns (c : ReplicaClient)
  (h : azblob.ContainerURL) (a : list Pos.t) (w : W) :
  containerURL c = Some h ->
  exists err w', deleteWALSegmentsLoop c w a = Returns (err, w').
Proof.
  intros Hh. revert w. induction a as [|pos rest IH]; intros w; simpl.
  - eauto.
  - unfold withHandle. rewrite Hh.
    destruct (litestream.WALSegmentPath _ _ _ _); [|eauto].
    destruct (BlobDelete w h a) as [err w1].
    destruct (isNotExists err); [apply IH|].
    destruct err; [eauto | apply IH].
Qed.

Lemma deleteWALSegmentsLoop_app (c : ReplicaClient) (a b : list Pos.t) (w : W) :
  deleteWALSegmentsLoop c w (a ++ b)
  = match deleteWALSegmentsLoop c w a with
    | Returns (None, w1) => deleteWALSegmentsLoop c w1 b
    | o => o
    end.
Proof.
  revert w. induction a as [|pos rest IH]; intros w; simpl.
  - destruct (deleteWALSegmentsLoop c w b) as [[[e|] w1]| |]; reflexivity.
  - destruct (litestream.WALSegmentPath _ _ _ _); [|reflexivity].
    unfold withHandle. destruct (containerURL c); [|reflexivity].
    destruct (BlobDelete w c0 a) as [err w1].
    destruct (isNotExists err); [apply IH|].
    destruct err; [reflexivity | apply IH].
Qed.

(** An error of the loop is the error of one position, all positions before
    it having been passed without error. *)
Lemma deleteWALSegmentsLoop_first_error (c : ReplicaClient) (a : list Pos.t)
  (w w' : W) (e : error) :
  deleteWALSegmentsLoop c w a = Returns (Some e, w') ->
  exists a1 pos a2 w1,
    a = (a1 ++ pos :: a2)%list
    /\ deleteWALSegmentsLoop c w a1 = Returns (None, w1)
    /\ deleteWALSegmentsLoop c w1 [pos] = Returns (Some e, w').
Proof.
  revert w. induction a as [|pos rest IH]; intros w H; [discriminate|].
  destruct (deleteWALSegmentsLoop c w [pos]) as [[[e1|] w1]| |] eqn:H1.
  - exists [], pos, rest, w. repeat split.
    change (pos :: rest) with ([pos] ++ rest)%list in H.
    rewrite deleteWALSegmentsLoop_app, H1 in H. rewrite <- H. exact H1.
  - change (pos :: rest) with ([pos] ++ rest)%list in H.
    rewrite deleteWALSegmentsLoop_app, H1 in H.
    destruct (IH _ H) as (a1 & p & a2 & w2 & Ha & Hb & Hc).
    exists (pos :: a1), p, a2, w2. repeat split.
    + simpl. congruence.
    + change (pos :: a1) with ([pos] ++ a1)%list.
      rewrite deleteWALSegmentsLoop_app, H1. exact Hb.
    + exact Hc.
  - change (pos :: rest) with ([pos] ++ rest)%list in H.
    rewrite deleteWALSegmentsLoop_app, H1 in H. discriminate.
  - change (pos :: rest) with ([pos] ++ rest)%list in H.
    rewrite deleteWALSegmentsLoop_app, H1 in H. discriminate.
Qed.

Lemma DeleteWALSegments_loop (c : ReplicaClient) (h : azblob.ContainerURL)
  (w : W) (a : list Pos.t) :
  containerURL c = Some h ->
  DeleteWALSegments c w a
  = match deleteWALSegmentsLoop c w a with
    | Returns (err, w') => Returns (err, c, w')
    | Panics msg => Panics msg
    | Unfinished => Unfinished
    end.
Proof.
  intros Hh. unfold DeleteWALSegments. rewrite (Init_cached _ _ Hh).
  reflexivity.
Qed.

(** C4. [DeleteWALSegments] goes through the positions in the order given.
    It always returns; with no position it returns nil. A position whose key
    cannot be determined ends it with that error and no request to the store;
    a deletion that fails otherwise than with not-found ends it with that
    error; a deletion that succeeds or answers not-found is passed. What it
    returns for a list that ends in error is what it returns for that list
    followed by any more positions, with the same world: the later positions
    are not touched. An error it returns is the error of the first position
    that does not pass. *)
Theorem DeleteWALSegments_stops_at_first_error (c : ReplicaClient)
  (h : azblob.ContainerURL) :
  containerURL c = Some h ->
  (forall w a, exists err w', DeleteWALSegments c w a = Returns (err, c, w'))
  /\ (forall w, DeleteWALSegments c w [] = Returns (None, c, w))
  /\ (forall w pos,
        DeleteWALSegments c w [pos]
        = match litestream.WALSegmentPath (path c) (Pos.Generation pos)
                  (Pos.Index pos) (Pos.Offset pos) with
          | Err err =>
              Returns
                (Some (ErrorfW "cannot determine wal segment path: %w" [] err),
                 c, w)
          | Ok key =>
              match BlobDelete w h key with
              | (Some err, w') =>
                  if isNotExists (Some err) then Returns (None, c, w')
                  else
                    Returns
                      (Some (ErrorfW "cannot delete wal segment %q: %w"
                               [key] err), c, w')
              | (None, w') => Returns (None, c, w')
              end
          end)
  /\ (forall w w1 a b,
        DeleteWALSegments c w a = Returns (None, c, w1) ->
        DeleteWALSegments c w (a ++ b) = DeleteWALSegments c w1 b)
  /\ (forall w w1 a b e,
        DeleteWALSegments c w a = Returns (Some e, c, w1) ->
        DeleteWALSegments c w (a ++ b) = Returns (Some e, c, w1))
  /\ (forall w w' a e,
        DeleteWALSegments c w a = Returns (Some e, c, w') ->
        exists a1 pos a2 w1,
          a = (a1 ++ pos :: a2)%list
          /\ DeleteWALSegments c w a1 = Returns (None, c, w1)
          /\ DeleteWALSegments c w1 [pos] = Returns (Some e, c, w')).
Proof.
  intros Hh. repeat apply conj.
  - intros w a. rewrite (DeleteWALSegments_loop _ _ _ _ Hh).
    destruct (deleteWALSegmentsLoop_returns c h a w Hh) as (err & w' & ->).
    eauto.
  - intros w. rewrite (DeleteWALSegments_loop _ _ _ _ Hh). reflexivity.
  - intros w pos. rewrite (DeleteWALSegments_loop _ _ _ _ Hh). simpl.
    destruct (litestream.WALSegmentPath _ _ _ _); [|reflexivity].
    unfold withHandle. rewrite Hh.
    destruct (BlobDelete w h a) as [[err|] w']; [|reflexivity].
    unfold isNotExists. destruct err; try reflexivity.
    destruct (_ =? _); reflexivity.
  - intros w w1 a b H.
    rewrite !(DeleteWALSegments_loop _ _ _ _ Hh) in *.
    rewrite deleteWALSegmentsLoop_app.
    destruct (deleteWALSegmentsLoop c w a) as [[[e|] w2]| |]; inv H.
    reflexivity.
  - intros w w1 a b e H.
    rewrite !(DeleteWALSegments_loop _ _ _ _ Hh) in *.
    rewrite deleteWALSegmentsLoop_app.
    destruct (deleteWALSegmentsLoop c w a) as [[[e1|] w2]| |]; inv H.
    reflexivity.
  - intros w w' a e H.
    rewrite (DeleteWALSegments_loop _ _ _ _ Hh) in H.
    destruct (deleteWALSegmentsLoop c w a) as [[[e1|] w2]| |] eqn:Hl; inv H.
    destruct (deleteWALSegmentsLoop_first_error _ _ _ _ _ Hl)
      as (a1 & pos & a2 & w1 & Ha & Hb & Hc).
    exists a1, pos, a2, w1.
    rewrite !(DeleteWALSegments_loop _ _ _ _ Hh), Hb, Hc. auto.
Qed.

(** C5. When the download fails, [SnapshotReader] and [WALSegmentReader]
    return [os.ErrNotExist] if the store's error is its not-found error, and
    otherwise the store's error wrapped together with the key. *)
Theorem readers_translate_not_found (c c1 : ReplicaClient)
  (h : azblob.ContainerURL) (w w' : W) (e : error) :
  Init c = (None, c1) ->
  containerURL c1 = Some h ->
  (isNotExists (Some e) = true
   <-> e = StorageError azblob.ServiceCodeBlobNotFound)
  /\ (forall generation index key,
        litestream.SnapshotPath (path c1) generation index = Ok key ->
        BlobDownload w h key = (Err e, w') ->
        SnapshotReader c w generation index
        = Returns
            (Err (if isNotExists (Some e) then ErrNotExist
                  else ErrorfW "cannot start new reader for %q: %w" [key] e),
             c1, w'))
  /\ (forall pos key,
        litestream.WALSegmentPath (path c1) (Pos.Generation pos)
          (Pos.Index pos) (Pos.Offset pos) = Ok key ->
        BlobDownload w h key = (Err e, w') ->
        WALSegmentReader c w pos
        = Returns
            (Err (if isNotExists (Some e) then ErrNotExist
                  else ErrorfW "cannot start new reader for %q: %w" [key] e),
             c1, w')).
Proof.
  intros Hi Hh. repeat apply conj.
  - apply isNotExists_iff.
  - apply isNotExists_iff.
  - intros generation index key Hk Hd.
    unfold SnapshotReader, withHandle. rewrite Hi, Hk, Hh, Hd.
    destruct (isNotExists (Some e)); reflexivity.
  - intros pos key Hk Hd.
    unfold WALSegmentReader, withHandle. rewrite Hi, Hk, Hh, Hd.
    destruct (isNotExists (Some e)); reflexivity.
Qed.


End OperationProperties.

(* ================================================================= *)
(** ** Properties of the iterators *)

Section IteratorProperties.

Context {W : Type} {service : Service W}.
Variable T : Type.
Variable decode : string -> azblob.BlobItem -> entry T.

(** No method assigns the [err] field. *)
Lemma Next_err (fuel : nat) (w : W) (itr : iterator T) :
  err (snd (Next T decode fuel w itr)) = err itr.
Proof.
  unfold Next. destruct (err itr) eqn:He; [exact He|].
  destruct (ctxDone itr); [exact He|].
  destruct (fetchRun _ _ _ _ _ _ _ _); simpl; congruence.
Qed.

Lemma Close_err (fuel ahead : nat) (w : W) (itr : iterator T) :
  err (snd (Close T decode fuel ahead w itr)) = err itr.
Proof.
  unfold Close. destruct (fetchRun _ _ fuel _ _ _ _ _); reflexivity.
Qed.

Lemma iterate_err (k fuel : nat) (w : W) (itr : iterator T) :
  err (snd (iterate T decode k fuel w itr)) = err itr.
Proof.
  revert itr. induction k as [|k IH]; intros itr; simpl; [reflexivity|].
  pose proof (Next_err fuel w itr) as Hn.
  destruct (Next T decode fuel w itr) as [[[|]|] itr1]; simpl in *; auto.
  specialize (IH itr1).
  destruct (iterate T decode k fuel w itr1) as [[l r] itr2]. simpl in *.
  congruence.
Qed.

(** *** Blobs whose key does not parse *)

Section Skipping.

Variable bad : string.
Hypothesis decode_bad :
  forall generation item, azblob.Name item = bad ->
                          decode generation item = NoEntry.

Variables w w' : W.
Hypothesis listing_without :
  forall h done marker prefix,
    ListBlobsFlatSegment w' h done marker prefix
    = withoutBlob bad (ListBlobsFlatSegment w h done marker prefix).

Lemma fetchItems_strip (generation dir : string)
  (items : list azblob.BlobItem) (marker : azblob.Marker) :
  simTask bad (fetchItems T decode generation dir items marker)
    (fetchItems T decode generation dir (strip bad items) marker).
Proof.
  induction items as [|item rest IH]; simpl.
  - constructor.
  - destruct (azblob.Name item =? bad) eqn:Hn; simpl.
    + apply String.eqb_eq in Hn. rewrite (decode_bad _ _ Hn). exact IH.
    + destruct (decode generation item); [exact IH | constructor | constructor].
Qed.

Lemma fetchPage_sim (client : ReplicaClient) (generation : string)
  (done : bool) (dir : string) (marker : azblob.Marker) :
  simTask bad (fetchPage T decode w client generation done dir marker)
    (fetchPage T decode w' client generation done dir marker).
Proof.
  unfold fetchPage. destruct (azblob.NotDone marker); [|constructor].
  destruct (containerURL client) as [h|]; [|constructor].
  rewrite listing_without.
  destruct (ListBlobsFlatSegment w h done marker (dir ++ "/")) as [resp|e];
    simpl; [|constructor].
  apply fetchItems_strip.
Qed.

Lemma fetchRun_sim (fuel : nat) (client : ReplicaClient)
  (generation : string) (done : bool) (t t' : fetchTask T) :
  simTask bad t t' ->
  simTask bad (fetchRun T decode fuel w client generation done t)
    (fetchRun T decode fuel w' client generation done t').
Proof.
  revert t t'. induction fuel as [|fuel IH]; intros t t' Hs.
  - destruct Hs; simpl; try constructor. destruct done; constructor.
  - destruct Hs; simpl; try constructor.
    + apply IH. apply fetchPage_sim.
    + destruct done; [|constructor]. apply IH. apply fetchItems_strip.
Qed.

Lemma Next_sim (fuel : nat) (i i' : iterator T) :
  simIterator bad i i' ->
  fst (Next T decode fuel w i) = fst (Next T decode fuel w' i')
  /\ simIterator bad (snd (Next T decode fuel w i))
       (snd (Next T decode fuel w' i')).
Proof.
  destruct i as [c g t d inf e], i' as [c' g' t' d' inf' e'].
  unfold simIterator; simpl. intros (-> & -> & Ht & -> & -> & ->).
  unfold Next; simpl.
  destruct e'; [split; [reflexivity | repeat split; auto]|].
  destruct d'; [split; [reflexivity | repeat split; auto]|].
  pose proof (fetchRun_sim fuel c' g' false _ _ Ht) as Hr.
  destruct Hr; simpl; (split; [reflexivity|]); unfold simIterator; simpl;
    repeat apply conj; auto; try constructor.
  apply fetchItems_strip.
Qed.

Lemma iterate_sim (k fuel : nat) (i i' : iterator T) :
  simIterator bad i i' ->
  fst (iterate T decode k fuel w i) = fst (iterate T decode k fuel w' i')
  /\ simIterator bad (snd (iterate T decode k fuel w i))
       (snd (iterate T decode k fuel w' i')).
Proof.
  revert i i'. induction k as [|k IH]; intros i i' Hs; simpl; [auto|].
  destruct (Next_sim fuel i i' Hs) as [Hr Hs1].
  destruct (Next T decode fuel w i) as [r i1].
  destruct (Next T decode fuel w' i') as [r' i1']. simpl in Hr, Hs1. subst r'.
  destruct r as [[|]|]; simpl; auto.
  destruct (IH _ _ Hs1) as [Hl Hs2].
  assert (Hinfo : Current T i1 = Current T i1')
    by (destruct Hs1 as (_ & _ & _ & _ & Hi & _); exact Hi).
  destruct (iterate T decode k fuel w i1) as [[l e] i2].
  destruct (iterate T decode k fuel w' i1') as [[l' e'] i2'].
  simpl in *. inv Hl. rewrite Hinfo. auto.
Qed.

Lemma Close_sim (fuel ahead : nat) (i i' : iterator T) :
  simIterator bad i i' ->
  fst (Close T decode fuel ahead w i) = fst (Close T decode fuel ahead w' i').
Proof.
  destruct i as [c g t d inf e], i' as [c' g' t' d' inf' e'].
  unfold simIterator; simpl. intros (-> & -> & Ht & -> & -> & ->).
  unfold Close; simpl.
  pose proof (fetchRun_sim fuel c' g' true _ _
                (fetchRun_sim ahead c' g' d' _ _ Ht)) as Hr.
  destruct Hr; reflexivity.
Qed.

Lemma simIterator_refl (i : iterator T) :
  (forall dir info rest marker,
      task i = AtSend dir info rest marker -> strip bad rest = rest) ->
  simIterator bad i i.
Proof.
  intros H. unfold simIterator. repeat split.
  destruct (task i) eqn:Ht; try constructor.
  rewrite <- (H _ _ _ _ eq_refl) at 2. constructor.
Qed.

(** A listing with a blob whose key does not parse, and the same listing
    without it, look the same through an iterator. *)
Lemma skipped (i : iterator T) (k fuel fuel' : nat) :
  (forall dir info rest marker, task i <> AtSend dir info rest marker) ->
  fst (iterate T decode k fuel w i) = fst (iterate T decode k fuel w' i)
  /\ Err_ T (snd (iterate T decode k fuel w i)) = Err_ T i
  /\ Err_ T (snd (iterate T decode k fuel w' i)) = Err_ T i
  /\ forall ahead,
       fst (Close T decode fuel' ahead w (snd (iterate T decode k fuel w i)))
       = fst (Close T decode fuel' ahead w'
                (snd (iterate T decode k fuel w' i))).
Proof.
  intros Hn.
  assert (Hs : simIterator bad i i).
  { apply simIterator_refl. intros dir info rest marker Ht.
    exfalso. exact (Hn _ _ _ _ Ht). }
  destruct (iterate_sim k fuel i i Hs) as [Hl Hs'].
  repeat apply conj.
  - exact Hl.
  - apply iterate_err.
  - apply iterate_err.
  - intros ahead. apply Close_sim. exact Hs'.
Qed.

End Skipping.

End IteratorProperties.

Lemma newIterator_task (T : Type) (zero : T)
  (dirOf : string -> string -> result string) (dirError : string)
  (generation : string) (client : ReplicaClient)
  (dir : string) (info : T) (rest : list azblob.BlobItem)
  (marker : azblob.Marker) :
  task (newIterator T zero dirOf dirError generation client)
  <> AtSend dir info rest marker.
Proof.
  simpl. unfold fetchStart.
  destruct (dirOf (path client) generation); discriminate.
Qed.

Section IteratorClaims.

Context {parser : url.Parser} {paths : litestream.Paths}.
Context {W : Type} {service : Service W}.

(** C8. A listed blob whose key the parse function rejects is skipped. Let
    the store list, in [w'], what it lists in [w] without the blobs named
    [bad], a name whose last element does not parse. Then an iterator sees the
    same entries in both, its loop ends the same way, [Err] is nil in both,
    and [Close] returns the same, however far the goroutine has come by
    itself when the context is cancelled. *)
Theorem malformed_keys_are_skipped (w w' : W) (bad : string)
  (generation : string) (client : ReplicaClient) (k fuel fuel' : nat) :
  (forall h done marker prefix,
      ListBlobsFlatSegment w' h done marker prefix
      = withoutBlob bad (ListBlobsFlatSegment w h done marker prefix)) ->
  ((exists e, litestream.ParseSnapshotPath (path.Base bad) = Err e) ->
   let itr := newSnapshotIterator generation client in
   let run := iterate SnapshotInfo.t snapshotEntry k fuel w itr in
   let run' := iterate SnapshotInfo.t snapshotEntry k fuel w' itr in
   fst run = fst run'
   /\ snapshotIterator_Err (snd run) = None
   /\ snapshotIterator_Err (snd run') = None
   /\ forall ahead,
        fst (snapshotIterator_Close fuel' ahead w (snd run))
        = fst (snapshotIterator_Close fuel' ahead w' (snd run')))
  /\ ((exists e, litestream.ParseWALSegmentPath (path.Base bad) = Err e) ->
      let itr := newWALSegmentIterator generation client in
      let run := iterate WALSegmentInfo.t walSegmentEntry k fuel w itr in
      let run' := iterate WALSegmentInfo.t walSegmentEntry k fuel w' itr in
      fst run = fst run'
      /\ walSegmentIterator_Err (snd run) = None
      /\ walSegmentIterator_Err (snd run') = None
      /\ forall ahead,
           fst (walSegmentIterator_Close fuel' ahead w (snd run))
           = fst (walSegmentIterator_Close fuel' ahead w' (snd run'))).
Proof.
  intros Hl. split.
  - intros [e He]. cbv zeta.
    apply (skipped SnapshotInfo.t snapshotEntry bad); auto.
    + intros g item Hn. unfold snapshotEntry. rewrite Hn, He. reflexivity.
    + intros. apply newIterator_task.
  - intros [e He]. cbv zeta.
    apply (skipped WALSegmentInfo.t walSegmentEntry bad); auto.
    + intros g item Hn. unfold walSegmentEntry. rewrite Hn, He. reflexivity.
    + intros. apply newIterator_task.
Qed.

End IteratorClaims.

(* ================================================================= *)
(** ** The order of keys *)

Lemma hexValue_range (c : ascii) (v : Z) :
  Codec.hexValue c = Some v -> (0 <= v < 16)%Z.
Proof.
  unfold Codec.hexValue.
  destruct ((48 <=? _) && (_ <=? 57))%Z eqn:H1.
  - intros H; inv H. apply andb_prop in H1. lia.
  - destruct ((97 <=? _) && (_ <=? 102))%Z eqn:H2; [|discriminate].
    intros H; inv H. apply andb_prop in H2. lia.
Qed.

(** The digits are ordered as their values. *)
Lemma hexValue_compare (c1 c2 : ascii) (a b : Z) :
  Codec.hexValue c1 = Some a -> Codec.hexValue c2 = Some b ->
  Ascii.compare c1 c2 = (a ?= b)%Z.
Proof.
  unfold Codec.hexValue, Ascii.compare.
  rewrite <- N2Z.inj_compare.
  set (n1 := Z.of_N (N_of_ascii c1)). set (n2 := Z.of_N (N_of_ascii c2)).
  intros H1 H2.
  destruct ((48 <=? n1) && (n1 <=? 57))%Z eqn:A1;
    [|destruct ((97 <=? n1) && (n1 <=? 102))%Z eqn:B1; [|discriminate]];
    (destruct ((48 <=? n2) && (n2 <=? 57))%Z eqn:A2;
     [|destruct ((97 <=? n2) && (n2 <=? 102))%Z eqn:B2; [|discriminate]]);
    inv H1; inv H2;
    repeat match goal with
           | H : (_ && _) = true |- _ => apply andb_prop in H
           | H : (_ && _) = false |- _ => apply andb_false_iff in H
           end;
    destruct (n1 ?= n2)%Z eqn:C;
    try (apply Z.compare_eq in C);
    try (rewrite Z.compare_lt_iff in C);
    try (rewrite Z.compare_gt_iff in C);
    symmetry;
    first [apply Z.compare_eq_iff | apply Z.compare_lt_iff
          | apply Z.compare_gt_iff]; lia.
Qed.

Lemma unhex_step (d : nat) (acc : Z) (c : ascii) (t : string) :
  Codec.unhex (S d) acc (String c t)
  = match Codec.hexValue c with
    | None => None
    | Some v => Codec.unhex d (16 * acc + v) t
    end.
Proof. reflexivity. Qed.

Lemma unhex_bounds (d : nat) (acc : Z) (s r : string) (v : Z) :
  Codec.unhex d acc s = Some (v, r) ->
  (acc * 16 ^ Z.of_nat d <= v < (acc + 1) * 16 ^ Z.of_nat d)%Z.
Proof.
  revert acc s. induction d as [|d IH]; intros acc s H.
  - simpl in H. inv H. simpl. lia.
  - destruct s as [|c t]; [discriminate|].
    rewrite unhex_step in H.
    destruct (Codec.hexValue c) as [a|] eqn:Ha; [|discriminate].
    apply IH in H. apply hexValue_range in Ha.
    rewrite Nat2Z.inj_succ, Z.pow_succ_r by lia.
    assert (Hp : (0 < 16 ^ Z.of_nat d)%Z) by (apply Z.pow_pos_nonneg; lia).
    set (p := (16 ^ Z.of_nat d)%Z) in *.
    assert (Ha' : (0 <= a * p <= 15 * p)%Z) by nia.
    replace ((16 * acc + a) * p)%Z with (16 * (acc * p) + a * p)%Z in H by ring.
    replace ((16 * acc + a + 1) * p)%Z
      with (16 * (acc * p) + a * p + p)%Z in H by ring.
    replace (acc * (16 * p))%Z with (16 * (acc * p))%Z by ring.
    replace ((acc + 1) * (16 * p))%Z with (16 * (acc * p) + 16 * p)%Z by ring.
    lia.
Qed.

(** Two runs of as many digits compare as the numbers they denote, and then
    as what follows them. *)
Lemma unhex_compare (d : nat) (acc : Z) (s1 s2 r1 r2 : string) (v1 v2 : Z) :
  Codec.unhex d acc s1 = Some (v1, r1) ->
  Codec.unhex d acc s2 = Some (v2, r2) ->
  String.compare s1 s2
  = match (v1 ?= v2)%Z with
    | Eq => String.compare r1 r2
    | c => c
    end.
Proof.
  revert acc s1 s2. induction d as [|d IH]; intros acc s1 s2 H1 H2.
  - simpl in H1, H2. inv H1. inv H2. rewrite Z.compare_refl. reflexivity.
  - destruct s1 as [|c1 t1]; [discriminate|].
    destruct s2 as [|c2 t2]; [discriminate|].
    rewrite unhex_step in H1, H2.
    destruct (Codec.hexValue c1) as [a|] eqn:Ha; [|discriminate].
    destruct (Codec.hexValue c2) as [b|] eqn:Hb; [|discriminate].
    simpl. rewrite (hexValue_compare _ _ _ _ Ha Hb).
    pose proof (unhex_bounds _ _ _ _ _ H1) as B1.
    pose proof (unhex_bounds _ _ _ _ _ H2) as B2.
    assert (Hp : (0 < 16 ^ Z.of_nat d)%Z) by (apply Z.pow_pos_nonneg; lia).
    set (p := (16 ^ Z.of_nat d)%Z) in *.
    replace ((16 * acc + a) * p)%Z with (16 * (acc * p) + a * p)%Z in B1 by ring.
    replace ((16 * acc + a + 1) * p)%Z
      with (16 * (acc * p) + a * p + p)%Z in B1 by ring.
    replace ((16 * acc + b) * p)%Z with (16 * (acc * p) + b * p)%Z in B2 by ring.
    replace ((16 * acc + b + 1) * p)%Z
      with (16 * (acc * p) + b * p + p)%Z in B2 by ring.
    destruct (a ?= b)%Z eqn:C.
    + apply Z.compare_eq in C. subst b. eapply IH; eauto.
    + rewrite Z.compare_lt_iff in C.
      assert (a * p + p <= b * p)%Z by nia.
      replace (v1 ?= v2)%Z with Lt; [reflexivity|].
      symmetry. apply Z.compare_lt_iff. lia.
    + rewrite Z.compare_gt_iff in C.
      assert (b * p + p <= a * p)%Z by nia.
      replace (v1 ?= v2)%Z with Gt; [reflexivity|].
      symmetry. apply Z.compare_gt_iff. lia.
Qed.

Lemma stripPrefix_app (p s r : string) :
  strings.stripPrefix p s = Some r -> s = p ++ r.
Proof.
  revert s. induction p as [|a p IH]; intros s H; simpl in H.
  - inv H. reflexivity.
  - destruct s as [|b s]; [discriminate|].
    destruct (Ascii.eqb a b) eqn:E; [|discriminate].
    apply Ascii.eqb_eq in E. subst b. simpl. f_equal. auto.
Qed.

Lemma ascii_compare_refl (c : ascii) : Ascii.compare c c = Eq.
Proof. unfold Ascii.compare. apply N.compare_refl. Qed.

Lemma string_compare_refl (s : string) : String.compare s s = Eq.
Proof.
  induction s as [|c s IH]; simpl; [reflexivity|].
  rewrite ascii_compare_refl. exact IH.
Qed.

Lemma string_compare_app (p a b : string) :
  String.compare (p ++ a) (p ++ b) = String.compare a b.
Proof.
  induction p as [|c p IH]; simpl; [reflexivity|].
  rewrite ascii_compare_refl. exact IH.
Qed.

(** Two segment file names compare as their (index, offset) pairs. *)
Lemma ParseWALSegmentPath_compare (l : Layout) (k1 k2 : string)
  (p1 p2 : Z * Z) :
  Codec.ParseWALSegmentPath l k1 = Ok p1 ->
  Codec.ParseWALSegmentPath l k2 = Ok p2 ->
  String.compare k1 k2 = posCompare p1 p2.
Proof.
  unfold Codec.ParseWALSegmentPath. intros H1 H2.
  destruct (Codec.unhex (digits l) 0 k1) as [[i1 r1]|] eqn:A1; [|discriminate].
  destruct (strings.stripPrefix (separator l) r1) as [r1'|] eqn:B1;
    [|discriminate].
  destruct (Codec.unhex (digits l) 0 r1') as [[o1 r1'']|] eqn:C1;
    [|discriminate].
  destruct (r1'' =? walExt l) eqn:D1; [|discriminate].
  destruct (Codec.unhex (digits l) 0 k2) as [[i2 r2]|] eqn:A2; [|discriminate].
  destruct (strings.stripPrefix (separator l) r2) as [r2'|] eqn:B2;
    [|discriminate].
  destruct (Codec.unhex (digits l) 0 r2') as [[o2 r2'']|] eqn:C2;
    [|discriminate].
  destruct (r2'' =? walExt l) eqn:D2; [|discriminate].
  inv H1. inv H2. unfold posCompare. simpl.
  rewrite (unhex_compare _ _ _ _ _ _ _ _ A1 A2).
  destruct (i1 ?= i2)%Z; try reflexivity.
  apply stripPrefix_app in B1, B2. subst r1 r2.
  rewrite string_compare_app.
  rewrite (unhex_compare _ _ _ _ _ _ _ _ C1 C2).
  destruct (o1 ?= o2)%Z; try reflexivity.
  apply String.eqb_eq in D1, D2. subst. apply string_compare_refl.
Qed.

Lemma posCompare_Lt (p1 p2 : Z * Z) : posCompare p1 p2 = Lt <-> posLt p1 p2.
Proof.
  unfold posCompare, posLt. destruct p1 as [i1 o1], p2 as [i2 o2]. simpl.
  destruct (i1 ?= i2)%Z eqn:C.
  - apply Z.compare_eq in C. rewrite Z.compare_lt_iff. lia.
  - rewrite Z.compare_lt_iff in C. intuition lia.
  - rewrite Z.compare_gt_iff in C. split; [discriminate | lia].
Qed.

(* ================================================================= *)
(** ** The order of iteration *)

Lemma listed_more (W : Type) (service : Service W) (w : W)
  (h : azblob.ContainerURL) (prefix : string) (n m : nat)
  (marker : azblob.Marker) :
  exists more, listed (n + m) w h prefix marker
               = (listed n w h prefix marker ++ more)%list.
Proof.
  revert marker. induction n as [|n IH]; intros marker.
  - exists (listed m w h prefix marker).
    simpl. destruct (azblob.NotDone marker); reflexivity.
  - simpl. destruct (azblob.NotDone marker); [|exists []; reflexivity].
    destruct (ListBlobsFlatSegment w h false marker prefix) as [resp|e];
      [|exists []; reflexivity].
    destruct (IH (azblob.NextMarker resp)) as [more Hm].
    exists more. rewrite Hm. rewrite app_assoc. reflexivity.
Qed.

Section StreamProperties.

Context {W : Type} {service : Service W}.
Variable T : Type.
Variable decode : string -> azblob.BlobItem -> entry T.

Lemma entries_app (generation : string) (a b : list azblob.BlobItem) :
  startsWith (entries T decode generation (a ++ b))
    (entries T decode generation a).
Proof.
  induction a as [|item a IH]; simpl.
  - eexists. reflexivity.
  - destruct (decode generation item); [exact IH | | exists []; reflexivity].
    destruct IH as [q Hq]. exists q. simpl. congruence.
Qed.

Lemma stream_fetchItems (w : W) (h : azblob.ContainerURL)
  (generation dir : string) (n : nat) (items : list azblob.BlobItem)
  (marker : azblob.Marker) :
  stream T decode w h generation n
    (fetchItems T decode generation dir items marker)
  = entries T decode generation
      (items ++ listed n w h (dir ++ "/") marker).
Proof.
  induction items as [|item rest IH]; simpl; [reflexivity|].
  destruct (decode generation item); [exact IH | reflexivity | reflexivity].
Qed.

Lemma fetchRun_blocked (fuel : nat) (w : W) (client : ReplicaClient)
  (generation : string) (t : fetchTask T) :
  (forall dir marker, t <> AtLoop dir marker) ->
  fetchRun T decode fuel w client generation false t = t.
Proof.
  intros H. destruct fuel; destruct t; try reflexivity;
    exfalso; eapply H; reflexivity.
Qed.

(** Running the goroutine, the context not cancelled, does not change what
    it will offer; it only uses up pages. *)
Lemma stream_fetchRun (w : W) (client : ReplicaClient)
  (h : azblob.ContainerURL) (generation : string) (fuel n : nat)
  (t : fetchTask T) :
  containerURL client = Some h ->
  exists n', (n <= n')%nat
             /\ stream T decode w h generation (fuel + n) t
                = stream T decode w h generation n'
                    (fetchRun T decode fuel w client generation false t).
Proof.
  intros Hh. revert t. induction fuel as [|fuel IH]; intros t.
  - exists n. split; [lia|]. destruct t; reflexivity.
  - destruct t as [dir marker|dir info rest marker|e|msg].
    + simpl fetchRun. unfold fetchPage. rewrite Hh.
      simpl stream. destruct (azblob.NotDone marker);
        [|exists n; split; [lia|];
          rewrite fetchRun_blocked by discriminate; reflexivity].
      destruct (ListBlobsFlatSegment w h false marker (dir ++ "/"))
        as [resp|e];
        [|exists n; split; [lia|];
          rewrite fetchRun_blocked by discriminate; reflexivity].
      destruct (IH (fetchItems T decode generation dir (azblob.BlobItems resp)
                      (azblob.NextMarker resp))) as (n' & Hn & He).
      exists n'. split; [exact Hn|]. rewrite <- He.
      rewrite stream_fetchItems. reflexivity.
    + exists (S fuel + n)%nat. split; [lia | reflexivity].
    + exists n. split; [lia | reflexivity].
    + exists n. split; [lia | reflexivity].
Qed.

Lemma stream_more (w : W) (h : azblob.ContainerURL) (generation : string)
  (n m : nat) (t : fetchTask T) :
  startsWith (stream T decode w h generation (n + m) t)
    (stream T decode w h generation n t).
Proof.
  destruct t as [dir marker|dir info rest marker|e|msg]; simpl.
  - destruct (listed_more W service w h (dir ++ "/") n m marker) as [more ->].
    apply entries_app.
  - destruct (listed_more W service w h (dir ++ "/") n m marker) as [more ->].
    rewrite app_assoc.
    destruct (entries_app generation
                (rest ++ listed n w h (dir ++ "/") marker) more) as [q Hq].
    exists q. simpl. congruence.
  - exists []. reflexivity.
  - exists []. reflexivity.
Qed.

(** What the consumer sees is the start of what the goroutine offers: the
    entries of the listed blobs, in the order listed. *)
Lemma iterate_stream (w : W) (h : azblob.ContainerURL) (k fuel n : nat)
  (itr : iterator T) :
  containerURL (client itr) = Some h ->
  (k * fuel <= n)%nat ->
  startsWith (stream T decode w h (generation itr) n (task itr))
    (fst (fst (iterate T decode k fuel w itr))).
Proof.
  revert n itr. induction k as [|k IH]; intros n itr Hh Hn.
  - simpl. eexists. reflexivity.
  - simpl iterate. unfold Next.
    destruct (err itr); [eexists; reflexivity|].
    destruct (ctxDone itr); [eexists; reflexivity|].
    assert (Hsplit : n = (fuel + (n - fuel))%nat) by (simpl in Hn; lia).
    destruct (stream_fetchRun w (client itr) h (generation itr) fuel
                (n - fuel) (task itr) Hh) as (n' & Hn' & He).
    rewrite <- Hsplit in He. rewrite He.
    destruct (fetchRun T decode fuel w (client itr) (generation itr) false
                (task itr)) as [dir marker|dir info rest marker|e|msg];
      try (eexists; reflexivity).
    set (itr1 := {| client := client itr; generation := generation itr;
                    task := fetchItems T decode (generation itr) dir rest
                              marker;
                    ctxDone := false; info := info; err := None |}).
    assert (Hk : (k * fuel <= n')%nat) by (simpl in Hn; lia).
    specialize (IH n' itr1 Hh Hk).
    destruct (iterate T decode k fuel w itr1) as [[l r] itr2].
    simpl in *. rewrite stream_fetchItems in IH.
    destruct IH as [q Hq]. exists q. rewrite Hq. reflexivity.
Qed.

End StreamProperties.

Lemma hexValue_hexDigit (v : Z) :
  (0 <= v < 16)%Z -> Codec.hexValue (Codec.hexDigit v) = Some v.
Proof.
  intros H.
  assert (Hv : (v = 0 \/ v = 1 \/ v = 2 \/ v = 3 \/ v = 4 \/ v = 5 \/ v = 6
                \/ v = 7 \/ v = 8 \/ v = 9 \/ v = 10 \/ v = 11 \/ v = 12
                \/ v = 13 \/ v = 14 \/ v = 15)%Z) by lia.
  repeat (destruct Hv as [Hv|Hv]; [subst v; reflexivity|]).
  subst v; reflexivity.
Qed.

(** Reading back the digits of a number gives the number, modulo the width. *)
Lemma unhex_hex (d : nat) (acc z : Z) (r : string) :
  Codec.unhex d acc (Codec.hex d z ++ r)
  = Some ((acc * 16 ^ Z.of_nat d + z mod 16 ^ Z.of_nat d)%Z, r).
Proof.
  revert acc. induction d as [|d IH]; intros acc.
  - simpl. rewrite Z.mod_1_r. do 2 f_equal. lia.
  - change (Codec.hex (S d) z)
      with (String (Codec.hexDigit ((z / 16 ^ Z.of_nat d) mod 16)%Z)
              (Codec.hex d z)).
    simpl append. rewrite unhex_step.
    rewrite hexValue_hexDigit by (apply Z.mod_pos_bound; lia).
    rewrite IH. do 2 f_equal.
    rewrite Nat2Z.inj_succ, Z.pow_succ_r by lia.
    assert (Hp : (0 < 16 ^ Z.of_nat d)%Z) by (apply Z.pow_pos_nonneg; lia).
    rewrite (Z.mul_comm 16 (16 ^ Z.of_nat d)).
    rewrite Z.rem_mul_r by lia. ring.
Qed.

Lemma stripPrefix_same (p r : string) :
  strings.stripPrefix p (p ++ r) = Some r.
Proof.
  induction p as [|a p IH]; simpl; [reflexivity|].
  rewrite Ascii.eqb_refl. exact IH.
Qed.

(** The codec round trip on segment file names. *)
Lemma ParseWALSegmentPath_Format (l : Layout) (index offset : Z) :
  (0 <= index < 16 ^ Z.of_nat (digits l))%Z ->
  (0 <= offset < 16 ^ Z.of_nat (digits l))%Z ->
  Codec.ParseWALSegmentPath l (Codec.FormatWALSegmentPath l index offset)
  = Ok (index, offset).
Proof.
  intros Hi Ho. unfold Codec.ParseWALSegmentPath, Codec.FormatWALSegmentPath.
  rewrite unhex_hex, stripPrefix_same, unhex_hex, String.eqb_refl.
  rewrite !Z.mod_small by lia. reflexivity.
Qed.

Lemma StronglySorted_start (T : Type) (R : T -> T -> Prop) (l p : list T) :
  startsWith l p -> StronglySorted R l -> StronglySorted R p.
Proof.
  intros [q ->]. induction p as [|x p IH]; simpl; intros H.
  - constructor.
  - inv H. constructor; [auto|].
    rewrite Forall_app in H3. tauto.
Qed.

Section WALOrder.

Variable l : Layout.

Local Abbreviation decode := (@walSegmentEntry (Codec.Paths l)).

Lemma walSegmentEntry_parsed (generation : string) (item : azblob.BlobItem)
  (info : WALSegmentInfo.t) :
  decode generation item = Entry info ->
  Codec.ParseWALSegmentPath l (path.Base (azblob.Name item))
  = Ok (walPos info).
Proof.
  unfold decode, walSegmentEntry. simpl.
  destruct (Codec.ParseWALSegmentPath l _) as [[i o]|e]; [|discriminate].
  destruct (azblob.ContentLength _); [|discriminate].
  destruct (azblob.CreationTime _); [|discriminate].
  intros H; inv H. reflexivity.
Qed.

Lemma walEntries_In (generation : string) (items : list azblob.BlobItem)
  (info : WALSegmentInfo.t) :
  In info (entries WALSegmentInfo.t decode generation items) ->
  exists item, In item items /\ decode generation item = Entry info.
Proof.
  induction items as [|item rest IH]; simpl; [tauto|].
  destruct (decode generation item) as [|info0|msg] eqn:Hd.
  - intros H. destruct (IH H) as (it & Hin & He). eauto.
  - intros [H|H].
    + subst. eauto.
    + destruct (IH H) as (it & Hin & He). eauto.
  - simpl. tauto.
Qed.

(** Blobs listed in key order, those that are segments lying directly in the
    directory, give entries in ascending (index, offset) order. *)
Lemma walEntries_sorted (generation dir : string)
  (items : list azblob.BlobItem) :
  StronglySorted keyLt (map azblob.Name items) ->
  Forall (fun item =>
            isOk (Codec.ParseWALSegmentPath l (path.Base (azblob.Name item)))
            = true -> directlyIn dir item = true) items ->
  StronglySorted walLt (entries WALSegmentInfo.t decode generation items).
Proof.
  induction items as [|item rest IH]; simpl; intros Hs Hf.
  - constructor.
  - inv Hs. inv Hf.
    destruct (decode generation item) as [|info|msg] eqn:Hd; auto.
    + constructor; [auto|].
      apply Forall_forall. intros info' Hin.
      destruct (walEntries_In _ _ _ Hin) as (item' & Hin' & Hd').
      apply walSegmentEntry_parsed in Hd, Hd'.
      assert (Hlt : keyLt (azblob.Name item) (azblob.Name item')).
      { rewrite Forall_forall in H2. apply H2. apply in_map. exact Hin'. }
      assert (Hdir : directlyIn dir item = true)
        by (apply H3; rewrite Hd; reflexivity).
      assert (Hdir' : directlyIn dir item' = true).
      { rewrite Forall_forall in H4. apply (H4 item' Hin').
        rewrite Hd'. reflexivity. }
      unfold directlyIn in Hdir, Hdir'.
      apply String.eqb_eq in Hdir, Hdir'.
      unfold keyLt in Hlt. rewrite Hdir, Hdir' in Hlt.
      rewrite !string_compare_app in Hlt.
      rewrite (ParseWALSegmentPath_compare _ _ _ _ _ Hd Hd') in Hlt.
      apply posCompare_Lt. exact Hlt.
    + constructor.
Qed.

Context {parser : url.Parser} {W : Type} {service : Service W}.

(** C2, amended. The file names of WAL segments are ordered, byte by byte,
    as their (index, offset) pairs: for names that parse, for the names the
    codec formats within the width, and for the full keys under one
    directory. The iterator hands over the entries of the listed blobs in the
    order listed. So the consumer sees the segments in strictly ascending
    (index, offset) order when the store lists in key order and, which the
    claim leaves out, every listed blob with the file name of a segment lies
    directly in the WAL directory of the generation: the listing is flat, and
    the keys below that directory are listed and decoded as well. *)
Theorem walSegments_ascending :
  (forall k1 k2 p1 p2 dir,
      Codec.ParseWALSegmentPath l k1 = Ok p1 ->
      Codec.ParseWALSegmentPath l k2 = Ok p2 ->
      (keyLt k1 k2 <-> posLt p1 p2)
      /\ (keyLt (dir ++ "/" ++ k1) (dir ++ "/" ++ k2) <-> posLt p1 p2))
  /\ (forall index offset,
        (0 <= index < 16 ^ Z.of_nat (digits l))%Z ->
        (0 <= offset < 16 ^ Z.of_nat (digits l))%Z ->
        Codec.ParseWALSegmentPath l
          (Codec.FormatWALSegmentPath l index offset) = Ok (index, offset))
  /\ (forall (c c' : ReplicaClient) (generation dir : string)
        (itr : walSegmentIterator) (h : azblob.ContainerURL) (w : W)
        (k fuel : nat),
        @WALSegments parser (Codec.Paths l) c generation = (Ok itr, c') ->
        containerURL c' = Some h ->
        Codec.WALPath l (path c') generation = Ok dir ->
        let listing := listed (k * fuel) w h (dir ++ "/") azblob.zeroMarker in
        let seen :=
          fst (fst (iterate WALSegmentInfo.t
                      (@walSegmentEntry (Codec.Paths l)) k fuel w itr)) in
        startsWith
          (entries WALSegmentInfo.t (@walSegmentEntry (Codec.Paths l))
             generation listing) seen
        /\ (StronglySorted keyLt (map azblob.Name listing) ->
            Forall (fun item =>
                      isOk (Codec.ParseWALSegmentPath l
                              (path.Base (azblob.Name item))) = true ->
                      directlyIn dir item = true) listing ->
            StronglySorted walLt seen)).
Proof.
  repeat apply conj.
  - intros k1 k2 p1 p2 dir H1 H2. unfold keyLt.
    rewrite !string_compare_app.
    rewrite (ParseWALSegmentPath_compare _ _ _ _ _ H1 H2).
    split; apply posCompare_Lt.
  - apply ParseWALSegmentPath_Format.
  - intros c c' generation dir itr h w k fuel Hw Hh Hd listing seen.
    unfold WALSegments in Hw.
    destruct (Init c) as [[e|] c1] eqn:Hi; inv Hw.
    assert (Hstart : startsWith
                       (entries WALSegmentInfo.t decode generation listing)
                       seen).
    { subst seen listing.
      pose proof (iterate_stream WALSegmentInfo.t decode w h k fuel
                    (k * fuel)
                    (@newWALSegmentIterator (Codec.Paths l) generation c')
                    Hh (Nat.le_refl _)) as Hit.
      simpl in Hit. unfold fetchStart in Hit. simpl in Hit.
      rewrite Hd in Hit. exact Hit. }
    split; [exact Hstart|].
    intros Hs Hf. eapply StronglySorted_start; [exact Hstart|].
    eapply walEntries_sorted; eauto.
Qed.

End WALOrder.

(* ================================================================= *)
(** ** The keys the client writes *)

Lemma Split_slashFree (s : string) :
  slashFree s = true -> strings.Split s "/"%char = [s].
Proof.
  induction s as [|c r IH]; simpl; [reflexivity|].
  intros H. apply andb_prop in H. destruct H as [Hc Hr].
  apply negb_true_iff in Hc. rewrite Hc, (IH Hr). reflexivity.
Qed.

Lemma Split_app (a b : string) :
  strings.Split (a ++ String "/"%char b) "/"%char
  = (strings.Split a "/"%char ++ strings.Split b "/"%char)%list.
Proof.
  induction a as [|c r IH]; simpl; [reflexivity|].
  rewrite IH. destruct (Ascii.eqb c "/"%char); [reflexivity|].
  pose proof (Split_not_nil r "/"%char) as Hn.
  destruct (strings.Split r "/"%char); [congruence | reflexivity].
Qed.

Lemma last_app_one (A : Type) (l : list A) (x d : A) :
  last (l ++ [x]) d = x.
Proof.
  induction l as [|y l IH]; [reflexivity|].
  simpl. destruct (l ++ [x])%list eqn:E; [|exact IH].
  destruct l; discriminate.
Qed.

(** The last element of a key is its file name. *)
Lemma Base_under (dir name : string) :
  name <> "" -> slashFree name = true ->
  path.Base (dir ++ "/" ++ name) = name.
Proof.
  intros Hn Hs. unfold path.Base.
  destruct (dir ++ "/" ++ name =? "") eqn:E.
  - apply String.eqb_eq in E. destruct dir; discriminate.
  - change (dir ++ "/" ++ name) with (dir ++ String "/"%char name).
    rewrite Split_app, (Split_slashFree _ Hs), filter_app. simpl.
    assert (Hne : path.nonEmpty name = true).
    { unfold path.nonEmpty. apply negb_true_iff. apply String.eqb_neq.
      exact Hn. }
    rewrite Hne. apply last_app_one.
Qed.

Lemma slashFree_app (a b : string) :
  slashFree (a ++ b) = slashFree a && slashFree b.
Proof.
  induction a as [|c r IH]; simpl; [reflexivity|].
  rewrite IH. apply andb_assoc.
Qed.

Lemma hexDigit_not_slash (v : Z) :
  (0 <= v < 16)%Z -> Ascii.eqb (Codec.hexDigit v) "/"%char = false.
Proof.
  intros H.
  assert (Hv : (v = 0 \/ v = 1 \/ v = 2 \/ v = 3 \/ v = 4 \/ v = 5 \/ v = 6
                \/ v = 7 \/ v = 8 \/ v = 9 \/ v = 10 \/ v = 11 \/ v = 12
                \/ v = 13 \/ v = 14 \/ v = 15)%Z) by lia.
  repeat (destruct Hv as [Hv|Hv]; [subst v; reflexivity|]).
  subst v; reflexivity.
Qed.

Lemma hex_slashFree (d : nat) (z : Z) : slashFree (Codec.hex d z) = true.
Proof.
  induction d as [|d IH]; [reflexivity|].
  change (Codec.hex (S d) z)
    with (String (Codec.hexDigit ((z / 16 ^ Z.of_nat d) mod 16)%Z)
            (Codec.hex d z)).
  simpl. rewrite hexDigit_not_slash by (apply Z.mod_pos_bound; lia).
  exact IH.
Qed.

(** A key that [WALSegmentPath] gives, in a layout whose separator and
    extension have no slash, lies directly in the directory that [WALPath]
    gives, and its last element parses back to the index and offset. *)
Lemma WALSegmentPath_directlyIn (l : Layout) (root generation dir key : string)
  (index offset : Z) (p : azblob.BlobProperties) :
  slashFree (separator l) = true ->
  slashFree (walExt l) = true ->
  (0 < digits l)%nat ->
  (0 <= index < 16 ^ Z.of_nat (digits l))%Z ->
  (0 <= offset < 16 ^ Z.of_nat (digits l))%Z ->
  Codec.WALPath l root generation = Ok dir ->
  Codec.WALSegmentPath l root generation index offset = Ok key ->
  directlyIn dir {| azblob.Name := key; azblob.Properties := p |} = true
  /\ Codec.ParseWALSegmentPath l (path.Base key) = Ok (index, offset).
Proof.
  intros Hsep Hext Hd Hi Ho Hdir Hkey.
  unfold Codec.WALSegmentPath in Hkey. rewrite Hdir in Hkey.
  assert (Hk : key = dir ++ "/" ++ Codec.FormatWALSegmentPath l index offset)
    by congruence.
  clear Hkey. subst key.
  assert (Hb : path.Base (dir ++ "/" ++ Codec.FormatWALSegmentPath l index offset)
               = Codec.FormatWALSegmentPath l index offset).
  { apply Base_under.
    - unfold Codec.FormatWALSegmentPath.
      destruct (digits l) as [|d]; [lia|]. discriminate.
    - unfold Codec.FormatWALSegmentPath.
      rewrite !slashFree_app, !hex_slashFree, Hsep, Hext. reflexivity. }
  split.
  - unfold directlyIn. cbn [azblob.Name]. rewrite Hb. apply String.eqb_refl.
  - rewrite Hb. apply ParseWALSegmentPath_Format; assumption.
Qed.

(* ================================================================= *)
(** ** A listing error and [Err] *)

Section ListingError.

Context {W : Type} {service : Service W}.
Variable T : Type.
Variable decode : string -> azblob.BlobItem -> entry T.

(** When the first listing request fails with [e], the goroutine returns [e]
    and closes the channel: [Next] returns false, now and again, but the
    [err] field is still nil, and [e] comes out of [Close] only. *)
Lemma listing_error_not_recorded (zero : T)
  (dirOf : string -> string -> result string) (dirError : string)
  (generation dir : string) (client : ReplicaClient)
  (h : azblob.ContainerURL) (w : W) (e : error) (fuel fuel' : nat) :
  dirOf (path client) generation = Ok dir ->
  containerURL client = Some h ->
  ListBlobsFlatSegment w h false azblob.zeroMarker (dir ++ "/") = Err e ->
  let itr := newIterator T zero dirOf dirError generation client in
  let itr1 := snd (Next T decode (S fuel) w itr) in
  fst (Next T decode (S fuel) w itr) = Some false
  /\ task itr1 = Returned (Some e)
  /\ Next T decode fuel' w itr1 = (Some false, itr1)
  /\ Err_ T itr1 = None
  /\ forall ahead, fst (Close T decode fuel' ahead w itr1) = Some (Some e).
Proof.
  intros Hd Hh Hl. cbv zeta.
  unfold Next, newIterator, fetchStart. simpl. rewrite Hd. simpl.
  unfold fetchPage. simpl. rewrite Hh, Hl.
  rewrite fetchRun_blocked by discriminate. simpl.
  repeat apply conj; try reflexivity.
  - unfold Next. simpl. rewrite fetchRun_blocked by discriminate. reflexivity.
  - intros ahead. unfold Close. simpl. destruct ahead, fuel'; reflexivity.
Qed.

End ListingError.

Section OnTheMemoryStore.

#[local] Existing Instance SimpleURL.Parser.
#[local] Existing Instance Memory.Service.
#[local] Existing Instance Memory.Bytes.
#[local] Existing Instance Example.paths.

(** C1. On a store whose first listing request fails with the error
    [serverBusy], the fetch loop of either iterator returns that error and
    [Next] returns false, on the first call and on the next. But [Err] then
    returns nil, not the error: no method assigns the [err] field. The error
    is returned by [Close] only, whatever the schedule. *)
Theorem Err_is_nil_after_listing_error :
  let w := Example.failingWorld in
  let snapshots := newSnapshotIterator Example.generation Example.ready in
  let segments := newWALSegmentIterator Example.generation Example.ready in
  let snapshots1 := snd (snapshotIterator_Next 3 w snapshots) in
  let segments1 := snd (walSegmentIterator_Next 3 w segments) in
  (fst (snapshotIterator_Next 3 w snapshots) = Some false
   /\ task snapshots1 = Returned (Some Example.serverBusy)
   /\ snapshotIterator_Next 3 w snapshots1 = (Some false, snapshots1)
   /\ snapshotIterator_Err snapshots1 = None
   /\ snapshotIterator_Err snapshots1 <> Some Example.serverBusy
   /\ forall ahead,
        fst (snapshotIterator_Close 3 ahead w snapshots1)
        = Some (Some Example.serverBusy))
  /\ (fst (walSegmentIterator_Next 3 w segments) = Some false
      /\ task segments1 = Returned (Some Example.serverBusy)
      /\ walSegmentIterator_Next 3 w segments1 = (Some false, segments1)
      /\ walSegmentIterator_Err segments1 = None
      /\ walSegmentIterator_Err segments1 <> Some Example.serverBusy
      /\ forall ahead,
           fst (walSegmentIterator_Close 3 ahead w segments1)
           = Some (Some Example.serverBusy)).
Proof.
  cbv zeta. repeat apply conj;
    try (intros ahead; destruct ahead; reflexivity);
    try (vm_compute; reflexivity); vm_compute; discriminate.
Qed.

(** *** The properties at work *)

Lemma NewReplicaClient_access_scope_witness :
  url.Parse Example.sasUrl = Ok (Example.parsed Example.sasUrl)
  /\ exists c,
       NewReplicaClient Example.sasUrl = Ok c
       /\ container c = "backups"
       /\ path c = "db/prod"
       /\ exists h,
            Init c = (None, withContainerURL c h)
            /\ url.RawQuery (azblob.containerAddress h) = "sv=2020&sig=abc".
Proof.
  assert (Hu : url.Parse Example.sasUrl = Ok (Example.parsed Example.sasUrl))
    by reflexivity.
  split; [exact Hu|].
  destruct (NewReplicaClient_access_scope (W := Memory.World)
              Example.sasUrl (Example.parsed Example.sasUrl) Hu)
    as (c & Hc & Hcont & Hpath & _ & (h & Hi & _ & Hq) & _).
  exists c. repeat split; auto. exists h. split; auto.
Defined.

Lemma Init_never_fails_witness :
  NewReplicaClient Example.sasUrl = Ok Example.fresh
  /\ performAll Example.fresh Example.world
       [CallSnapshots Example.generation; CallType]
     = Some (Example.ready, Example.world)
  /\ fst (Init Example.ready) = None.
Proof.
  assert (H1 : NewReplicaClient Example.sasUrl = Ok Example.fresh)
    by reflexivity.
  assert (H2 : performAll Example.fresh Example.world
                 [CallSnapshots Example.generation; CallType]
               = Some (Example.ready, Example.world)) by reflexivity.
  split; [exact H1|]. split; [exact H2|].
  exact (proj1 (Init_never_fails Example.sasUrl Example.fresh H1 _ _ _ _ H2)).
Defined.

Lemma NewReplicaClient_never_missing_container_witness :
  url.Parse Example.bareUrl = Ok (Example.parsed Example.bareUrl)
  /\ url.Path (Example.parsed Example.bareUrl) = ""
  /\ exists c, NewReplicaClient Example.bareUrl = Ok c
               /\ container c = "" /\ path c = "".
Proof.
  assert (Hu : url.Parse Example.bareUrl
               = Ok (Example.parsed Example.bareUrl)) by reflexivity.
  assert (Hp : url.Path (Example.parsed Example.bareUrl) = "")
    by reflexivity.
  split; [exact Hu|]. split; [exact Hp|].
  exact (proj2 (proj2 (proj2
           (NewReplicaClient_never_missing_container
              Example.bareUrl (Example.parsed Example.bareUrl) Hu)))
         Hp).
Defined.

Lemma delete_not_found_is_success_witness :
  Init Example.ready = (None, Example.ready)
  /\ containerURL Example.ready = Some Example.handle
  /\ BlobDelete Example.world Example.handle
       (Example.snapshotsDir ++ "/00000007.snapshot.lz4")
     = (Some (StorageError azblob.ServiceCodeBlobNotFound), Example.world)
  /\ DeleteSnapshot Example.ready Example.world Example.generation 7
     = Returns (None, Example.ready, Example.world).
Proof.
  assert (H1 : Init Example.ready = (None, Example.ready)) by reflexivity.
  assert (H2 : containerURL Example.ready = Some Example.handle)
    by reflexivity.
  assert (H3 : BlobDelete Example.world Example.handle
                 (Example.snapshotsDir ++ "/00000007.snapshot.lz4")
               = (Some (StorageError azblob.ServiceCodeBlobNotFound),
                  Example.world)) by reflexivity.
  assert (H4 : isNotExists
                 (Some (StorageError azblob.ServiceCodeBlobNotFound)) = true)
    by reflexivity.
  assert (H5 : litestream.SnapshotPath (path Example.ready)
                 Example.generation 7
               = Ok (Example.snapshotsDir ++ "/00000007.snapshot.lz4"))
    by reflexivity.
  split; [exact H1|]. split; [exact H2|]. split; [exact H3|].
  exact (proj1 (proj2
           (delete_not_found_is_success Example.ready Example.ready
              Example.handle Example.world Example.world
              (Some (StorageError azblob.ServiceCodeBlobNotFound))
              H1 H2 H4))
         Example.generation 7%Z _ H5 H3).
Defined.

Lemma DeleteWALSegments_stops_at_first_error_witness :
  containerURL Example.ready = Some Example.handle
  /\ DeleteWALSegments Example.ready
       (Example.locked
          [Example.snapshot0; Example.segment0; Example.segment1;
           Example.segment2])
       ([Example.pos 0 0; Example.pos 0 4096] ++ [Example.pos 1 0])
     = Returns
         (Some (ErrorfW "cannot delete wal segment %q: %w"
                  [Memory.blobName Example.segment1] Example.leaseHeld),
          Example.ready,
          Example.locked
            [Example.snapshot0; Example.segment1; Example.segment2]).
Proof.
  assert (H : containerURL Example.ready = Some Example.handle)
    by reflexivity.
  split; [exact H|].
  refine (proj1 (proj2 (proj2 (proj2 (proj2
            (DeleteWALSegments_stops_at_first_error Example.ready
               Example.handle H)))))
          _ _ _ _ _ _).
  reflexivity.
Defined.

Lemma readers_translate_not_found_witness :
  Init Example.ready = (None, Example.ready)
  /\ containerURL Example.ready = Some Example.handle
  /\ SnapshotReader Example.ready Example.world Example.generation 7
     = Returns (Err ErrNotExist, Example.ready, Example.world)
  /\ WALSegmentReader Example.ready Example.world (Example.pos 9 0)
     = Returns (Err ErrNotExist, Example.ready, Example.world).
Proof.
  assert (H1 : Init Example.ready = (None, Example.ready)) by reflexivity.
  assert (H2 : containerURL Example.ready = Some Example.handle)
    by reflexivity.
  destruct (readers_translate_not_found Example.ready Example.ready
              Example.handle Example.world Example.world
              (StorageError azblob.ServiceCodeBlobNotFound) H1 H2)
    as (_ & Hs & Hw).
  split; [exact H1|]. split; [exact H2|]. split.
  - eapply Hs; reflexivity.
  - eapply Hw; reflexivity.
Defined.


Lemma malformed_keys_are_skipped_witness :
  path.Base Example.stray = "not-a-valid-key"
  /\ (forall h done marker prefix,
         ListBlobsFlatSegment Example.hiddenWorld h done marker prefix
         = withoutBlob Example.stray
             (ListBlobsFlatSegment Example.strayWorld h done marker prefix))
  /\ fst (iterate WALSegmentInfo.t walSegmentEntry 5 3 Example.strayWorld
            (newWALSegmentIterator Example.generation Example.ready))
     = ([Example.segmentInfo 0 0; Example.segmentInfo 0 4096;
         Example.segmentInfo 1 0], Ended)
  /\ walSegmentIterator_Err
       (snd (iterate WALSegmentInfo.t walSegmentEntry 5 3 Example.strayWorld
               (newWALSegmentIterator Example.generation Example.ready)))
     = None.
Proof.
  assert (Hl : forall h done marker prefix,
             ListBlobsFlatSegment Example.hiddenWorld h done marker prefix
             = withoutBlob Example.stray
                 (ListBlobsFlatSegment Example.strayWorld h done marker
                    prefix)) by reflexivity.
  assert (Hp : exists e,
             litestream.ParseWALSegmentPath (path.Base Example.stray) = Err e)
    by (eexists; reflexivity).
  destruct (proj2 (malformed_keys_are_skipped Example.strayWorld
                     Example.hiddenWorld Example.stray Example.generation
                     Example.ready 5 3 3 Hl) Hp) as (Hrun & Herr & _).
  split; [reflexivity|]. split; [exact Hl|]. split; [|exact Herr].
  rewrite Hrun. vm_compute. reflexivity.
Defined.

Lemma walSegments_ascending_witness :
  let listing :=
    listed (5 * 3) Example.world Example.handle (Example.walDir ++ "/")
      azblob.zeroMarker in
  let seen :=
    fst (fst (iterate WALSegmentInfo.t walSegmentEntry 5 3 Example.world
                (newWALSegmentIterator Example.generation Example.ready))) in
  map azblob.Name listing
  = map Memory.blobName
      [Example.segment0; Example.segment1; Example.segment2]
  /\ StronglySorted keyLt (map azblob.Name listing)
  /\ map walPos seen = [(0, 0); (0, 4096); (1, 0)]%Z
  /\ StronglySorted walLt seen.
Proof.
  cbv zeta.
  assert (Hs : StronglySorted keyLt
                 (map azblob.Name
                    (listed (5 * 3) Example.world Example.handle
                       (Example.walDir ++ "/") azblob.zeroMarker))).
  { vm_compute (map _ _). repeat constructor. }
  assert (Hf : Forall (fun item =>
                         isOk (Codec.ParseWALSegmentPath layout8
                                 (path.Base (azblob.Name item))) = true ->
                         directlyIn Example.walDir item = true)
                 (listed (5 * 3) Example.world Example.handle
                    (Example.walDir ++ "/") azblob.zeroMarker)).
  { vm_compute (listed _ _ _ _ _). repeat constructor. }
  assert (H1 : WALSegments Example.fresh Example.generation
               = (Ok (newWALSegmentIterator Example.generation Example.ready),
                  Example.ready)) by reflexivity.
  assert (H2 : containerURL Example.ready = Some Example.handle)
    by reflexivity.
  assert (H3 : Codec.WALPath layout8 (path Example.ready) Example.generation
               = Ok Example.walDir) by reflexivity.
  split; [vm_compute; reflexivity|]. split; [exact Hs|].
  split; [vm_compute; reflexivity|].
  exact (proj2
           (proj2 (proj2 (walSegments_ascending layout8))
              Example.fresh Example.ready Example.generation Example.walDir
              (newWALSegmentIterator Example.generation Example.ready)
              Example.handle Example.world 5%nat 3%nat H1 H2 H3)
           Hs Hf).
Defined.

(** C2, as it is stated, fails on a segment file below the WAL directory.
    [fetch] lists the directory flat and decodes the last path element of
    every key, whatever lies between the directory and that element. Here
    the store lists two keys, in key order; the file names of both are those
    of segments; and the iterator yields (1, 0) before (0, 0). *)
Lemma walSegments_not_ascending_below_the_directory :
  let w := Example.nestedWorld in
  let itr := newWALSegmentIterator Example.generation Example.ready in
  let listing :=
    listed 3 w Example.handle (Example.walDir ++ "/") azblob.zeroMarker in
  let run := iterate WALSegmentInfo.t walSegmentEntry 3 3 w itr in
  WALSegments Example.fresh Example.generation = (Ok itr, Example.ready)
  /\ map azblob.Name listing
     = [Example.walDir ++ "/00000001_00000000.wal.lz4";
        Example.walDir ++ "/old/00000000_00000000.wal.lz4"]
  /\ StronglySorted keyLt (map azblob.Name listing)
  /\ map (fun item =>
            litestream.ParseWALSegmentPath (path.Base (azblob.Name item)))
       listing
     = [Ok (1, 0)%Z; Ok (0, 0)%Z]
  /\ fst run = ([Example.segmentInfo 1 0; Example.segmentInfo 0 0], Ended)
  /\ map walPos (fst (fst run)) = [(1, 0)%Z; (0, 0)%Z]
  /\ ~ StronglySorted walLt (fst (fst run)).
Proof.
  cbv zeta. repeat apply conj; try (vm_compute; reflexivity).
  - vm_compute (map _ _). repeat constructor.
  - vm_compute (fst (fst _)). intros H. inv H.
    match goal with
    | F : Forall _ (_ :: _) |- _ => inv F
    end.
    match goal with
    | L : walLt _ _ |- _ => unfold walLt, posLt in L; simpl in L; lia
    end.
Qed.

(** *** The scenarios of the design document *)

(** An iterator over an empty generation: [Next] returns false on the first
    call and [Err] is nil. *)
Example empty_generation :
  let itr := newSnapshotIterator Example.generation Example.ready in
  fst (snapshotIterator_Next 3 (Example.store []) itr) = Some false
  /\ snapshotIterator_Err (snd (snapshotIterator_Next 3 (Example.store []) itr))
     = None
  /\ forall ahead,
       fst (snapshotIterator_Close 3 ahead (Example.store [])
              (snd (snapshotIterator_Next 3 (Example.store []) itr)))
       = Some None.
Proof. repeat split. destruct ahead; reflexivity. Qed.

(** A snapshot of ten bytes is written, listed, deleted, and listed no more.
    The record that the write returns carries the client's clock; the one
    that the listing gives carries the store's. *)
Example snapshot_round_trip :
  match WriteSnapshot Example.fresh (Example.store []) Example.generation 0
          Example.payload with
  | Returns (Ok info, c, w1, _) =>
      info = {| SnapshotInfo.Generation := Example.generation;
                SnapshotInfo.Index := 0;
                SnapshotInfo.Size := 10;
                SnapshotInfo.CreatedAt := time.UTC Example.noon |}
      /\ fst (iterate SnapshotInfo.t snapshotEntry 5 3 w1
                (newSnapshotIterator Example.generation c))
         = ([{| SnapshotInfo.Generation := Example.generation;
                SnapshotInfo.Index := 0;
                SnapshotInfo.Size := 10;
                SnapshotInfo.CreatedAt :=
                  time.UTC (Memory.later Example.noon) |}], Ended)
      /\ match DeleteSnapshot c w1 Example.generation 0 with
         | Returns (None, c', w2) =>
             fst (iterate SnapshotInfo.t snapshotEntry 5 3 w2
                    (newSnapshotIterator Example.generation c'))
             = ([], Ended)
         | _ => False
         end
  | _ => False
  end.
Proof. vm_compute. repeat split. Qed.

(** A generation is listed, deleted blob by blob over two pages, and listed
    no more. *)
Example generation_round_trip :
  Generations 3 Example.ready Example.world
  = Returns (Ok [Example.generation], Example.ready)
  /\ match DeleteGeneration 3 Example.ready Example.world Example.generation
     with
     | Returns (None, c, w) =>
         Memory.blobs w = []
         /\ Generations 3 c w = Returns (Ok [], c)
     | _ => False
     end.
Proof. vm_compute. repeat split. Qed.

(** Segments at (0, 0), (0, 4096) and (1, 0) are iterated in that order, over
    two pages. *)
Example segments_in_order :
  map walPos
    (fst (fst (iterate WALSegmentInfo.t walSegmentEntry 5 3 Example.world
                 (newWALSegmentIterator Example.generation Example.ready))))
  = [(0, 0); (0, 4096); (1, 0)]%Z.
Proof. reflexivity. Qed.

End OnTheMemoryStore.

(* ================================================================= *)
(** ** Further properties: the client *)

Section MoreClientProperties.

Context {parser : url.Parser} {paths : litestream.Paths}.
Context {W : Type} {service : Service W}.

Lemma appendGenerations_filter (prefixes : list azblob.BlobPrefix)
  (generations : list string) :
  appendGenerations prefixes generations
  = (generations
     ++ filter litestream.IsGenerationName (map generationOf prefixes))%list.
Proof.
  revert generations. induction prefixes as [|p ps IH]; intros gs; simpl.
  - rewrite app_nil_r. reflexivity.
  - fold (generationOf p).
    destruct (litestream.IsGenerationName (generationOf p)); simpl.
    + rewrite IH, <- app_assoc. reflexivity.
    + apply IH.
Qed.

Lemma generationsLoop_filter (fuel : nat) (c : ReplicaClient)
  (h : azblob.ContainerURL) (w : W) (marker : azblob.Marker)
  (acc gs : list string) :
  containerURL c = Some h ->
  generationsLoop fuel c w marker acc = Returns (Ok gs) ->
  gs = (acc
        ++ filter litestream.IsGenerationName
             (map generationOf
                (listedPrefixes fuel w h "/"
                   (litestream.GenerationsPath (path c) ++ "/") marker)))%list.
Proof.
  intros Hh. revert marker acc.
  induction fuel as [|fuel IH]; intros marker acc H.
  - simpl in *. destruct (azblob.NotDone marker); [discriminate|].
    inv H. rewrite app_nil_r. reflexivity.
  - simpl in *. destruct (azblob.NotDone marker);
      [|inv H; rewrite app_nil_r; reflexivity].
    unfold withHandle in H. rewrite Hh in H.
    destruct (ListBlobsHierarchySegment w h marker "/"
                (litestream.GenerationsPath (path c) ++ "/")) as [resp|e];
      [|discriminate].
    apply IH in H. rewrite H, appendGenerations_filter.
    rewrite map_app, filter_app, app_assoc. reflexivity.
Qed.

(** X1. What [Generations] returns is, in listing order and over all pages,
    the last path element of every listed prefix that is a generation name,
    and nothing else: every name returned passes [IsGenerationName]. *)
Theorem Generations_lists_generation_names (fuel : nat)
  (c c' : ReplicaClient) (h : azblob.ContainerURL) (w : W)
  (gs : list string) :
  Generations fuel c w = Returns (Ok gs, c') ->
  containerURL c' = Some h ->
  gs = filter litestream.IsGenerationName
         (map generationOf
            (listedPrefixes fuel w h "/"
               (litestream.GenerationsPath (path c') ++ "/")
               azblob.zeroMarker))
  /\ Forall (fun g => litestream.IsGenerationName g = true) gs.
Proof.
  intros H Hh. unfold Generations in H.
  destruct (Init c) as [[e|] c1] eqn:Hi; [inv H|].
  destruct (generationsLoop fuel c1 w azblob.zeroMarker []) as [r| |] eqn:Hl;
    inv H.
  pose proof (generationsLoop_filter _ _ _ _ _ _ _ Hh Hl) as Hg.
  simpl in Hg. split; [exact Hg|].
  rewrite Hg. apply Forall_forall. intros g Hin.
  apply filter_In in Hin. tauto.
Qed.

Lemma deleteItems_app (w : W) (h : azblob.ContainerURL)
  (a b : list azblob.BlobItem) :
  deleteItems w h (a ++ b)
  = match deleteItems w h a with
    | (None, w1) => deleteItems w1 h b
    | r => r
    end.
Proof.
  revert w. induction a as [|item rest IH]; intros w; simpl.
  - destruct (deleteItems w h b) as [[e|] w1]; reflexivity.
  - destruct (BlobDelete w h (azblob.Name item)) as [err w1].
    destruct (isNotExists err); [apply IH|].
    destruct err; [reflexivity | apply IH].
Qed.

Lemma deleteItems_first_error (w w' : W) (h : azblob.ContainerURL)
  (items : list azblob.BlobItem) (e : error) :
  deleteItems w h items = (Some e, w') ->
  exists a1 item a2 w1,
    items = (a1 ++ item :: a2)%list
    /\ deleteItems w h a1 = (None, w1)
    /\ BlobDelete w1 h (azblob.Name item) = (Some e, w')
    /\ isNotExists (Some e) = false.
Proof.
  revert w. induction items as [|item rest IH]; intros w H; [discriminate|].
  simpl in H.
  destruct (BlobDelete w h (azblob.Name item)) as [err w1] eqn:Hd.
  destruct (isNotExists err) eqn:Hn.
  - destruct (IH _ H) as (a1 & it & a2 & w2 & Ha & Hb & Hc & Hx).
    exists (item :: a1), it, a2, w2. repeat split; auto.
    + simpl. congruence.
    + simpl. rewrite Hd, Hn. exact Hb.
  - destruct err as [e1|].
    + inv H. exists [], item, rest, w. repeat split; auto.
    + destruct (IH _ H) as (a1 & it & a2 & w2 & Ha & Hb & Hc & Hx).
      exists (item :: a1), it, a2, w2. repeat split; auto.
      * simpl. congruence.
      * simpl. rewrite Hd, Hn. exact Hb.
Qed.

(** X2. The blobs of the first page are deleted in the order listed. The
    first deletion that fails otherwise than with not-found ends
    [DeleteGeneration]: it returns the store's error as it is, no blob after
    that one is touched, and no further page is requested. *)
Theorem DeleteGeneration_stops_at_first_error (c c1 : ReplicaClient)
  (h : azblob.ContainerURL) (w w' : W) (generation dir : string)
  (resp : azblob.ListBlobsFlatSegmentResponse) (e : error) (fuel : nat) :
  Init c = (None, c1) ->
  containerURL c1 = Some h ->
  litestream.GenerationPath (path c1) generation = Ok dir ->
  ListBlobsFlatSegment w h false azblob.zeroMarker (dir ++ "/") = Ok resp ->
  deleteItems w h (azblob.BlobItems resp) = (Some e, w') ->
  DeleteGeneration (S fuel) c w generation = Returns (Some e, c1, w')
  /\ isNotExists (Some e) = false
  /\ (exists a1 item a2 w1,
        azblob.BlobItems resp = (a1 ++ item :: a2)%list
        /\ deleteItems w h a1 = (None, w1)
        /\ BlobDelete w1 h (azblob.Name item) = (Some e, w')
        /\ forall more, deleteItems w h (a1 ++ item :: more) = (Some e, w')).
Proof.
  intros Hi Hh Hg Hl Hd.
  destruct (deleteItems_first_error _ _ _ _ _ Hd)
    as (a1 & item & a2 & w1 & Ha & Hb & Hc & Hx).
  repeat apply conj.
  - unfold DeleteGeneration. rewrite Hi, Hg. simpl.
    unfold withHandle. rewrite Hh, Hl, Hd. reflexivity.
  - exact Hx.
  - exists a1, item, a2, w1. repeat split; auto.
    intros more. rewrite deleteItems_app, Hb. simpl.
    rewrite Hc. unfold isNotExists in Hx. simpl. rewrite Hx. reflexivity.
Qed.

Lemma perform_handle (c c' : ReplicaClient) (w w' : W) (k : call)
  (h : azblob.ContainerURL) :
  containerURL c = Some h -> perform c w k = Some (c', w') ->
  containerURL c' = Some h.
Proof.
  intros Hh H. destruct (perform_client _ _ _ _ _ H) as [->| ->]; auto.
  rewrite (Init_cached _ _ Hh). exact Hh.
Qed.

(** X3. The handle is made at most once: once a client holds a handle, no
    sequence of calls replaces or clears it. *)
Theorem handle_is_made_once (ks : list call) (c c' : ReplicaClient)
  (w w' : W) (h : azblob.ContainerURL) :
  containerURL c = Some h ->
  performAll c w ks = Some (c', w') ->
  containerURL c' = Some h.
Proof.
  revert c w. induction ks as [|k ks IH]; simpl; intros c w Hh H.
  - inv H. exact Hh.
  - destruct (perform c w k) as [[c1 w1]|] eqn:Hk; [|discriminate].
    eapply IH; [|exact H]. eapply perform_handle; eauto.
Qed.

Lemma generationsLoop_no_panic (fuel : nat) (c : ReplicaClient)
  (h : azblob.ContainerURL) (w : W) (marker : azblob.Marker)
  (acc : list string) (msg : string) :
  containerURL c = Some h ->
  generationsLoop fuel c w marker acc <> Panics msg.
Proof.
  intros Hh. revert marker acc. induction fuel as [|fuel IH];
    intros marker acc; simpl.
  - destruct (azblob.NotDone marker); discriminate.
  - destruct (azblob.NotDone marker); [|discriminate].
    unfold withHandle. rewrite Hh.
    destruct (ListBlobsHierarchySegment _ _ _ _ _); [apply IH | discriminate].
Qed.

Lemma deleteGenerationLoop_no_panic (fuel : nat) (c : ReplicaClient)
  (h : azblob.ContainerURL) (w : W) (dir : string) (marker : azblob.Marker)
  (msg : string) :
  containerURL c = Some h ->
  deleteGenerationLoop fuel c w dir marker <> Panics msg.
Proof.
  intros Hh. revert w marker. induction fuel as [|fuel IH];
    intros w marker; simpl.
  - destruct (azblob.NotDone marker); discriminate.
  - destruct (azblob.NotDone marker); [|discriminate].
    unfold withHandle. rewrite Hh.
    destruct (ListBlobsFlatSegment _ _ _ _ _); [|discriminate].
    destruct (deleteItems _ _ _) as [[e|] w1]; [discriminate | apply IH].
Qed.

(** X4. No public operation dereferences a nil handle: whatever the state of
    the client and of the store, none of them panics, and the iterators
    they return hold a client whose handle is set. *)
Theorem operations_never_panic (c : ReplicaClient) (w : W) (msg : string) :
  (forall fuel, Generations fuel c w <> Panics msg)
  /\ (forall fuel generation,
        DeleteGeneration fuel c w generation <> Panics msg)
  /\ (forall generation index (R : Type) (reader : Reader R) (rd : R),
        WriteSnapshot c w generation index rd <> Panics msg)
  /\ (forall generation index,
        SnapshotReader c w generation index <> Panics msg)
  /\ (forall generation index,
        DeleteSnapshot c w generation index <> Panics msg)
  /\ (forall pos (R : Type) (reader : Reader R) (rd : R),
        WriteWALSegment c w pos rd <> Panics msg)
  /\ (forall pos, WALSegmentReader c w pos <> Panics msg)
  /\ (forall a, DeleteWALSegments c w a <> Panics msg)
  /\ (forall generation itr c',
        Snapshots c generation = (Ok itr, c') ->
        containerURL (client itr) <> None)
  /\ (forall generation itr c',
        WALSegments c generation = (Ok itr, c') ->
        containerURL (client itr) <> None).
Proof.
  destruct (Init c) as [[e|] c1] eqn:Hi.
  - repeat apply conj; intros;
      unfold Generations, DeleteGeneration, WriteSnapshot, SnapshotReader,
        DeleteSnapshot, WriteWALSegment, WALSegmentReader, DeleteWALSegments,
        Snapshots, WALSegments in *;
      rewrite Hi in *; discriminate.
  - destruct (Init_handle _ _ Hi) as [h Hh].
    repeat apply conj; intros;
      unfold Generations, DeleteGeneration, WriteSnapshot, SnapshotReader,
        DeleteSnapshot, WriteWALSegment, WALSegmentReader, DeleteWALSegments,
        Snapshots, WALSegments, withHandle in *;
      rewrite Hi in *; try rewrite Hh.
    + pose proof (generationsLoop_no_panic fuel c1 h w azblob.zeroMarker []
                    msg Hh).
      destruct (generationsLoop _ _ _ _ _); congruence.
    + destruct (litestream.GenerationPath _ _); [|discriminate].
      pose proof (deleteGenerationLoop_no_panic fuel c1 h w a
                    azblob.zeroMarker msg Hh).
      destruct (deleteGenerationLoop _ _ _ _ _) as [[? ?]| |]; congruence.
    + destruct (litestream.SnapshotPath _ _ _); [|discriminate].
      try rewrite Hh. destruct (runUpload _ _) as [[[?|?] ?] ?]; discriminate.
    + destruct (litestream.SnapshotPath _ _ _); [|discriminate].
      try rewrite Hh. destruct (BlobDownload _ _ _) as [[?|?] ?];
        [discriminate|]. destruct (isNotExists _); discriminate.
    + destruct (litestream.SnapshotPath _ _ _); [|discriminate].
      try rewrite Hh. destruct (BlobDelete _ _ _) as [[?|] ?];
        destruct (isNotExists _); discriminate.
    + destruct (litestream.WALSegmentPath _ _ _ _); [|discriminate].
      try rewrite Hh. destruct (runUpload _ _) as [[[?|?] ?] ?]; discriminate.
    + destruct (litestream.WALSegmentPath _ _ _ _); [|discriminate].
      try rewrite Hh. destruct (BlobDownload _ _ _) as [[?|?] ?];
        [discriminate|]. destruct (isNotExists _); discriminate.
    + destruct (deleteWALSegmentsLoop_returns c1 h a w Hh) as (err & w' & ->).
      discriminate.
    + inv H. simpl. congruence.
    + inv H. simpl. congruence.
Qed.

End MoreClientProperties.

Lemma Join_Split (s : string) :
  strings.Join (strings.Split s "/"%char) "/" = s.
Proof.
  unfold strings.Join. induction s as [|c r IH]; [reflexivity|].
  simpl strings.Split. pose proof (Split_not_nil r "/"%char) as Hn.
  destruct (Ascii.eqb c "/"%char) eqn:E.
  - apply Ascii.eqb_eq in E. subst c.
    destruct (strings.Split r "/"%char) as [|x xs]; [congruence|].
    change (String.concat "/" ("" :: x :: xs))
      with ("" ++ "/" ++ String.concat "/" (x :: xs)).
    rewrite IH. reflexivity.
  - destruct (strings.Split r "/"%char) as [|x xs]; [congruence|].
    destruct xs as [|y ys].
    + simpl in *. congruence.
    + change (String.concat "/" (String c x :: y :: ys))
        with (String c (x ++ "/" ++ String.concat "/" (y :: ys))).
      change (String.concat "/" (x :: y :: ys))
        with (x ++ "/" ++ String.concat "/" (y :: ys)) in IH.
      rewrite IH. reflexivity.
Qed.

Lemma Split_head (s : string) :
  exists a rest, strings.Split s "/"%char = a :: rest /\ slashFree a = true.
Proof.
  induction s as [|c r (a & rest & Hs & Ha)]; simpl.
  - exists "", []. auto.
  - destruct (Ascii.eqb c "/"%char) eqn:E.
    + exists "", (strings.Split r "/"%char). auto.
    + rewrite Hs. exists (String c a), rest. split; [reflexivity|].
      simpl. rewrite E, Ha. reflexivity.
Qed.

Section MoreOperationProperties.

Context {parser : url.Parser} {paths : litestream.Paths}.
Context {W : Type} {service : Service W}.

(** X5. The container and the prefix that [NewReplicaClient] derives put
    together give back the path of the URL without its leading slash: the
    container has no slash; a path with no further slash is the container,
    the prefix being empty; otherwise the path is the container, a slash, and
    the prefix, kept as it stands. *)
Theorem NewReplicaClient_splits_path (sasUrl : string) (u : url.URL)
  (c : ReplicaClient) :
  url.Parse sasUrl = Ok u ->
  NewReplicaClient sasUrl = Ok c ->
  slashFree (container c) = true
  /\ (slashFree (strings.TrimPrefix (url.Path u) "/") = true ->
      container c = strings.TrimPrefix (url.Path u) "/" /\ path c = "")
  /\ (slashFree (strings.TrimPrefix (url.Path u) "/") = false ->
      strings.TrimPrefix (url.Path u) "/" = container c ++ "/" ++ path c).
Proof.
  intros Hu Hc. rewrite (NewReplicaClient_Ok _ _ Hu) in Hc. inv Hc. simpl.
  unfold pathParts. set (p := strings.TrimPrefix (url.Path u) "/").
  pose proof (Join_Split p) as Hj.
  destruct (Split_head p) as (a & rest & Hs & Ha).
  repeat apply conj.
  - rewrite Hs. exact Ha.
  - intros Hp. rewrite (Split_slashFree _ Hp). auto.
  - intros Hp. rewrite Hs in *. simpl.
    destruct rest as [|b l].
    + unfold strings.Join in Hj. simpl in Hj. congruence.
    + unfold strings.Join in *. rewrite <- Hj at 1. reflexivity.
Qed.

(** X6. The counting wrapper does not show: [WriteSnapshot] and
    [WriteWALSegment] leave the store and the byte source as the upload, run
    on the source itself, leaves them, and an error of the upload is
    returned as it is, unwrapped. *)
Theorem write_is_the_upload (R : Type) (reader : Reader R)
  (c c1 : ReplicaClient) (h : azblob.ContainerURL) (w : W) (rd : R) :
  Init c = (None, c1) ->
  containerURL c1 = Some h ->
  (forall generation index key,
      litestream.SnapshotPath (path c1) generation index = Ok key ->
      let u := UploadStreamToBlockBlob w h key in
      WriteSnapshot c w generation index rd
      = Returns
          (match fst (fst (runUpload u rd)) with
           | Err e => Err e
           | Ok _ =>
               Ok {| SnapshotInfo.Generation := generation;
                     SnapshotInfo.Index := index;
                     SnapshotInfo.Size := internal.int64 (bytesRead u rd);
                     SnapshotInfo.CreatedAt := time.UTC (time_Now w) |}
           end, c1, snd (fst (runUpload u rd)), snd (runUpload u rd)))
  /\ (forall pos key,
        litestream.WALSegmentPath (path c1) (Pos.Generation pos)
          (Pos.Index pos) (Pos.Offset pos) = Ok key ->
        let u := UploadStreamToBlockBlob w h key in
        WriteWALSegment c w pos rd
        = Returns
            (match fst (fst (runUpload u rd)) with
             | Err e => Err e
             | Ok _ =>
                 Ok {| WALSegmentInfo.Generation := Pos.Generation pos;
                       WALSegmentInfo.Index := Pos.Index pos;
                       WALSegmentInfo.Offset := Pos.Offset pos;
                       WALSegmentInfo.Size := internal.int64 (bytesRead u rd);
                       WALSegmentInfo.CreatedAt := time.UTC (time_Now w) |}
             end, c1, snd (fst (runUpload u rd)), snd (runUpload u rd))).
Proof.
  intros Hi Hh. split.
  - intros generation index key Hk u.
    unfold WriteSnapshot, withHandle. rewrite Hi, Hk, Hh.
    fold u. rewrite runUpload_NewReadCounter.
    destruct (fst (fst (runUpload u rd))); reflexivity.
  - intros pos key Hk u.
    unfold WriteWALSegment, withHandle. rewrite Hi, Hk, Hh.
    fold u. rewrite runUpload_NewReadCounter.
    destruct (fst (fst (runUpload u rd))); reflexivity.
Qed.

(** X7. A generation whose directory cannot be determined is no error of
    [Snapshots] or [WALSegments]: they return an iterator. That iterator
    makes no request to the store; its [Next] returns false, its [Err] is
    nil, and the error comes out of [Close], wrapped, whatever the
    schedule. *)
Theorem invalid_generation_surfaces_in_Close (c c1 : ReplicaClient) (w : W)
  (generation : string) (fuel ahead : nat) :
  Init c = (None, c1) ->
  (forall e,
      litestream.SnapshotsPath (path c1) generation = Err e ->
      exists itr,
        Snapshots c generation = (Ok itr, c1)
        /\ snapshotIterator_Next fuel w itr = (Some false, itr)
        /\ snapshotIterator_Err itr = None
        /\ fst (snapshotIterator_Close fuel ahead w itr)
           = Some (Some (ErrorfW "cannot determine snapshots path: %w" [] e)))
  /\ (forall e,
        litestream.WALPath (path c1) generation = Err e ->
        exists itr,
          WALSegments c generation = (Ok itr, c1)
          /\ walSegmentIterator_Next fuel w itr = (Some false, itr)
          /\ walSegmentIterator_Err itr = None
          /\ fst (walSegmentIterator_Close fuel ahead w itr)
             = Some (Some (ErrorfW "cannot determine wal path: %w" [] e))).
Proof.
  intros Hi. split; intros e He; eexists;
    unfold Snapshots, WALSegments; rewrite Hi;
    (split; [reflexivity|]);
    unfold snapshotIterator_Next, snapshotIterator_Close,
      walSegmentIterator_Next, walSegmentIterator_Close, Next, Close,
      newSnapshotIterator, newWALSegmentIterator, newIterator, fetchStart;
    simpl; rewrite He; destruct fuel, ahead; repeat split.
Qed.

End MoreOperationProperties.

(* ================================================================= *)
(** ** Further properties: the iterators *)

Lemma last_first (A : Type) (l : list A) (x d : A) :
  last (x :: l) d = last l x.
Proof.
  revert x d. induction l as [|y l IH]; intros x d; [reflexivity|].
  change (last (x :: y :: l) d) with (last (y :: l) d).
  rewrite IH. symmetry. apply IH.
Qed.

Section MoreIteratorProperties.

Context {W : Type} {service : Service W}.
Variable T : Type.
Variable decode : string -> azblob.BlobItem -> entry T.

(** X8. Once [Next] has returned false it returns false on every later call,
    whatever the store has become, and leaves the iterator as it is: an
    iterator does not start over. *)
Theorem Next_false_is_final (fuel : nat) (w : W) (itr itr1 : iterator T) :
  Next T decode fuel w itr = (Some false, itr1) ->
  forall fuel' w', Next T decode fuel' w' itr1 = (Some false, itr1).
Proof.
  unfold Next. intros H fuel' w'.
  destruct (err itr) eqn:He.
  - inv H. rewrite He. reflexivity.
  - destruct (ctxDone itr) eqn:Hd.
    + inv H. rewrite He, Hd. reflexivity.
    + destruct (fetchRun T decode fuel w (client itr) (generation itr) false
                  (task itr)); inv H.
      simpl. rewrite He, Hd.
      rewrite fetchRun_blocked by discriminate. reflexivity.
Qed.

(** X9. [Close] is final and can be repeated: once it has returned, under
    whatever schedule, a second [Close] returns the same error and changes
    nothing, [Next] returns false, and a loop over the iterator sees no
    entry. *)
Theorem Close_is_final (fuel ahead : nat) (w : W) (itr itr1 : iterator T)
  (r : option error) :
  Close T decode fuel ahead w itr = (Some r, itr1) ->
  forall fuel' ahead' w',
    Close T decode fuel' ahead' w' itr1 = (Some r, itr1)
    /\ Next T decode fuel' w' itr1 = (Some false, itr1)
    /\ forall k, iterate T decode (S k) fuel' w' itr1 = ([], Ended, itr1).
Proof.
  unfold Close. intros H fuel' ahead' w'.
  destruct (fetchRun T decode fuel w (client itr) (generation itr) true
              (fetchRun T decode ahead w (client itr) (generation itr)
                 (ctxDone itr) (task itr))) as [| |e|] eqn:Hr; inv H.
  assert (Hn : Next T decode fuel' w'
                 {| client := client itr; generation := generation itr;
                    task := Returned e; ctxDone := true; info := info itr;
                    err := err itr |}
               = (Some false,
                  {| client := client itr; generation := generation itr;
                     task := Returned e; ctxDone := true; info := info itr;
                     err := err itr |})).
  { unfold Next. simpl. destruct (err itr); reflexivity. }
  repeat apply conj.
  - simpl. destruct fuel', ahead'; simpl; destruct e, (err itr);
      reflexivity.
  - exact Hn.
  - intros k. simpl iterate. rewrite Hn. reflexivity.
Qed.

(** X10. After a loop over the iterator, the current entry is the last one
    the loop saw, also when the loop has ended; with no entry seen it is what
    it was before. *)
Theorem Current_is_last_entry (k fuel : nat) (w : W) (itr : iterator T) :
  Current T (snd (iterate T decode k fuel w itr))
  = last (fst (fst (iterate T decode k fuel w itr))) (Current T itr).
Proof.
  revert itr. induction k as [|k IH]; intros itr; [reflexivity|].
  simpl iterate. unfold Next.
  destruct (err itr); [reflexivity|].
  destruct (ctxDone itr); [reflexivity|].
  destruct (fetchRun T decode fuel w (client itr) (generation itr) false
              (task itr)) as [dir marker|dir i rest marker|e|msg];
    try reflexivity.
  set (itr1 := {| client := client itr; generation := generation itr;
                  task := fetchItems T decode (generation itr) dir rest marker;
                  ctxDone := false; info := i; err := None |}).
  specialize (IH itr1).
  destruct (iterate T decode k fuel w itr1) as [[l r] itr2].
  cbn [fst snd] in *. rewrite IH. symmetry. apply last_first.
Qed.

Lemma entries_In (generation : string) (items : list azblob.BlobItem)
  (i : T) :
  In i (entries T decode generation items) ->
  exists item, In item items /\ decode generation item = Entry i.
Proof.
  induction items as [|item rest IH]; simpl; [tauto|].
  destruct (decode generation item) as [|i0|msg] eqn:Hd.
  - intros H. destruct (IH H) as (it & Hin & He). eauto.
  - intros [H|H].
    + subst. eauto.
    + destruct (IH H) as (it & Hin & He). eauto.
  - simpl. tauto.
Qed.

(** Every entry a new iterator hands over decodes a blob that the store
    listed. *)
Lemma iterate_listed (zero : T)
  (dirOf : string -> string -> result string) (dirError : string)
  (generation dir : string) (c : ReplicaClient) (h : azblob.ContainerURL)
  (w : W) (k fuel : nat) (i : T) :
  containerURL c = Some h ->
  dirOf (path c) generation = Ok dir ->
  In i (fst (fst (iterate T decode k fuel w
                    (newIterator T zero dirOf dirError generation c)))) ->
  exists item,
    In item (listed (k * fuel) w h (dir ++ "/") azblob.zeroMarker)
    /\ decode generation item = Entry i.
Proof.
  intros Hh Hd Hin.
  pose proof (iterate_stream T decode w h k fuel (k * fuel)
                (newIterator T zero dirOf dirError generation c)
                Hh (Nat.le_refl _)) as [q Hq].
  simpl in Hq. unfold fetchStart in Hq. rewrite Hd in Hq. simpl in Hq.
  apply entries_In. rewrite Hq. apply in_or_app. left. exact Hin.
Qed.

(** *** Iteration to the end *)

Lemma listingEnds_listed (n m : nat) (w : W) (h : azblob.ContainerURL)
  (prefix : string) (marker : azblob.Marker) :
  listingEnds n w h prefix marker = true ->
  listed (n + m) w h prefix marker = listed n w h prefix marker.
Proof.
  revert marker. induction n as [|n IH]; intros marker; simpl.
  - destruct (azblob.NotDone marker) eqn:Hn; [discriminate|].
    intros _. destruct m; simpl; rewrite Hn; reflexivity.
  - destruct (azblob.NotDone marker); [|reflexivity].
    destruct (ListBlobsFlatSegment w h false marker prefix); [|reflexivity].
    intros H. rewrite (IH _ H). reflexivity.
Qed.

Lemma listingEnds_S (n : nat) (w : W) (h : azblob.ContainerURL)
  (prefix : string) (marker : azblob.Marker) :
  listingEnds n w h prefix marker = true ->
  listingEnds (S n) w h prefix marker = true.
Proof.
  revert marker. induction n as [|n IH]; intros marker.
  - simpl. destruct (azblob.NotDone marker); [discriminate | reflexivity].
  - intros H. simpl in H. change (listingEnds (S (S n)) w h prefix marker)
      with (if azblob.NotDone marker then
              match ListBlobsFlatSegment w h false marker prefix with
              | Err _ => true
              | Ok resp =>
                  listingEnds (S n) w h prefix (azblob.NextMarker resp)
              end
            else true).
    destruct (azblob.NotDone marker); [|reflexivity].
    destruct (ListBlobsFlatSegment w h false marker prefix);
      [apply IH; exact H | reflexivity].
Qed.

Lemma listed_S (n : nat) (w : W) (h : azblob.ContainerURL)
  (prefix : string) (marker : azblob.Marker) :
  listingEnds n w h prefix marker = true ->
  listed (S n) w h prefix marker = listed n w h prefix marker.
Proof.
  intros H. replace (S n) with (n + 1)%nat by lia.
  apply listingEnds_listed. exact H.
Qed.

Lemma fetchItems_endsWithin (w : W) (h : azblob.ContainerURL) (n : nat)
  (generation dir : string) (items : list azblob.BlobItem)
  (marker : azblob.Marker) :
  listingEnds n w h (dir ++ "/") marker = true ->
  endsWithin T w h n (fetchItems T decode generation dir items marker).
Proof.
  intros H. induction items as [|item rest IH]; simpl; [exact H|].
  destruct (decode generation item); simpl; auto.
Qed.

Lemma fetchItems_clean (w : W) (h : azblob.ContainerURL) (n : nat)
  (generation dir : string) (items : list azblob.BlobItem)
  (marker : azblob.Marker) :
  Forall (decodes T decode generation)
    (items ++ listed n w h (dir ++ "/") marker) ->
  clean T decode w h generation n
    (fetchItems T decode generation dir items marker).
Proof.
  induction items as [|item rest IH]; simpl; intros H; [exact H|].
  inv H. unfold decodes in H2.
  destruct (decode generation item) as [|i|msg]; simpl; auto.
  exfalso. exact (H2 msg eq_refl).
Qed.

Lemma stream_S (w : W) (h : azblob.ContainerURL) (generation : string)
  (n : nat) (t : fetchTask T) :
  endsWithin T w h n t ->
  stream T decode w h generation (S n) t = stream T decode w h generation n t.
Proof.
  destruct t; unfold stream, endsWithin; intros H; try reflexivity;
    rewrite (listed_S _ _ _ _ _ H); reflexivity.
Qed.

Lemma endsWithin_S (w : W) (h : azblob.ContainerURL) (n : nat)
  (t : fetchTask T) :
  endsWithin T w h n t -> endsWithin T w h (S n) t.
Proof. destruct t; unfold endsWithin; auto using listingEnds_S. Qed.

Lemma clean_S (w : W) (h : azblob.ContainerURL) (generation : string)
  (n : nat) (t : fetchTask T) :
  endsWithin T w h n t ->
  clean T decode w h generation n t ->
  clean T decode w h generation (S n) t.
Proof.
  destruct t; unfold clean, endsWithin; intros H Hc; auto;
    rewrite (listed_S _ _ _ _ _ H); exact Hc.
Qed.

(** A goroutine whose listing ends within [n] pages, given more than [n]
    steps, comes to stand in its select or returns. *)
Lemma fetchRun_blocks (w : W) (c : ReplicaClient) (h : azblob.ContainerURL)
  (generation : string) (n fuel : nat) (t : fetchTask T) :
  containerURL c = Some h ->
  endsWithin T w h n t ->
  clean T decode w h generation n t ->
  (n < fuel)%nat ->
  let t1 := fetchRun T decode fuel w c generation false t in
  (forall dir marker, t1 <> AtLoop dir marker)
  /\ endsWithin T w h n t1
  /\ clean T decode w h generation n t1
  /\ stream T decode w h generation n t
     = stream T decode w h generation n t1.
Proof.
  intros Hh. revert fuel t. induction n as [|n IH]; intros fuel t He Hc Hf;
    (destruct t as [dir marker|dir i rest marker|e|msg];
     [|rewrite fetchRun_blocked by discriminate;
       repeat split; auto; discriminate ..]);
    (destruct fuel as [|fuel]; [lia|]); simpl fetchRun; unfold fetchPage;
    rewrite Hh; simpl in He, Hc; simpl stream.
  - destruct (azblob.NotDone marker); [discriminate|].
    rewrite fetchRun_blocked by discriminate.
    repeat split; auto; discriminate.
  - destruct (azblob.NotDone marker);
      [|rewrite fetchRun_blocked by discriminate;
        repeat split; auto; discriminate].
    destruct (ListBlobsFlatSegment w h false marker (dir ++ "/"))
      as [resp|e];
      [|rewrite fetchRun_blocked by discriminate;
        repeat split; auto; discriminate].
    set (t' := fetchItems T decode generation dir (azblob.BlobItems resp)
                 (azblob.NextMarker resp)).
    assert (He' : endsWithin T w h n t')
      by (apply fetchItems_endsWithin; exact He).
    assert (Hc' : clean T decode w h generation n t')
      by (apply fetchItems_clean; exact Hc).
    destruct (IH fuel t' He' Hc' ltac:(lia)) as (H1 & H2 & H3 & H4).
    repeat apply conj.
    + exact H1.
    + apply endsWithin_S. exact H2.
    + apply clean_S; assumption.
    + rewrite stream_S by exact H2. rewrite <- H4.
      unfold t'. rewrite stream_fetchItems. reflexivity.
Qed.

Lemma iterate_complete (w : W) (h : azblob.ContainerURL) (n fuel k : nat)
  (itr : iterator T) :
  containerURL (client itr) = Some h ->
  err itr = None -> ctxDone itr = false ->
  endsWithin T w h n (task itr) ->
  clean T decode w h (generation itr) n (task itr) ->
  (n < fuel)%nat ->
  (List.length (stream T decode w h (generation itr) n (task itr)) < k)%nat ->
  fst (iterate T decode k fuel w itr)
  = (stream T decode w h (generation itr) n (task itr), Ended).
Proof.
  revert itr. induction k as [|k IH]; intros itr Hh Herr Hd He Hc Hf Hk;
    [lia|].
  simpl iterate. unfold Next. rewrite Herr, Hd.
  destruct (fetchRun_blocks w (client itr) h (generation itr) n fuel
              (task itr) Hh He Hc Hf) as (H1 & H2 & H3 & H4).
  cbv zeta in H1, H2, H3, H4. rewrite H4 in *.
  destruct (fetchRun T decode fuel w (client itr) (generation itr) false
              (task itr)) as [dir marker|dir i rest marker|e|msg].
  - exfalso. exact (H1 _ _ eq_refl).
  - set (itr1 := {| client := client itr; generation := generation itr;
                    task := fetchItems T decode (generation itr) dir rest
                              marker;
                    ctxDone := false; info := i; err := None |}).
    simpl in H2, H3, Hk.
    assert (Hi : fst (iterate T decode k fuel w itr1)
                 = (stream T decode w h (generation itr1) n (task itr1),
                    Ended)).
    { apply IH; simpl; auto.
      - apply fetchItems_endsWithin. exact H2.
      - apply fetchItems_clean. exact H3.
      - rewrite stream_fetchItems. lia. }
    destruct (iterate T decode k fuel w itr1) as [[l r] itr2].
    simpl in Hi. inv Hi. simpl. rewrite stream_fetchItems. reflexivity.
  - reflexivity.
  - simpl in H3. contradiction.
Qed.

Lemma fetchRun_returned (fuel : nat) (w : W) (c : ReplicaClient)
  (generation : string) (done : bool) (e : option error) :
  fetchRun T decode fuel w c generation done (Returned e) = Returned e.
Proof. destruct fuel; reflexivity. Qed.

(** With the context cancelled, the goroutine drops what is left of its page
    and comes to the head of its loop. *)
Lemma fetchRun_drops (w : W) (c : ReplicaClient) (generation dir : string)
  (marker : azblob.Marker) (rest : list azblob.BlobItem) (fuel : nat) :
  Forall (decodes T decode generation) rest ->
  (List.length rest < fuel)%nat ->
  exists fuel',
    (0 < fuel')%nat
    /\ fetchRun T decode fuel w c generation true
         (fetchItems T decode generation dir rest marker)
       = fetchRun T decode fuel' w c generation true (AtLoop dir marker).
Proof.
  revert fuel. induction rest as [|item rest IH]; intros fuel Hc Hf.
  - exists fuel. split; [simpl in Hf; lia | reflexivity].
  - inv Hc. simpl in Hf. simpl fetchItems. unfold decodes in H1.
    destruct (decode generation item) as [|i|msg].
    + apply IH; [assumption | lia].
    + destruct fuel as [|fuel]; [lia|]. simpl fetchRun.
      apply IH; [assumption | lia].
    + exfalso. exact (H1 msg eq_refl).
Qed.

(** What the goroutine does by itself in [a] turns and then in [b] more is
    what it does in [a + b]. *)
Lemma fetchRun_add (a b : nat) (w : W) (c : ReplicaClient)
  (generation : string) (t : fetchTask T) :
  fetchRun T decode (a + b) w c generation false t
  = fetchRun T decode b w c generation false
      (fetchRun T decode a w c generation false t).
Proof.
  revert t. induction a as [|a IH]; intros t.
  - destruct t; reflexivity.
  - destruct t as [dir marker|dir i rest marker|e|msg].
    + simpl. apply IH.
    + rewrite !fetchRun_blocked by discriminate. reflexivity.
    + rewrite !fetchRun_blocked by discriminate. reflexivity.
    + rewrite !fetchRun_blocked by discriminate. reflexivity.
Qed.

(** [Next] does not depend on the schedule: a call that finds the goroutine
    [ahead] turns further is the call that waits for it to make them. *)
Lemma Next_any_schedule (fuel ahead : nat) (w : W) (itr : iterator T) :
  err itr = None -> ctxDone itr = false ->
  Next T decode fuel w
    (withTask T itr
       (fetchRun T decode ahead w (client itr) (generation itr) false
          (task itr)))
  = Next T decode (ahead + fuel) w itr.
Proof.
  intros Herr Hd. unfold Next, withTask. simpl. rewrite Herr, Hd.
  rewrite fetchRun_add.
  destruct (fetchRun T decode fuel w (client itr) (generation itr) false
              (fetchRun T decode ahead w (client itr) (generation itr) false
                 (task itr))); reflexivity.
Qed.

(** Cancelled at the end of the listing, the goroutine drops what is left of
    its page and returns nil, wherever it has come by itself. *)
Lemma fetchRun_last_page (w : W) (c : ReplicaClient) (generation dir : string)
  (marker : azblob.Marker) (items : list azblob.BlobItem)
  (fuel ahead : nat) :
  azblob.NotDone marker = false ->
  Forall (decodes T decode generation) items ->
  (List.length items + 1 < fuel)%nat ->
  fetchRun T decode fuel w c generation true
    (fetchRun T decode ahead w c generation false
       (fetchItems T decode generation dir items marker))
  = Returned None.
Proof.
  intros Hn. revert fuel. induction items as [|item rest IH];
    intros fuel Hc Hf.
  - simpl fetchItems. destruct fuel as [|fuel]; [simpl in Hf; lia|].
    destruct ahead as [|ahead]; simpl; unfold fetchPage; rewrite Hn.
    + apply fetchRun_returned.
    + rewrite fetchRun_returned. reflexivity.
  - inv Hc. simpl in Hf. simpl fetchItems. unfold decodes in H1.
    destruct (decode generation item) as [|i|msg].
    + apply IH; [assumption | lia].
    + rewrite fetchRun_blocked by discriminate.
      destruct fuel as [|fuel]; [lia|]. simpl fetchRun.
      destruct (fetchRun_drops w c generation dir marker rest fuel H2
                  ltac:(lia)) as (fuel' & Hp & Hr).
      rewrite Hr. destruct fuel' as [|fuel']; [lia|]. simpl.
      unfold fetchPage. rewrite Hn. apply fetchRun_returned.
    + exfalso. exact (H1 msg eq_refl).
Qed.

(** X13. [Close] before the end of the listing. When the goroutine stands in
    its select with an entry, the schedule does not matter: cancelled, it
    drops that entry and what is left of its page, and when its marker is not
    done it asks for the next page with the cancelled context; [Close]
    returns the error of that request, and nil when the marker is done. When
    the goroutine was left at the head of its loop, as by the constructor,
    the schedule decides: [Close] returns the error of the request made with
    the cancelled context when the goroutine had not been answered before,
    and nil when it had by then been given the last page of the listing. *)
Theorem Close_before_the_end (w : W) (h : azblob.ContainerURL)
  (itr : iterator T) (dir : string) (marker : azblob.Marker) (fuel : nat) :
  containerURL (client itr) = Some h ->
  err itr = None ->
  ctxDone itr = false ->
  (forall info rest ahead,
      task itr = AtSend dir info rest marker ->
      Forall (decodes T decode (generation itr)) rest ->
      (List.length rest + 1 < fuel)%nat ->
      (azblob.NotDone marker = false ->
       fst (Close T decode fuel ahead w itr) = Some None)
      /\ (forall e,
            azblob.NotDone marker = true ->
            ListBlobsFlatSegment w h true marker (dir ++ "/") = Err e ->
            fst (Close T decode fuel ahead w itr) = Some (Some e)))
  /\ (task itr = AtLoop dir marker ->
      azblob.NotDone marker = true ->
      (forall e,
          ListBlobsFlatSegment w h true marker (dir ++ "/") = Err e ->
          (0 < fuel)%nat ->
          fst (Close T decode fuel 0 w itr) = Some (Some e))
      /\ (forall resp ahead,
            ListBlobsFlatSegment w h false marker (dir ++ "/") = Ok resp ->
            azblob.NotDone (azblob.NextMarker resp) = false ->
            Forall (decodes T decode (generation itr))
              (azblob.BlobItems resp) ->
            (List.length (azblob.BlobItems resp) + 1 < fuel)%nat ->
            fst (Close T decode fuel (S ahead) w itr) = Some None)).
Proof.
  intros Hh Herr Hd. split.
  - intros i rest ahead Ht Hc Hf. unfold Close. rewrite Ht, Herr, Hd.
    rewrite fetchRun_blocked by discriminate.
    destruct fuel as [|fuel]; [lia|]. simpl fetchRun.
    destruct (fetchRun_drops w (client itr) (generation itr) dir marker rest
                fuel Hc ltac:(lia)) as (fuel' & Hp & Hr).
    rewrite Hr. destruct fuel' as [|fuel']; [lia|]. simpl fetchRun.
    unfold fetchPage. split.
    + intros Hn. rewrite Hn, fetchRun_returned. reflexivity.
    + intros e Hn Hl. rewrite Hn, Hh, Hl, fetchRun_returned. reflexivity.
  - intros Ht Hn. split.
    + intros e Hl Hf. unfold Close. rewrite Ht, Herr, Hd.
      destruct fuel as [|fuel]; [lia|]. simpl fetchRun.
      unfold fetchPage. rewrite Hn, Hh, Hl, fetchRun_returned. reflexivity.
    + intros resp ahead Hl Hm Hc Hf. unfold Close. rewrite Ht, Herr, Hd.
      simpl fetchRun. unfold fetchPage at 1. rewrite Hn, Hh, Hl.
      rewrite fetchRun_last_page by assumption. reflexivity.
Qed.

End MoreIteratorProperties.

Lemma entries_length (T : Type)
  (decode : string -> azblob.BlobItem -> entry T) (generation : string)
  (items : list azblob.BlobItem) :
  (List.length (entries T decode generation items) <= List.length items)%nat.
Proof.
  induction items as [|item rest IH]; simpl; [lia|].
  destruct (decode generation item); simpl; lia.
Qed.

Section MoreIteratorClaims.

Context {parser : url.Parser} {paths : litestream.Paths}.
Context {W : Type} {service : Service W}.

Lemma snapshotEntry_decodes (generation : string) (item : azblob.BlobItem) :
  hasProperties item = true ->
  decodes SnapshotInfo.t snapshotEntry generation item.
Proof.
  unfold hasProperties, decodes, snapshotEntry. intros H msg.
  destruct (litestream.ParseSnapshotPath _); [|discriminate].
  destruct (azblob.ContentLength _); [|discriminate].
  destruct (azblob.CreationTime _); discriminate.
Qed.

Lemma walSegmentEntry_decodes (generation : string) (item : azblob.BlobItem) :
  hasProperties item = true ->
  decodes WALSegmentInfo.t walSegmentEntry generation item.
Proof.
  unfold hasProperties, decodes, walSegmentEntry. intros H msg.
  destruct (litestream.ParseWALSegmentPath _) as [[i o]|]; [|discriminate].
  destruct (azblob.ContentLength _); [|discriminate].
  destruct (azblob.CreationTime _); discriminate.
Qed.

(** X11. Every entry an iterator hands over comes from a blob that the store
    listed under the directory of the generation: its index (and offset) is
    what the last element of the blob's name parses to, its size and creation
    time are the blob's, the time in UTC, and its generation is the one the
    iterator was made for. *)
Theorem entries_come_from_listed_blobs (c : ReplicaClient)
  (h : azblob.ContainerURL) (w : W) (generation dir : string)
  (k fuel : nat) :
  containerURL c = Some h ->
  (litestream.SnapshotsPath (path c) generation = Ok dir ->
   forall info,
     In info (fst (fst (iterate SnapshotInfo.t snapshotEntry k fuel w
                          (newSnapshotIterator generation c)))) ->
     exists item created,
       In item (listed (k * fuel) w h (dir ++ "/") azblob.zeroMarker)
       /\ litestream.ParseSnapshotPath (path.Base (azblob.Name item))
          = Ok (SnapshotInfo.Index info)
       /\ azblob.ContentLength (azblob.Properties item)
          = Some (SnapshotInfo.Size info)
       /\ azblob.CreationTime (azblob.Properties item) = Some created
       /\ SnapshotInfo.CreatedAt info = time.UTC created
       /\ SnapshotInfo.Generation info = generation)
  /\ (litestream.WALPath (path c) generation = Ok dir ->
      forall info,
        In info (fst (fst (iterate WALSegmentInfo.t walSegmentEntry k fuel w
                             (newWALSegmentIterator generation c)))) ->
        exists item created,
          In item (listed (k * fuel) w h (dir ++ "/") azblob.zeroMarker)
          /\ litestream.ParseWALSegmentPath (path.Base (azblob.Name item))
             = Ok (WALSegmentInfo.Index info, WALSegmentInfo.Offset info)
          /\ azblob.ContentLength (azblob.Properties item)
             = Some (WALSegmentInfo.Size info)
          /\ azblob.CreationTime (azblob.Properties item) = Some created
          /\ WALSegmentInfo.CreatedAt info = time.UTC created
          /\ WALSegmentInfo.Generation info = generation).
Proof.
  intros Hh. split; intros Hd info Hin.
  - destruct (iterate_listed SnapshotInfo.t snapshotEntry _ _ _ _ _ _ _ _ _ _
                _ Hh Hd Hin) as (item & Hi & He).
    unfold snapshotEntry in He.
    destruct (litestream.ParseSnapshotPath _) as [index|] eqn:E1;
      [|discriminate].
    destruct (azblob.ContentLength _) as [size|] eqn:E2; [|discriminate].
    destruct (azblob.CreationTime _) as [created|] eqn:E3; [|discriminate].
    inv He. exists item, created. simpl. repeat split; auto.
  - destruct (iterate_listed WALSegmentInfo.t walSegmentEntry _ _ _ _ _ _ _ _
                _ _ _ Hh Hd Hin) as (item & Hi & He).
    unfold walSegmentEntry in He.
    destruct (litestream.ParseWALSegmentPath _) as [[index offset]|] eqn:E1;
      [|discriminate].
    destruct (azblob.ContentLength _) as [size|] eqn:E2; [|discriminate].
    destruct (azblob.CreationTime _) as [created|] eqn:E3; [|discriminate].
    inv He. exists item, created. simpl. repeat split; auto.
Qed.

Lemma new_iterator_complete (T : Type) (zero : T)
  (decode : string -> azblob.BlobItem -> entry T)
  (dirOf : string -> string -> result string) (dirError : string)
  (c : ReplicaClient) (h : azblob.ContainerURL) (w : W)
  (generation dir : string) (n k fuel : nat) :
  containerURL c = Some h ->
  (n < fuel)%nat ->
  dirOf (path c) generation = Ok dir ->
  listingEnds n w h (dir ++ "/") azblob.zeroMarker = true ->
  Forall (decodes T decode generation)
    (listed n w h (dir ++ "/") azblob.zeroMarker) ->
  (List.length (listed n w h (dir ++ "/") azblob.zeroMarker) < k)%nat ->
  fst (iterate T decode k fuel w
         (newIterator T zero dirOf dirError generation c))
  = (entries T decode generation
       (listed n w h (dir ++ "/") azblob.zeroMarker), Ended).
Proof.
  intros Hh Hf Hd He Hc Hk.
  pose proof (iterate_complete T decode w h n fuel k
                (newIterator T zero dirOf dirError generation c)) as H.
  simpl in H. unfold fetchStart in H. rewrite Hd in H.
  apply H; auto.
  unfold stream.
  pose proof (entries_length T decode generation
                (listed n w h (dir ++ "/") azblob.zeroMarker)). lia.
Qed.

(** X12. An iterator hands over everything: when the listing of the
    directory ends within [n] pages, by its last page or by an error, and the
    listed blobs carry their length and creation time, a loop with more turns
    than blobs, the goroutine taking more than [n] steps in each, sees exactly
    the entries of the listed blobs whose names parse, in the order listed
    and each once, and then [Next] returns false. *)
Theorem iteration_is_complete (c : ReplicaClient) (h : azblob.ContainerURL)
  (w : W) (generation dir : string) (n k fuel : nat) :
  containerURL c = Some h ->
  (n < fuel)%nat ->
  listingEnds n w h (dir ++ "/") azblob.zeroMarker = true ->
  Forall (fun item => hasProperties item = true)
    (listed n w h (dir ++ "/") azblob.zeroMarker) ->
  (List.length (listed n w h (dir ++ "/") azblob.zeroMarker) < k)%nat ->
  (litestream.SnapshotsPath (path c) generation = Ok dir ->
   fst (iterate SnapshotInfo.t snapshotEntry k fuel w
          (newSnapshotIterator generation c))
   = (entries SnapshotInfo.t snapshotEntry generation
        (listed n w h (dir ++ "/") azblob.zeroMarker), Ended))
  /\ (litestream.WALPath (path c) generation = Ok dir ->
      fst (iterate WALSegmentInfo.t walSegmentEntry k fuel w
             (newWALSegmentIterator generation c))
      = (entries WALSegmentInfo.t walSegmentEntry generation
           (listed n w h (dir ++ "/") azblob.zeroMarker), Ended)).
Proof.
  intros Hh Hf He Hp Hk. split; intros Hd.
  - eapply new_iterator_complete; eauto.
    eapply Forall_impl; [|exact Hp].
    intros item. apply snapshotEntry_decodes.
  - eapply new_iterator_complete; eauto.
    eapply Forall_impl; [|exact Hp].
    intros item. apply walSegmentEntry_decodes.
Qed.

End MoreIteratorClaims.

(* ================================================================= *)
(** ** The further properties at work *)

Section MoreOnTheMemoryStore.

#[local] Existing Instance SimpleURL.Parser.
#[local] Existing Instance Memory.Service.
#[local] Existing Instance Memory.Bytes.
#[local] Existing Instance Example.paths.

Lemma Generations_lists_generation_names_witness :
  Generations 3 Example.ready Example.world
  = Returns (Ok [Example.generation], Example.ready)
  /\ containerURL Example.ready = Some Example.handle
  /\ Forall (fun g => litestream.IsGenerationName g = true)
       [Example.generation].
Proof.
  assert (H1 : Generations 3 Example.ready Example.world
               = Returns (Ok [Example.generation], Example.ready))
    by reflexivity.
  assert (H2 : containerURL Example.ready = Some Example.handle)
    by reflexivity.
  split; [exact H1|]. split; [exact H2|].
  exact (proj2 (Generations_lists_generation_names 3 Example.ready
                  Example.ready Example.handle Example.world
                  [Example.generation] H1 H2)).
Defined.

Lemma DeleteGeneration_stops_at_first_error_witness :
  let w :=
    {| Memory.now := Example.noon;
       Memory.blobs := [Example.snapshot0; Example.segment0;
                        Example.segment1; Example.segment2];
       Memory.pageSize := 2; Memory.hidden := None;
       Memory.listFault := None;
       Memory.deleteFault :=
         Some (Memory.blobName Example.segment0, Example.leaseHeld) |} in
  let w' :=
    {| Memory.now := Example.noon;
       Memory.blobs := [Example.segment0; Example.segment1;
                        Example.segment2];
       Memory.pageSize := 2; Memory.hidden := None;
       Memory.listFault := None;
       Memory.deleteFault :=
         Some (Memory.blobName Example.segment0, Example.leaseHeld) |} in
  Init Example.ready = (None, Example.ready)
  /\ containerURL Example.ready = Some Example.handle
  /\ DeleteGeneration 3 Example.ready w Example.generation
     = Returns (Some Example.leaseHeld, Example.ready, w').
Proof.
  cbv zeta.
  assert (H1 : Init Example.ready = (None, Example.ready)) by reflexivity.
  assert (H2 : containerURL Example.ready = Some Example.handle)
    by reflexivity.
  split; [exact H1|]. split; [exact H2|].
  refine (proj1 (DeleteGeneration_stops_at_first_error Example.ready
                   Example.ready Example.handle _ _ Example.generation
                   "db/prod/generations/0123456789abcdef"
                   {| azblob.NextMarker :=
                        {| azblob.Val :=
                             Some (Memory.blobName Example.segment1) |};
                      azblob.BlobItems :=
                        map Memory.item
                          [Example.snapshot0; Example.segment0] |}
                   Example.leaseHeld 2 H1 H2 _ _ _)); reflexivity.
Defined.

Lemma handle_is_made_once_witness :
  containerURL Example.ready = Some Example.handle
  /\ performAll Example.ready Example.world
       [CallDeleteSnapshot Example.generation 0; CallInit;
        CallWALSegments Example.generation]
     = Some (Example.ready,
             Example.store
               [Example.segment0; Example.segment1; Example.segment2]).
Proof.
  assert (H1 : containerURL Example.ready = Some Example.handle)
    by reflexivity.
  assert (H2 : performAll Example.ready Example.world
                 [CallDeleteSnapshot Example.generation 0; CallInit;
                  CallWALSegments Example.generation]
               = Some (Example.ready,
                       Example.store
                         [Example.segment0; Example.segment1;
                          Example.segment2])) by reflexivity.
  split; [|exact H2].
  exact (handle_is_made_once _ _ _ _ _ _ H1 H2).
Defined.

Lemma NewReplicaClient_splits_path_witness :
  url.Parse Example.sasUrl = Ok (Example.parsed Example.sasUrl)
  /\ NewReplicaClient Example.sasUrl = Ok Example.fresh
  /\ slashFree
       (strings.TrimPrefix (url.Path (Example.parsed Example.sasUrl)) "/")
     = false
  /\ "backups/db/prod"
     = container Example.fresh ++ "/" ++ path Example.fresh.
Proof.
  assert (H1 : url.Parse Example.sasUrl = Ok (Example.parsed Example.sasUrl))
    by reflexivity.
  assert (H2 : NewReplicaClient Example.sasUrl = Ok Example.fresh)
    by reflexivity.
  assert (H3 : slashFree
                 (strings.TrimPrefix
                    (url.Path (Example.parsed Example.sasUrl)) "/") = false)
    by reflexivity.
  split; [exact H1|]. split; [exact H2|]. split; [exact H3|].
  exact (proj2 (proj2 (NewReplicaClient_splits_path _ _ _ H1 H2)) H3).
Defined.

Lemma write_is_the_upload_witness :
  Init Example.fresh = (None, Example.ready)
  /\ containerURL Example.ready = Some Example.handle
  /\ WriteWALSegment Example.fresh Example.world (Example.pos 2 0)
       Example.payload
     = Returns
         (Ok {| WALSegmentInfo.Generation := Example.generation;
                WALSegmentInfo.Index := 2;
                WALSegmentInfo.Offset := 0;
                WALSegmentInfo.Size := 10;
                WALSegmentInfo.CreatedAt := time.UTC Example.noon |},
          Example.ready,
          snd (fst (runUpload
                      (UploadStreamToBlockBlob Example.world Example.handle
                         (Example.walDir ++ "/00000002_00000000.wal.lz4"))
                      Example.payload)),
          []).
Proof.
  assert (H1 : Init Example.fresh = (None, Example.ready)) by reflexivity.
  assert (H2 : containerURL Example.ready = Some Example.handle)
    by reflexivity.
  split; [exact H1|]. split; [exact H2|].
  assert (H3 : litestream.WALSegmentPath (path Example.ready)
                 (Pos.Generation (Example.pos 2 0))
                 (Pos.Index (Example.pos 2 0)) (Pos.Offset (Example.pos 2 0))
               = Ok (Example.walDir ++ "/00000002_00000000.wal.lz4"))
    by reflexivity.
  rewrite (proj2 (write_is_the_upload _ Memory.Bytes Example.fresh
                    Example.ready Example.handle Example.world
                    Example.payload H1 H2) (Example.pos 2 0) _ H3).
  vm_compute. reflexivity.
Defined.

Lemma invalid_generation_surfaces_in_Close_witness :
  Init Example.fresh = (None, Example.ready)
  /\ litestream.SnapshotsPath (path Example.ready) "latest"
     = Err (Errorf "invalid generation: %s" ["latest"])
  /\ exists itr,
       Snapshots Example.fresh "latest" = (Ok itr, Example.ready)
       /\ snapshotIterator_Next 3 Example.world itr = (Some false, itr)
       /\ snapshotIterator_Err itr = None
       /\ fst (snapshotIterator_Close 3 1 Example.world itr)
          = Some (Some (ErrorfW "cannot determine snapshots path: %w" []
                          (Errorf "invalid generation: %s" ["latest"]))).
Proof.
  assert (H1 : Init Example.fresh = (None, Example.ready)) by reflexivity.
  assert (H2 : litestream.SnapshotsPath (path Example.ready) "latest"
               = Err (Errorf "invalid generation: %s" ["latest"]))
    by reflexivity.
  split; [exact H1|]. split; [exact H2|].
  exact (proj1 (invalid_generation_surfaces_in_Close Example.fresh
                  Example.ready Example.world "latest" 3 1 H1) _ H2).
Defined.

Lemma Next_false_is_final_witness :
  let itr := newSnapshotIterator Example.generation Example.ready in
  let itr1 := snd (snapshotIterator_Next 3 (Example.store []) itr) in
  snapshotIterator_Next 3 (Example.store []) itr = (Some false, itr1)
  /\ snapshotIterator_Next 3 Example.world itr1 = (Some false, itr1).
Proof.
  cbv zeta.
  assert (H : Next SnapshotInfo.t snapshotEntry 3 (Example.store [])
                (newSnapshotIterator Example.generation Example.ready)
              = (Some false,
                 snd (snapshotIterator_Next 3 (Example.store [])
                        (newSnapshotIterator Example.generation
                           Example.ready)))) by reflexivity.
  split; [exact H|].
  exact (Next_false_is_final SnapshotInfo.t snapshotEntry _ _ _ _ H
           3 Example.world).
Defined.

Lemma Close_is_final_witness :
  let itr := newWALSegmentIterator Example.generation Example.ready in
  let itr1 := snd (walSegmentIterator_Close 4 1 Example.world itr) in
  walSegmentIterator_Close 4 1 Example.world itr
  = (Some (Some Memory.canceled), itr1)
  /\ walSegmentIterator_Close 3 0 Example.world itr1
     = (Some (Some Memory.canceled), itr1)
  /\ walSegmentIterator_Next 3 Example.world itr1 = (Some false, itr1).
Proof.
  cbv zeta.
  assert (H : Close WALSegmentInfo.t walSegmentEntry 4 1 Example.world
                (newWALSegmentIterator Example.generation Example.ready)
              = (Some (Some Memory.canceled),
                 snd (walSegmentIterator_Close 4 1 Example.world
                        (newWALSegmentIterator Example.generation
                           Example.ready)))) by reflexivity.
  split; [exact H|].
  destruct (Close_is_final WALSegmentInfo.t walSegmentEntry _ _ _ _ _ _ H
              3 0 Example.world) as (Hc & Hn & _).
  split; [exact Hc | exact Hn].
Defined.

Lemma entries_come_from_listed_blobs_witness :
  containerURL Example.ready = Some Example.handle
  /\ litestream.WALPath (path Example.ready) Example.generation
     = Ok Example.walDir
  /\ In (Example.segmentInfo 0 4096)
       (fst (fst (iterate WALSegmentInfo.t walSegmentEntry 5 3 Example.world
                    (newWALSegmentIterator Example.generation
                       Example.ready))))
  /\ exists item created,
       In item (listed (5 * 3) Example.world Example.handle
                  (Example.walDir ++ "/") azblob.zeroMarker)
       /\ litestream.ParseWALSegmentPath (path.Base (azblob.Name item))
          = Ok (0, 4096)%Z
       /\ azblob.ContentLength (azblob.Properties item) = Some 3%Z
       /\ azblob.CreationTime (azblob.Properties item) = Some created
       /\ time.UTC Example.noon = time.UTC created
       /\ Example.generation = Example.generation.
Proof.
  assert (H1 : containerURL Example.ready = Some Example.handle)
    by reflexivity.
  assert (H2 : litestream.WALPath (path Example.ready) Example.generation
               = Ok Example.walDir) by reflexivity.
  assert (H3 : In (Example.segmentInfo 0 4096)
                 (fst (fst (iterate WALSegmentInfo.t walSegmentEntry 5 3
                              Example.world
                              (newWALSegmentIterator Example.generation
                                 Example.ready)))))
    by (vm_compute; auto).
  split; [exact H1|]. split; [exact H2|]. split; [exact H3|].
  exact (proj2 (entries_come_from_listed_blobs Example.ready Example.handle
                  Example.world Example.generation Example.walDir 5 3 H1)
           H2 _ H3).
Defined.

Lemma iteration_is_complete_witness :
  containerURL Example.ready = Some Example.handle
  /\ listingEnds 2 Example.strayWorld Example.handle (Example.walDir ++ "/")
       azblob.zeroMarker = true
  /\ List.length
       (listed 2 Example.strayWorld Example.handle (Example.walDir ++ "/")
          azblob.zeroMarker) = 4%nat
  /\ fst (iterate WALSegmentInfo.t walSegmentEntry 5 3 Example.strayWorld
            (newWALSegmentIterator Example.generation Example.ready))
     = ([Example.segmentInfo 0 0; Example.segmentInfo 0 4096;
         Example.segmentInfo 1 0], Ended).
Proof.
  assert (H1 : containerURL Example.ready = Some Example.handle)
    by reflexivity.
  assert (H2 : listingEnds 2 Example.strayWorld Example.handle
                 (Example.walDir ++ "/") azblob.zeroMarker = true)
    by reflexivity.
  assert (H3 : Forall (fun item => hasProperties item = true)
                 (listed 2 Example.strayWorld Example.handle
                    (Example.walDir ++ "/") azblob.zeroMarker))
    by (vm_compute (listed _ _ _ _ _); repeat constructor).
  assert (H4 : (List.length
                  (listed 2 Example.strayWorld Example.handle
                     (Example.walDir ++ "/") azblob.zeroMarker) < 5)%nat)
    by (vm_compute; lia).
  assert (H5 : litestream.WALPath (path Example.ready) Example.generation
               = Ok Example.walDir) by reflexivity.
  split; [exact H1|]. split; [exact H2|]. split; [reflexivity|].
  rewrite (proj2 (iteration_is_complete Example.ready Example.handle
                    Example.strayWorld Example.generation Example.walDir
                    2 5 3 H1 ltac:(lia) H2 H3 H4) H5).
  vm_compute. reflexivity.
Defined.

Lemma Close_before_the_end_witness :
  let itr := newWALSegmentIterator Example.generation Example.ready in
  let itr1 := snd (walSegmentIterator_Next 3 Example.world itr) in
  let marker := {| azblob.Val := Some (Memory.blobName Example.segment2) |} in
  (fst (walSegmentIterator_Next 3 Example.world itr) = Some true
   /\ task itr1
      = AtSend Example.walDir (Example.segmentInfo 0 4096) [] marker
   /\ ListBlobsFlatSegment Example.world Example.handle true marker
        (Example.walDir ++ "/") = Err Memory.canceled
   /\ forall ahead,
        fst (walSegmentIterator_Close 3 ahead Example.world itr1)
        = Some (Some Memory.canceled))
  /\ (task itr = AtLoop Example.walDir azblob.zeroMarker
      /\ fst (walSegmentIterator_Close 3 0 Example.smallWorld itr)
         = Some (Some Memory.canceled)
      /\ forall ahead,
           fst (walSegmentIterator_Close 3 (S ahead) Example.smallWorld itr)
           = Some None).
Proof.
  cbv zeta.
  set (itr := newWALSegmentIterator Example.generation Example.ready).
  set (itr1 := snd (walSegmentIterator_Next 3 Example.world itr)).
  set (marker := {| azblob.Val := Some (Memory.blobName Example.segment2) |}).
  assert (H1 : containerURL (client itr1) = Some Example.handle)
    by reflexivity.
  assert (H2 : err itr1 = None) by reflexivity.
  assert (H3 : ctxDone itr1 = false) by reflexivity.
  assert (H4 : task itr1
               = AtSend Example.walDir (Example.segmentInfo 0 4096) []
                   marker) by reflexivity.
  assert (H5 : ListBlobsFlatSegment Example.world Example.handle true marker
                 (Example.walDir ++ "/") = Err Memory.canceled)
    by reflexivity.
  assert (G1 : containerURL (client itr) = Some Example.handle)
    by reflexivity.
  assert (G2 : err itr = None) by reflexivity.
  assert (G3 : ctxDone itr = false) by reflexivity.
  assert (G4 : task itr = AtLoop Example.walDir azblob.zeroMarker)
    by reflexivity.
  assert (G5 : ListBlobsFlatSegment Example.smallWorld Example.handle true
                 azblob.zeroMarker (Example.walDir ++ "/")
               = Err Memory.canceled) by reflexivity.
  assert (G6 : ListBlobsFlatSegment Example.smallWorld Example.handle false
                 azblob.zeroMarker (Example.walDir ++ "/")
               = Ok {| azblob.NextMarker := {| azblob.Val := Some "" |};
                       azblob.BlobItems := [Memory.item Example.segment0] |})
    by reflexivity.
  assert (G7 : Forall (decodes WALSegmentInfo.t walSegmentEntry
                         (generation itr))
                 [Memory.item Example.segment0]).
  { repeat constructor. intros msg. vm_compute. discriminate. }
  split.
  - split; [reflexivity|]. split; [exact H4|]. split; [exact H5|].
    intros ahead.
    refine (proj2 (proj1 (Close_before_the_end WALSegmentInfo.t
                            walSegmentEntry Example.world Example.handle itr1
                            Example.walDir marker 3 H1 H2 H3)
                     (Example.segmentInfo 0 4096) [] ahead H4
                     (Forall_nil _) _)
              Memory.canceled _ H5).
    + simpl. lia.
    + reflexivity.
  - split; [exact G4|].
    destruct (proj2 (Close_before_the_end WALSegmentInfo.t walSegmentEntry
                       Example.smallWorld Example.handle itr Example.walDir
                       azblob.zeroMarker 3 G1 G2 G3) G4 eq_refl)
      as [Hfirst Hlater].
    split.
    + apply (Hfirst Memory.canceled G5). lia.
    + intros ahead. apply (Hlater _ ahead G6).
      * reflexivity.
      * exact G7.
      * simpl. lia.
Defined.

End MoreOnTheMemoryStore.
